(** * Attendance ledger of the student model

    A shallow embedding of the ledger methods of [models/student.model.js]
    ([markAttendance], [getAttendanceStats], [clearAttendanceHistory],
    [deleteAttendanceRecord], [getFilteredAttendanceHistory]) and of the
    scan-intent branch of the QR controller, followed by the properties the
    specification states about them.  Further code that reads or writes the
    ledger is embedded too: the [calculateAttendancePercentage] virtual, the
    validator and pre-save hook of [parent_telephone], the loop bodies of the
    scheduled [autoMarkLeaveAttendance] job and of the admin's
    [runAutoCheckout], the admin's [markStudentAttendance], the repair of
    [lastAttendance] in [getAllStudents], and [formatPhoneNumber] of the
    WhatsApp service.

    Modelling conventions.
    - A JavaScript [Date] is its time value: milliseconds since the epoch,
      an integer ([Z]).  A nullable date is an [option Z].
    - The local time zone of the server is a fixed offset [tzOffset]
      (milliseconds east of UTC), a variable of the section.
    - [attendanceCount] is an integer.  A percentage is carried as the
      exact value ([Q]) of the expression that computes it,
      [(present / total) * 100]; the theorems say of it which expression
      on which counts it is the value of, and its bounds and order.  The
      number the code stores is that expression in IEEE doubles,
      [percentageOfDouble] on the same two counts, which is not always
      [100 * present / total].
    - The methods mutate [this] and then call [save()]; the embedding
      passes the student explicitly and takes [save()] to succeed.
    - [new Date()] and the [_id] that Mongoose gives a pushed subdocument
      are inputs of the embedded method ([now], [freshId]). *)

From Stdlib Require Import ZArith QArith Qabs Lia Lqa String Sorted.
From stdpp Require Import base list.

Local Open Scope Z_scope.

(** ** Data model *)

Inductive Status : Set := Present | Absent | Left | Entered.

Definition Status_eqb (a b : Status) : bool :=
  match a, b with
  | Present, Present | Absent, Absent | Left, Left | Entered, Entered => true
  | _, _ => false
  end.

(** An ObjectId is identified with its hexadecimal string
    ([record._id.toString()]). *)
Definition ObjectId := string.

Record AttendanceRecord : Set := mkRecord {
  _id : ObjectId;
  date : Z;
  status : Status;
  entryTime : option Z;
  leaveTime : option Z;
  verifiedBy : option ObjectId;
  scanLocation : string;
  deviceInfo : option string
}.

(** The ledger part of a student document.  The contact fields, [qrCode],
    [status] and [messages] are not read or written by the ledger methods. *)
Record Student : Type := mkStudent {
  attendanceHistory : list AttendanceRecord;
  attendanceCount : Z;
  attendancePercentage : Q;
  lastAttendance : option Z
}.

(** A student as the schema defaults create it. *)
Definition newStudent : Student :=
  {| attendanceHistory := [];
     attendanceCount := 0;
     attendancePercentage := 0%Q;
     lastAttendance := None |}.

(** Outcome of a method that may [throw]. *)
Inductive Outcome (A : Type) : Type :=
| Returned (a : A)
| Thrown (message : string).
Arguments Returned {A} a.
Arguments Thrown {A} message.

(** ** JavaScript primitives used by the methods *)

(** Truthiness of a nullable string argument: [null] and the empty string
    are falsy. *)
Definition truthy (v : option string) : bool :=
  match v with
  | Some s => negb (String.eqb s "")
  | None => false
  end.

(** [a || b] on nullable strings. *)
Definition orElse (a b : option string) : option string :=
  if truthy a then a else b.

(** [a || d] for a string [d]. *)
Definition orDefault (a : option string) (d : string) : string :=
  match a with
  | Some s => if truthy a then s else d
  | None => d
  end.

(** A nullable [Date]: any [Date] object is truthy, [null] is falsy. *)
Definition isSet (d : option Z) : bool :=
  match d with Some _ => true | None => false end.

(** [Array.prototype.findIndex]; [None] stands for [-1]. *)
Fixpoint findIndex {A : Type} (p : A -> bool) (l : list A) : option nat :=
  match l with
  | [] => None
  | x :: l' => if p x then Some 0%nat else S <$> findIndex p l'
  end.

(** [Array.prototype.sort] with a comparator returning a number: a stable
    insertion sort, an element going before the first later element it does
    not compare greater than. *)
Fixpoint insertBy {A : Type} (cmp : A -> A -> Z) (x : A) (l : list A) : list A :=
  match l with
  | [] => [x]
  | y :: l' => if cmp x y <=? 0 then x :: y :: l' else y :: insertBy cmp x l'
  end.

Definition sortWith {A : Type} (cmp : A -> A -> Z) (l : list A) : list A :=
  foldr (insertBy cmp) [] l.

(** [Array.prototype.slice(start, end)] on integer arguments: a negative
    index counts from the end, and both are clamped to the array. *)
Definition clampIndex (len k : Z) : Z :=
  if k <? 0 then Z.max (len + k) 0 else Z.min k len.

Definition slice {A : Type} (l : list A) (first last : Z) : list A :=
  let len := Z.of_nat (length l) in
  let k := clampIndex len first in
  let final := clampIndex len last in
  take (Z.to_nat (final - k)) (drop (Z.to_nat k) l).

(** The result of [parseInt(v, 10)]. *)
Inductive ParsedInt : Set := NaN | Int (n : Z).

(** [new Date(v)] for a truthy argument [v]: an instant, or an invalid
    date, every comparison with which is false. *)
Inductive DateArg : Set := ValidDate (t : Z) | InvalidDate.

(** ** Derived counters *)

Definition isPresentOrEntered (r : AttendanceRecord) : bool :=
  match status r with Present | Entered => true | _ => false end.

Definition isPresent (r : AttendanceRecord) : bool :=
  Status_eqb (status r) Present.

Definition isAbsent (r : AttendanceRecord) : bool :=
  Status_eqb (status r) Absent.

Definition countIf (p : AttendanceRecord -> bool) (h : list AttendanceRecord) : Z :=
  Z.of_nat (length (List.filter p h)).

(** [totalRecords > 0 ? (presentRecords / totalRecords) * 100 : 0], the
    expression read in exact arithmetic. *)
Definition percentageOf (presentRecords totalRecords : Z) : Q :=
  if 0 <? totalRecords
  then (inject_Z presentRecords / inject_Z totalRecords * 100)%Q
  else 0%Q.

Definition recomputePercentage (h : list AttendanceRecord) : Q :=
  percentageOf (countIf isPresentOrEntered h) (Z.of_nat (length h)).

(** *** The percentage as the double the code stores

    A JavaScript number is an IEEE 754 binary64 value, and [/] and [*]
    round their exact result to the nearest such value, ties to the even
    significand.  [roundPositive a b] is that value for the rational
    [a / b]: with [2^e <= a / b < 2^(e+1)], the quotient scaled by
    [2^(52-e)] is rounded to an integer significand of 53 bits and scaled
    back.  The range of the exponent is not modelled; the quotients and
    products of record counts lie far inside it. *)
Definition roundPositive (a b : positive) : Q :=
  let e0 := Z.log2 (Zpos a) - Z.log2 (Zpos b) in
  let e := if Zpos a * 2 ^ Z.max 0 (- e0) <? Zpos b * 2 ^ Z.max 0 e0
           then e0 - 1 else e0 in
  let k := 52 - e in
  let num := Zpos a * 2 ^ Z.max 0 k in
  let den := Zpos b * 2 ^ Z.max 0 (- k) in
  let m := num / den in
  let r := num mod den in
  let significand := if 2 * r <? den then m
                     else if den <? 2 * r then m + 1
                     else if Z.even m then m else m + 1 in
  (inject_Z (significand * 2 ^ Z.max 0 (- k)) / inject_Z (2 ^ Z.max 0 k))%Q.

Definition roundBinary64 (q : Q) : Q :=
  match Qnum q with
  | Z0 => 0%Q
  | Zpos a => roundPositive a (Qden q)
  | Zneg a => (- roundPositive a (Qden q))%Q
  end.

(** [totalRecords > 0 ? (presentRecords / totalRecords) * 100 : 0] in
    doubles.  The two counts are integers below [2^53], which a double
    holds exactly; the quotient is rounded, then the product. *)
Definition percentageOfDouble (presentRecords totalRecords : Z) : Q :=
  if 0 <? totalRecords
  then roundBinary64
         (roundBinary64 (inject_Z presentRecords / inject_Z totalRecords) * 100)
  else 0%Q.

(** The double that a recomputation stores in [attendancePercentage]. *)
Definition recomputePercentageDouble (h : list AttendanceRecord) : Q :=
  percentageOfDouble (countIf isPresentOrEntered h) (Z.of_nat (length h)).

(** ** Calendar days *)

Definition msPerDay : Z := 86400000.

(** [d.toISOString().split('T')[0]]: the UTC calendar day, as a day number. *)
Definition utcDay (t : Z) : Z := t / msPerDay.

(** ** Results and options of the read methods *)

Module AttendanceStats.

Record t : Type := mk {
  total : Z;
  present : Z;
  absent : Z;
  percentage : Q
}.

End AttendanceStats.

Module HistoryStats.

Record t : Type := mk {
  totalCount : Z;
  filteredCount : Z;
  presentCount : Z;
  absentCount : Z;
  attendancePercentage : Q
}.

End HistoryStats.

Record HistoryPage : Type := mkPage {
  records : list AttendanceRecord;
  totalRecords : Z;
  stats : HistoryStats.t
}.

(** The [options] of [getFilteredAttendanceHistory] after destructuring
    with its defaults: a falsy [startDate] or [endDate] is [None], a null
    [limit] is [None]; [limit] and [offset] are given by what
    [parseInt(_, 10)] makes of them. *)
Record HistoryOptions : Type := mkOptions {
  startDate : option DateArg;
  endDate : option DateArg;
  limit : option ParsedInt;
  offset : ParsedInt;
  sortBy : string;
  sortOrder : string
}.

Definition defaultOptions : HistoryOptions :=
  {| startDate := None; endDate := None; limit := None; offset := Int 0;
     sortBy := "date"; sortOrder := "desc" |}.

(** ** Field updates of a record *)

Definition set_status (v : Status) (r : AttendanceRecord) : AttendanceRecord :=
  mkRecord (_id r) (date r) v (entryTime r) (leaveTime r)
           (verifiedBy r) (scanLocation r) (deviceInfo r).

Definition set_entryTime (v : option Z) (r : AttendanceRecord) : AttendanceRecord :=
  mkRecord (_id r) (date r) (status r) v (leaveTime r)
           (verifiedBy r) (scanLocation r) (deviceInfo r).

Definition set_leaveTime (v : option Z) (r : AttendanceRecord) : AttendanceRecord :=
  mkRecord (_id r) (date r) (status r) (entryTime r) v
           (verifiedBy r) (scanLocation r) (deviceInfo r).

Definition set_verifiedBy (v : option ObjectId) (r : AttendanceRecord) : AttendanceRecord :=
  mkRecord (_id r) (date r) (status r) (entryTime r) (leaveTime r)
           v (scanLocation r) (deviceInfo r).

Definition set_scanLocation (v : string) (r : AttendanceRecord) : AttendanceRecord :=
  mkRecord (_id r) (date r) (status r) (entryTime r) (leaveTime r)
           (verifiedBy r) v (deviceInfo r).

Definition set_deviceInfo (v : option string) (r : AttendanceRecord) : AttendanceRecord :=
  mkRecord (_id r) (date r) (status r) (entryTime r) (leaveTime r)
           (verifiedBy r) (scanLocation r) v.

Definition defaultScanLocation : string := "Main Entrance".

(** The arguments of one call of [markAttendance], with the clock and the
    id of a pushed record. *)
Record MarkCall : Type := mkCall {
  callNow : Z;
  callFreshId : ObjectId;
  callStatus : Status;
  callAdminId : option ObjectId;
  callDeviceInfo : option string;
  callScanLocation : option string
}.

(** ** Example data

    A server in Asia/Colombo (UTC+05:30) and instants of 15 January 2024,
    local time. *)

Definition colombo : Z := 19800000.

Definition jan15_0800 : Z := 1705285800000.
Definition jan15_0805 : Z := 1705286100000.
Definition jan15_1200 : Z := 1705300200000.
Definition jan15_1700 : Z := 1705318200000.

(** A field comparison under which no two records are ordered. *)
Definition noFieldOrder (key : string) (a b : AttendanceRecord) : bool := false.

(** A record of a student who entered at 08:00 and left at 12:00. *)
Definition leftRecord : AttendanceRecord :=
  {| _id := "65a4e2f0c3a1b2d4e5f60001"%string;
     date := jan15_0800;
     status := Left;
     entryTime := Some jan15_0800;
     leaveTime := Some jan15_1200;
     verifiedBy := None;
     scanLocation := "Main Entrance";
     deviceInfo := None |}.

Definition leftStudent : Student :=
  {| attendanceHistory := [leftRecord];
     attendanceCount := 0;
     attendancePercentage := 0%Q;
     lastAttendance := Some jan15_1200 |}.

(** A call at [now] with [status] alone, as a self-service scan makes it: no
    verifier, no device, the default location.  The id only matters to the
    call that pushes a record. *)
Definition callAt (now : Z) (st : Status) : MarkCall :=
  {| callNow := now;
     callFreshId := "65a4e2f0c3a1b2d4e5f60001"%string;
     callStatus := st;
     callAdminId := None;
     callDeviceInfo := None;
     callScanLocation := Some defaultScanLocation |}.

(** Three calls of one day: arrival, departure, and a later 'present'. *)
Definition dayCalls : list MarkCall :=
  [callAt jan15_0800 Entered; callAt jan15_1200 Left; callAt jan15_1700 Present].

(** A query for the records from noon of 15 January on, unpaginated. *)
Definition fromNoon : HistoryOptions :=
  {| startDate := Some (ValidDate jan15_1200); endDate := None;
     limit := None; offset := Int 0; sortBy := "date"; sortOrder := "desc" |}.

(** The same query bounded above by an instant of 15 January. *)
Definition noonToDayEnd : HistoryOptions :=
  {| startDate := Some (ValidDate jan15_1200); endDate := Some (ValidDate jan15_1200);
     limit := None; offset := Int 0; sortBy := "date"; sortOrder := "desc" |}.

(** A record made at 17:00 of the same day. *)
Definition eveningRecord : AttendanceRecord :=
  {| _id := "65a4e2f0c3a1b2d4e5f60002"%string;
     date := jan15_1700;
     status := Present;
     entryTime := Some jan15_1700;
     leaveTime := None;
     verifiedBy := None;
     scanLocation := "Main Entrance";
     deviceInfo := None |}.

Definition twoRecordStudent : Student :=
  {| attendanceHistory := [leftRecord; eveningRecord];
     attendanceCount := 1;
     attendancePercentage := 50%Q;
     lastAttendance := Some jan15_1700 |}.

(** ** The ledger methods *)

Section Ledger.

(** Local time is UTC plus [tzOffset] milliseconds. *)
Variable tzOffset : Z.

(** [a[sortBy] < b[sortBy]] for a [sortBy] other than ['date']: the
    relational comparison of two field values, with JavaScript's coercions,
    is left abstract. *)
Variable fieldLt : string -> AttendanceRecord -> AttendanceRecord -> bool.

(** The local calendar day of an instant, as a day number:
    what [toDateString()] prints. *)
Definition localDay (t : Z) : Z := (t + tzOffset) / msPerDay.

(** [new Date(d.getFullYear(), d.getMonth(), d.getDate())] *)
Definition startOfLocalDay (t : Z) : Z := t - (t + tzOffset) mod msPerDay.

(** [d.setHours(23, 59, 59, 999)] *)
Definition endOfLocalDay (t : Z) : Z := startOfLocalDay t + (msPerDay - 1).

(** [a.toDateString() === b.toDateString()] *)
Definition sameDateString (a b : Z) : bool := localDay a =? localDay b.

(** *** markAttendance *)

(** The record pushed when today has none. *)
Definition newRecord (now : Z) (freshId : ObjectId) (st : Status)
    (adminId : option ObjectId) (deviceInfoArg scanLocationArg : option string)
  : AttendanceRecord :=
  {| _id := freshId;
     date := now;
     status := st;
     verifiedBy := adminId;
     scanLocation := orDefault scanLocationArg defaultScanLocation;
     deviceInfo := deviceInfoArg;
     entryTime := match st with Entered | Present => Some now | _ => None end;
     leaveTime := match st with Left => Some now | _ => None end |}.

(** The branch on [status] that updates today's record. *)
Definition applyStatus (now : Z) (st : Status) (todayRecord : AttendanceRecord)
  : AttendanceRecord :=
  match st with
  | Left => set_status Left (set_leaveTime (Some now) todayRecord)
  | Entered | Present =>
      let r1 := if isSet (entryTime todayRecord) then todayRecord
                else set_entryTime (Some now) todayRecord in
      if Status_eqb (status r1) Left then r1 else set_status st r1
  | Absent => todayRecord
  end.

(** "Update additional fields regardless of status". *)
Definition applyProvenance (adminId : option ObjectId)
    (deviceInfoArg scanLocationArg : option string) (r : AttendanceRecord)
  : AttendanceRecord :=
  let r1 := set_verifiedBy (orElse adminId (verifiedBy r)) r in
  let r2 := if truthy scanLocationArg
            then set_scanLocation (orDefault scanLocationArg (scanLocation r1)) r1
            else r1 in
  if truthy deviceInfoArg then set_deviceInfo deviceInfoArg r2 else r2.

(** Index of today's record: the first record whose date prints the same
    [toDateString()] as today's midnight. *)
Definition todayIndex (now : Z) (h : list AttendanceRecord) : option nat :=
  let today := startOfLocalDay now in
  findIndex (fun record => sameDateString (date record) today) h.

Definition markAttendance (this : Student) (now : Z) (freshId : ObjectId)
    (st : Status) (adminId : option ObjectId)
    (deviceInfoArg scanLocationArg : option string) : Student :=
  let h := attendanceHistory this in
  let '(h', count') :=
    match todayIndex now h with
    | None =>
        (h ++ [newRecord now freshId st adminId deviceInfoArg scanLocationArg],
         if Status_eqb st Present then attendanceCount this + 1
         else attendanceCount this)
    | Some i =>
        match h !! i with
        | Some todayRecord =>
            let r1 := applyStatus now st todayRecord in
            (<[i := applyProvenance adminId deviceInfoArg scanLocationArg r1]> h,
             if Status_eqb st Present && negb (isSet (leaveTime r1))
             then attendanceCount this + 1
             else attendanceCount this)
        | None => (h, attendanceCount this) (* findIndex is within bounds *)
        end
    end in
  {| attendanceHistory := h';
     attendanceCount := count';
     attendancePercentage := recomputePercentage h';
     lastAttendance := Some now |}.

(** *** getAttendanceStats *)

(** One step of the [forEach] over the records in range. *)
Definition tally (acc : Z * Z) (record : AttendanceRecord) : Z * Z :=
  match status record with
  | Present => (fst acc + 1, snd acc)
  | Absent => (fst acc, snd acc + 1)
  | _ => acc
  end.

Definition inRange (startDate endDate : Z) (record : AttendanceRecord) : bool :=
  (startDate <=? date record) && (date record <=? endDate).

Definition getAttendanceStats (this : Student) (startDate endDate : Z)
  : AttendanceStats.t :=
  let recs := List.filter (inRange startDate endDate) (attendanceHistory this) in
  let total := Z.of_nat (length recs) in
  let counts := foldl tally (0, 0) recs in
  {| AttendanceStats.total := total;
     AttendanceStats.present := fst counts;
     AttendanceStats.absent := snd counts;
     AttendanceStats.percentage := percentageOf (fst counts) total |}.

(** *** clearAttendanceHistory *)

Definition clearAttendanceHistory (this : Student) : Student :=
  {| attendanceHistory := [];
     attendanceCount := 0;
     attendancePercentage := 0%Q;
     lastAttendance := None |}.

(** *** deleteAttendanceRecord *)

(** [(a, b) => new Date(b.date) - new Date(a.date)] *)
Definition byDateDesc (a b : AttendanceRecord) : Z := date b - date a.

(** [sortedHistory[0].date] of a non-empty history, [null] otherwise. *)
Definition latestBySort (h : list AttendanceRecord) : option Z :=
  date <$> head (sortWith byDateDesc h).

(** The method returns the state of [this] when it ends, and either
    [deletedRecord] (with [updatedStudent] being that state) or the error
    it throws. *)
Definition deleteAttendanceRecord (this : Student) (recordId : string)
  : Student * Outcome AttendanceRecord :=
  let h := attendanceHistory this in
  match findIndex (fun record => String.eqb (_id record) recordId) h with
  | None => (this, Thrown "Attendance record not found")
  | Some recordIndex =>
      match h !! recordIndex with
      | Some deletedRecord =>
          let h' := delete recordIndex h in
          let count' :=
            if isPresentOrEntered deletedRecord
            then Z.max 0 (attendanceCount this - 1)
            else attendanceCount this in
          ({| attendanceHistory := h';
              attendanceCount := count';
              attendancePercentage := recomputePercentage h';
              lastAttendance := latestBySort h' |},
           Returned deletedRecord)
      | None => (this, Thrown "unreachable") (* findIndex is within bounds *)
      end
  end.

(** *** getFilteredAttendanceHistory *)

(** [new Date(record.date) >= start] *)
Definition notBefore (start : DateArg) (record : AttendanceRecord) : bool :=
  match start with
  | ValidDate s => s <=? date record
  | InvalidDate => false
  end.

(** [new Date(record.date) <= end], [end] being [new Date(endDate)] moved
    to the last millisecond of its local day. *)
Definition notAfter (endArg : DateArg) (record : AttendanceRecord) : bool :=
  match endArg with
  | ValidDate e => date record <=? endOfLocalDay e
  | InvalidDate => false
  end.

Definition applyStart (start : option DateArg) (h : list AttendanceRecord)
  : list AttendanceRecord :=
  match start with
  | Some s => List.filter (notBefore s) h
  | None => h
  end.

Definition applyEnd (endArg : option DateArg) (h : list AttendanceRecord)
  : list AttendanceRecord :=
  match endArg with
  | Some e => List.filter (notAfter e) h
  | None => h
  end.

(** The comparator of the sort. *)
Definition historyCmp (key : string) (order : Z) (a b : AttendanceRecord) : Z :=
  if String.eqb key "date" then order * (date a - date b)
  else if fieldLt key a b then -1 * order
  else if fieldLt key b a then 1 * order
  else 0.

(** [filteredHistory.slice(start, start + size)], with
    [start = parseInt(offset, 10) || 0] and [size = parseInt(limit, 10)];
    a [NaN] end index counts as 0. *)
Definition paginate (lim : option ParsedInt) (off : ParsedInt)
    (filteredHistory : list AttendanceRecord) : list AttendanceRecord :=
  match lim with
  | None => filteredHistory
  | Some size =>
      let start := match off with Int n => n | NaN => 0 end in
      match size with
      | Int n => slice filteredHistory start (start + n)
      | NaN => slice filteredHistory start 0
      end
  end.

Definition getFilteredAttendanceHistory (this : Student) (options : HistoryOptions)
  : HistoryPage :=
  let filtered :=
    applyEnd (endDate options) (applyStart (startDate options) (attendanceHistory this)) in
  let order := if String.eqb (sortOrder options) "asc" then 1 else -1 in
  let sorted := sortWith (historyCmp (sortBy options) order) filtered in
  let totalCount := Z.of_nat (length sorted) in
  {| records := paginate (limit options) (offset options) sorted;
     totalRecords := totalCount;
     stats :=
       {| HistoryStats.totalCount := Z.of_nat (length (attendanceHistory this));
          HistoryStats.filteredCount := totalCount;
          HistoryStats.presentCount := countIf isPresentOrEntered (attendanceHistory this);
          HistoryStats.absentCount := countIf isAbsent (attendanceHistory this);
          HistoryStats.attendancePercentage := attendancePercentage this |} |}.

(** *** The QR scan controller *)

(** [statusToSave] of the controller's [markAttendance]: today is the UTC
    day of the scan, [toISOString().split('T')[0]]. *)
Definition intentOf (todayRecord : AttendanceRecord) : Status :=
  if isSet (leaveTime todayRecord) then Entered
  else if isSet (entryTime todayRecord) then Left
  else Entered.

Definition scanTodayIndex (currentScanTime : Z) (h : list AttendanceRecord)
  : option nat :=
  findIndex (fun entry => utcDay (date entry) =? utcDay currentScanTime) h.

Definition statusToSave (h : list AttendanceRecord) (currentScanTime : Z) : Status :=
  match scanTodayIndex currentScanTime h with
  | None => Entered
  | Some i =>
      match h !! i with
      | Some todayRecord => intentOf todayRecord
      | None => Entered (* findIndex is within bounds *)
      end
  end.

(** The ledger part of the controller: the status is resolved at
    [currentScanTime] and written by the model's [markAttendance], which
    reads the clock again ([now]).  [deviceInfoBody] and [scanLocationBody]
    come from the request body, [userAgentHeader] from its headers; the
    controller's [scanLocation] and [req.body.scanLocation] are the same
    field. *)
Definition scanMarkAttendance (student : Student) (currentScanTime now : Z)
    (freshId : ObjectId) (deviceInfoBody userAgentHeader scanLocationBody : option string)
  : Student :=
  let userAgent := orDefault (orElse deviceInfoBody userAgentHeader) "Unknown Device" in
  let location := orDefault (orElse scanLocationBody scanLocationBody) "Main Entrance" in
  markAttendance student now freshId
    (statusToSave (attendanceHistory student) currentScanTime)
    None (Some userAgent) (Some location).


(** ** Specification-side notions *)

(** [stored] is [exact] up to the rounding of a quotient and of a product
    in doubles: a relative error of at most [2^-51]. *)
Definition withinRounding (stored exact : Q) : Prop :=
  (Qabs (stored - exact) <= exact * (1 # 2251799813685248))%Q.

(** [d] is "the date of the chronologically latest record in history, or
    null if history is empty", as an instant. *)
Definition IsLatestDate (h : list AttendanceRecord) (d : option Z) : Prop :=
  match d with
  | None => h = []
  | Some t => (exists r, r ∈ h /\ date r = t) /\ (forall r, r ∈ h -> date r <= t)
  end.

(** The same with dates compared by calendar day, a record's [date] being
    "a calendar-day marker": [d] falls on the day of a chronologically
    latest record of [h], and is null if [h] is empty. *)
Definition IsLatestDay (h : list AttendanceRecord) (d : option Z) : Prop :=
  match d with
  | None => h = []
  | Some t =>
      exists r, r ∈ h /\ (forall x, x ∈ h -> date x <= date r)
                /\ localDay (date r) = localDay t
  end.

(** Number of records of [h] that fall on local calendar day [d]. *)
Definition dayCount (d : Z) (h : list AttendanceRecord) : nat :=
  length (List.filter (fun r => localDay (date r) =? d) h).

(** Today's record as [markAttendance] resolves it. *)
Definition todayRecordOf (now : Z) (h : list AttendanceRecord)
  : option AttendanceRecord :=
  match todayIndex now h with
  | Some i => h !! i
  | None => None
  end.

(** One call, and a sequence of calls, on one student. *)
Definition markCall (this : Student) (c : MarkCall) : Student :=
  markAttendance this (callNow c) (callFreshId c) (callStatus c)
    (callAdminId c) (callDeviceInfo c) (callScanLocation c).

Definition markAll (this : Student) (calls : list MarkCall) : Student :=
  foldl markCall this calls.

(** The mutating operations of the ledger, and the state of the student
    after one of them. *)
Inductive Mutation : Type :=
| MarkAttendance (c : MarkCall)
| DeleteAttendanceRecord (recordId : string)
| ClearAttendanceHistory.

Definition mutate (this : Student) (m : Mutation) : Student :=
  match m with
  | MarkAttendance c => markCall this c
  | DeleteAttendanceRecord recordId => fst (deleteAttendanceRecord this recordId)
  | ClearAttendanceHistory => clearAttendanceHistory this
  end.

(** The operation runs to its end without throwing. *)
Definition completes (this : Student) (m : Mutation) : Prop :=
  match m with
  | DeleteAttendanceRecord recordId =>
      exists r, snd (deleteAttendanceRecord this recordId) = Returned r
  | _ => True
  end.

(** States reached from a new student by mutating operations. *)
Inductive Reachable : Student -> Prop :=
| Reachable_new : Reachable newStudent
| Reachable_step this m : Reachable this -> Reachable (mutate this m).

(** The same under a clock that does not run backwards:
    [TimelyReachable t this] when [this] is reached, by the instant [t],
    from a new student by operations of which every [markAttendance] reads
    a clock not before that of the calls before it. *)
Inductive TimelyReachable : Z -> Student -> Prop :=
| TimelyReachable_new t : TimelyReachable t newStudent
| TimelyReachable_wait t t' this :
    TimelyReachable t this -> t <= t' -> TimelyReachable t' this
| TimelyReachable_mark t this c :
    TimelyReachable t this -> t <= callNow c ->
    TimelyReachable (callNow c) (markCall this c)
| TimelyReachable_delete t this recordId :
    TimelyReachable t this ->
    TimelyReachable t (fst (deleteAttendanceRecord this recordId))
| TimelyReachable_clear t this :
    TimelyReachable t this -> TimelyReachable t (clearAttendanceHistory this).

(** The options with [limit] and [offset] replaced. *)
Definition withPage (lim : option ParsedInt) (off : ParsedInt)
    (options : HistoryOptions) : HistoryOptions :=
  {| startDate := startDate options; endDate := endDate options;
     limit := lim; offset := off;
     sortBy := sortBy options; sortOrder := sortOrder options |}.

(** A record passes the date filters that [options] asks for. *)
Definition withinBounds (options : HistoryOptions) (r : AttendanceRecord) : bool :=
  (match startDate options with Some s => notBefore s r | None => true end)
  && (match endDate options with Some e => notAfter e r | None => true end).

(** Status 'entered' or 'left': neither bucket of [getAttendanceStats]. *)
Definition isEnteredOrLeft (r : AttendanceRecord) : bool :=
  match status r with Entered | Left => true | _ => false end.

(** The head of a list dominates it by date. *)
Definition HeadLatest (l : list AttendanceRecord) : Prop :=
  match l with
  | [] => True
  | r :: l' => Forall (fun x => date x <= date r) l'
  end.

(** ** Further code of the model and of its callers *)

(** The [calculateAttendancePercentage] virtual of the schema. *)
Definition calculateAttendancePercentage (this : Student) : Q :=
  let h := attendanceHistory this in
  if Z.of_nat (length h) =? 0 then 0%Q
  else (inject_Z (countIf isPresent h) / inject_Z (Z.of_nat (length h)) * 100)%Q.

(** The repair that [getAllStudents] applies to each student it returns: a
    student with records and a falsy [lastAttendance] gets the date of the
    first record of the date-descending sort. *)
Definition repairLastAttendance (studentObj : Student) : Student :=
  let h := attendanceHistory studentObj in
  if (0 <? Z.of_nat (length h)) && negb (isSet (lastAttendance studentObj))
  then
    match sortWith byDateDesc h with
    | mostRecent :: _ =>
        {| attendanceHistory := h;
           attendanceCount := attendanceCount studentObj;
           attendancePercentage := attendancePercentage studentObj;
           lastAttendance := Some (date mostRecent) |}
    | [] => studentObj
    end
  else studentObj.

(** Status 'entered'. *)
Definition isEntered (r : AttendanceRecord) : bool :=
  Status_eqb (status r) Entered.

(** *** autoMarkLeaveAttendance (the scheduled job), for one student *)

(** [d.setHours(18, 30, 0, 0)] *)
Definition eveningLeaveTime (clock : Z) : Z := startOfLocalDay clock + 66600000.

(** The record the job looks for: of today, status 'entered' or 'present',
    no leaveTime. *)
Definition needsAutoLeave (today : Z) (record : AttendanceRecord) : bool :=
  sameDateString (date record) today
  && isPresentOrEntered record
  && negb (isSet (leaveTime record)).

(** The body of the loop over the students, [today] and [leaveTime] being
    computed once by the job.  [None] is the [continue] taken when no
    eligible record is found; nothing is saved then. *)
Definition autoMarkLeave (student : Student) (today leaveTimeValue : Z)
  : option Student :=
  let h := attendanceHistory student in
  match findIndex (needsAutoLeave today) h with
  | None => None
  | Some todayAttendanceIndex =>
      match h !! todayAttendanceIndex with
      | Some r =>
          let h' := <[todayAttendanceIndex :=
                       set_status Left (set_leaveTime (Some leaveTimeValue) r)]> h in
          Some {| attendanceHistory := h';
                  attendanceCount := attendanceCount student;
                  attendancePercentage := recomputePercentage h';
                  lastAttendance := Some leaveTimeValue |}
      | None => None (* findIndex is within bounds *)
      end
  end.

(** The job at clock [jobClock], reading the clock again ([leaveClock]) for
    the leave time. *)
Definition autoMarkLeaveAttendanceFor (student : Student) (jobClock leaveClock : Z)
  : option Student :=
  autoMarkLeave student (startOfLocalDay jobClock) (eveningLeaveTime leaveClock).

(** *** runAutoCheckout (the admin controller), for one student *)

(** The record [find] looks for: its date, moved to local midnight, is
    today's midnight; status 'entered'; no leaveTime. *)
Definition openToday (today : Z) (record : AttendanceRecord) : bool :=
  (startOfLocalDay (date record) =? today)
  && Status_eqb (status record) Entered
  && negb (isSet (leaveTime record)).

(** The body of the loop: a student with such a record is marked 'left' by
    the model; [None] when the student is not processed.  [userId] is
    [req.user?._id]. *)
Definition runAutoCheckoutFor (student : Student) (jobClock now : Z)
    (freshId : ObjectId) (userId : option ObjectId) : option Student :=
  match List.find (openToday (startOfLocalDay jobClock)) (attendanceHistory student) with
  | Some todayRecord =>
      Some (markAttendance student now freshId Left (orElse userId None)
              (Some "Auto checkout system"%string) (Some "Auto Checkout"%string))
  | None => None
  end.

(** *** markStudentAttendance (the admin controller) *)

(** [validStatus.includes(status)] and the status it names. *)
Definition parseStatus (s : string) : option Status :=
  if String.eqb s "entered" then Some Entered
  else if String.eqb s "left" then Some Left
  else if String.eqb s "present" then Some Present
  else if String.eqb s "absent" then Some Absent
  else None.

(** What the controller answers: 200 with a message, for the student it
    saved; 400 or 404 with a message; or the 500 of its [catch]. *)
Inductive Answer : Type :=
| Saved (student : Student) (message : string)
| BadRequest (message : string)
| NotFound (message : string)
| ServerError (message : string).

(** The string of a status, as the schema's enum lists it. *)
Definition statusName (st : Status) : string :=
  match st with
  | Present => "present"
  | Absent => "absent"
  | Left => "left"
  | Entered => "entered"
  end.

(** The message of the 200 answer. *)
Definition successMessage (st : Status) : string :=
  ("Student " ++
   match st with
   | Entered => "checked in"
   | Left => "checked out"
   | _ => "marked as " ++ statusName st
   end ++ " successfully")%string.

(** [studentId] and [statusArg] are [req.body.studentId] and
    [req.body.status], null when absent; [findById] is [Student.findById],
    which resolves to the student or to null, or rejects (an id that does
    not cast, a failing store), in which case the [catch] answers 500.  The
    notification that follows the write has a [catch] of its own and does
    not change the answer. *)
Definition markStudentAttendance (findById : string -> Outcome (option Student))
    (studentId statusArg : option string)
    (userId : option ObjectId) (deviceInfoBody scanLocationBody : option string)
    (now : Z) (freshId : ObjectId) : Answer :=
  match studentId with
  | Some id =>
      if truthy studentId then
        match findById id with
        | Thrown _ => ServerError "Failed to mark attendance"
        | Returned None => NotFound "Student not found"
        | Returned (Some student) =>
            match statusArg ≫= parseStatus with
            | None =>
                BadRequest
                  "Invalid status. Must be one of: entered, left, present, absent"
            | Some st =>
                Saved (markAttendance student now freshId st (orElse userId None)
                         (Some (orDefault deviceInfoBody "Manual entry by admin"))
                         (Some (orDefault scanLocationBody "Admin Portal")))
                      (successMessage st)
            end
        end
      else BadRequest "Student ID is required"
  | None => BadRequest "Student ID is required"
  end.

(** Number of records of [h] the scheduled job would close. *)
Definition openCount (today : Z) (h : list AttendanceRecord) : Z :=
  countIf (needsAutoLeave today) h.

(** *** Phone numbers

    A JavaScript string is the list of its UTF-16 code units. *)

(** The class [\s]: white space and line terminators. *)
Definition isSpaceUnit (c : N) : bool :=
  existsb (N.eqb c)
    [9; 10; 11; 12; 13; 32; 160; 5760; 8232; 8233; 8239; 8287; 12288; 65279]%N
  || ((8192 <=? c) && (c <=? 8202))%N.

(** The class [\d]. *)
Definition isDigitUnit (c : N) : bool := ((48 <=? c) && (c <=? 57))%N.

Definition plusSign : N := 43.
Definition hyphen : N := 45.

(** [v.replace(/[\s-]/g, '')] *)
Definition stripSpacesAndHyphens (v : list N) : list N :=
  List.filter (fun c => negb (isSpaceUnit c || N.eqb c hyphen)) v.

(** [v.replace(/\s+/g, '')] *)
Definition stripSpaces (v : list N) : list N :=
  List.filter (fun c => negb (isSpaceUnit c)) v.

(** [/^\+?\d{10,15}$/.test(s)] *)
Definition phonePattern (s : list N) : bool :=
  let digits := match s with
                | c :: rest => if N.eqb c plusSign then rest else s
                | [] => s
                end in
  forallb isDigitUnit digits
  && (10 <=? length digits)%nat && (length digits <=? 15)%nat.

(** The validator of [parent_telephone]: an empty value passes. *)
Definition phoneValidator (v : list N) : bool :=
  match v with
  | [] => true
  | _ => phonePattern (stripSpacesAndHyphens v)
  end.

(** What the pre-save hook stores for a modified [parent_telephone]. *)
Definition preSavePhone (v : list N) : list N := stripSpacesAndHyphens v.

Fixpoint trimStart (s : list N) : list N :=
  match s with
  | c :: rest => if isSpaceUnit c then trimStart rest else s
  | [] => []
  end.

(** [s.trim()] *)
Definition trim (s : list N) : list N := rev (trimStart (rev (trimStart s))).

(** [formatPhoneNumber] of the WhatsApp service. *)
Definition formatPhoneNumber (phoneNumber : list N) : list N :=
  let formatted := trim phoneNumber in
  let formatted := match formatted with
                   | c :: rest => if N.eqb c plusSign then rest else formatted
                   | [] => formatted
                   end in
  List.filter isDigitUnit formatted.

(** ** More example data *)

(** The number "+94 77-123 4567". *)
Definition examplePhone : list N :=
  [43; 57; 52; 32; 55; 55; 45; 49; 50; 51; 32; 52; 53; 54; 55]%N.

(** A student who entered at 08:00 and has not left. *)
Definition enteredRecord : AttendanceRecord :=
  {| _id := "65a4e2f0c3a1b2d4e5f60003"%string;
     date := jan15_0800;
     status := Entered;
     entryTime := Some jan15_0800;
     leaveTime := None;
     verifiedBy := None;
     scanLocation := "Main Entrance";
     deviceInfo := None |}.

Definition enteredStudent : Student :=
  {| attendanceHistory := [enteredRecord];
     attendanceCount := 0;
     attendancePercentage := 100%Q;
     lastAttendance := Some jan15_0800 |}.

(** 00:30 of 15 January 2024 in Colombo: 19:00 of 14 January in UTC.  The
    record and the student that a first scan at that instant leaves. *)
Definition jan15_0030 : Z := 1705258800000.

Definition nightRecord : AttendanceRecord :=
  {| _id := "65a4e2f0c3a1b2d4e5f60004"%string;
     date := jan15_0030;
     status := Entered;
     entryTime := Some jan15_0030;
     leaveTime := None;
     verifiedBy := None;
     scanLocation := "Main Entrance";
     deviceInfo := Some "Unknown Device"%string |}.

Definition nightStudent : Student :=
  {| attendanceHistory := [nightRecord];
     attendanceCount := 0;
     attendancePercentage := 100%Q;
     lastAttendance := Some jan15_0030 |}.

(** The records of 25 consecutive days from 15 January, each made at 08:00
    by an admin: 'present' on the first 7 days, 'absent' on the other 18. *)
Definition dayRecord (k : nat) : AttendanceRecord :=
  let t := jan15_0800 + Z.of_nat k * msPerDay in
  let here := (k <? 7)%nat in
  {| _id := ("65a4e2f0c3a1b2d4e5f610" ++
             String (Ascii.ascii_of_nat (48 + k / 10))
               (String (Ascii.ascii_of_nat (48 + k mod 10)) EmptyString))%string;
     date := t;
     status := if here then Present else Absent;
     entryTime := if here then Some t else None;
     leaveTime := None;
     verifiedBy := None;
     scanLocation := "Admin Portal";
     deviceInfo := Some "Manual entry by admin"%string |}.

Definition monthStudent : Student :=
  {| attendanceHistory := dayRecord <$> seq 0 25;
     attendanceCount := 7;
     attendancePercentage := recomputePercentage (dayRecord <$> seq 0 25);
     lastAttendance := Some (jan15_0800 + 24 * msPerDay) |}.


(** ** Auxiliary lemmas *)

(** Projections of a student built by one of the methods. *)
Ltac student_simpl :=
  cbn beta iota zeta delta
    [attendanceHistory attendanceCount attendancePercentage lastAttendance].

Lemma findIndex_Some {A : Type} (p : A -> bool) (l : list A) (i : nat) :
  findIndex p l = Some i ->
  exists x, l !! i = Some x /\ p x = true
            /\ forall j y, (j < i)%nat -> l !! j = Some y -> p y = false.
Proof.
  revert i. induction l as [|a l IH]; intros i H; simpl in H; [discriminate|].
  destruct (p a) eqn:Ha.
  - injection H as <-. exists a. repeat split; auto. intros j y Hj; lia.
  - destruct (findIndex p l) as [k|] eqn:Hk; simpl in H; [|discriminate].
    injection H as <-. destruct (IH k eq_refl) as (x & Hx & Hp & Hfirst).
    exists x. repeat split; auto.
    intros [|j] y Hj Hy; simpl in Hy.
    + injection Hy as <-. exact Ha.
    + apply (Hfirst j); [lia|exact Hy].
Qed.

Lemma findIndex_None {A : Type} (p : A -> bool) (l : list A) :
  findIndex p l = None <-> List.filter p l = [].
Proof.
  induction l as [|a l IH]; simpl; [tauto|].
  destruct (p a); [split; discriminate|].
  destruct (findIndex p l); simpl.
  - split; [discriminate|]. intros H. apply IH in H. discriminate.
  - split; intros _; [now apply IH|reflexivity].
Qed.

Lemma findIndex_fmap {A : Type} (p : A -> bool) (l l' : list A) :
  p <$> l = p <$> l' -> findIndex p l = findIndex p l'.
Proof.
  revert l'. induction l as [|a l IH]; intros [|a' l'] H; simpl in *;
    try discriminate; auto.
  injection H as Ha Hl. rewrite Ha, (IH l' Hl). reflexivity.
Qed.

Lemma filter_length_fmap {A : Type} (p : A -> bool) (l l' : list A) :
  p <$> l = p <$> l' -> length (List.filter p l) = length (List.filter p l').
Proof.
  revert l'. induction l as [|a l IH]; intros [|a' l'] H; simpl in *;
    try discriminate; auto.
  injection H as Ha Hl. rewrite Ha. destruct (p a'); simpl; auto.
Qed.

Lemma fmap_insert_same {A B : Type} (f : A -> B) (l : list A) i x y :
  l !! i = Some x -> f y = f x -> f <$> <[i := y]> l = f <$> l.
Proof.
  intros Hx Hf. rewrite list_fmap_insert, Hf.
  apply list_insert_id. rewrite list_lookup_fmap, Hx. reflexivity.
Qed.

Lemma localDay_startOfLocalDay (t : Z) :
  localDay (startOfLocalDay t) = localDay t.
Proof.
  unfold localDay, startOfLocalDay, msPerDay.
  pose proof (Z.div_mod (t + tzOffset) 86400000 ltac:(lia)) as H.
  replace (t - (t + tzOffset) mod 86400000 + tzOffset)
    with ((t + tzOffset) / 86400000 * 86400000) by lia.
  apply Z.div_mul. lia.
Qed.

Lemma sameDateString_today (t now : Z) :
  sameDateString t (startOfLocalDay now) = (localDay t =? localDay now).
Proof. unfold sameDateString. now rewrite localDay_startOfLocalDay. Qed.

Lemma applyStatus_id now st r : _id (applyStatus now st r) = _id r.
Proof.
  unfold applyStatus. destruct st, r as [? ? [] [] ? ? ? ?]; reflexivity.
Qed.

Lemma applyStatus_date now st r : date (applyStatus now st r) = date r.
Proof.
  unfold applyStatus. destruct st, r as [? ? [] [] ? ? ? ?]; reflexivity.
Qed.

Lemma applyProvenance_core adminId dev loc r :
  let r' := applyProvenance adminId dev loc r in
  _id r' = _id r /\ date r' = date r /\ status r' = status r
  /\ entryTime r' = entryTime r /\ leaveTime r' = leaveTime r.
Proof.
  unfold applyProvenance.
  destruct (truthy loc), (truthy dev); cbn; repeat split; reflexivity.
Qed.

Lemma applyProvenance_fields adminId dev loc r :
  let r' := applyProvenance adminId dev loc r in
  verifiedBy r' = orElse adminId (verifiedBy r)
  /\ scanLocation r' = orDefault loc (scanLocation r)
  /\ deviceInfo r' = orElse dev (deviceInfo r).
Proof.
  unfold applyProvenance, orElse, orDefault.
  destruct loc as [l|]; cbn [truthy];
    [destruct (negb (String.eqb l ""))|]; destruct (truthy dev); cbn;
    repeat split; reflexivity.
Qed.

Lemma todayIndex_Some now h i :
  todayIndex now h = Some i ->
  exists r, h !! i = Some r /\ localDay (date r) = localDay now.
Proof.
  unfold todayIndex. intros H.
  destruct (findIndex_Some _ _ _ H) as (r & Hr & Hp & _).
  exists r. split; [exact Hr|].
  rewrite sameDateString_today in Hp. lia.
Qed.

Lemma todayIndex_None now h :
  todayIndex now h = None -> dayCount (localDay now) h = 0%nat.
Proof.
  unfold todayIndex, dayCount. intros H. apply findIndex_None in H.
  erewrite List.filter_ext; [rewrite H; reflexivity|].
  intros r. cbn. now rewrite sameDateString_today.
Qed.

Lemma markAttendance_update this now freshId st adminId dev loc i r :
  todayIndex now (attendanceHistory this) = Some i ->
  attendanceHistory this !! i = Some r ->
  markAttendance this now freshId st adminId dev loc =
  let h' := <[i := applyProvenance adminId dev loc (applyStatus now st r)]>
              (attendanceHistory this) in
  {| attendanceHistory := h';
     attendanceCount :=
       if Status_eqb st Present && negb (isSet (leaveTime (applyStatus now st r)))
       then attendanceCount this + 1 else attendanceCount this;
     attendancePercentage := recomputePercentage h';
     lastAttendance := Some now |}.
Proof. intros Hi Hr. unfold markAttendance. now rewrite Hi, Hr. Qed.

Lemma markAttendance_create this now freshId st adminId dev loc :
  todayIndex now (attendanceHistory this) = None ->
  markAttendance this now freshId st adminId dev loc =
  let h' := attendanceHistory this ++ [newRecord now freshId st adminId dev loc] in
  {| attendanceHistory := h';
     attendanceCount :=
       if Status_eqb st Present then attendanceCount this + 1
       else attendanceCount this;
     attendancePercentage := recomputePercentage h';
     lastAttendance := Some now |}.
Proof. intros Hi. unfold markAttendance. now rewrite Hi. Qed.

Lemma todayIndex_insert now h i r r' :
  h !! i = Some r -> date r' = date r ->
  todayIndex now (<[i := r']> h) = todayIndex now h.
Proof.
  intros Hr Hd. unfold todayIndex. apply findIndex_fmap.
  apply fmap_insert_same with (x := r); [exact Hr|]. now rewrite Hd.
Qed.

Lemma applyStatus_sticky now st r :
  status r = Left -> st = Entered \/ st = Present ->
  applyStatus now st r =
  (if isSet (entryTime r) then r else set_entryTime (Some now) r).
Proof.
  intros Hl [-> | ->]; unfold applyStatus;
    destruct (isSet (entryTime r)); cbn; now rewrite Hl.
Qed.

(** ** The sticky-left rule *)

(** C1.  When today's record has status 'left', a call of [markAttendance]
    with status 'entered' or 'present' keeps that record in place with
    status 'left': its id, date and leaveTime are kept, entryTime is set to
    [now] only if it was unset, verifiedBy, scanLocation and deviceInfo take
    the new values that are provided, no other record changes, and the
    record stays today's record.  More generally no record with status
    'left' has its status changed by such a call. *)
Theorem markAttendance_sticky_left
    (this : Student) (now : Z) (freshId : ObjectId) (st : Status)
    (adminId : option ObjectId) (dev loc : option string)
    (i : nat) (r : AttendanceRecord) :
  todayIndex now (attendanceHistory this) = Some i ->
  attendanceHistory this !! i = Some r ->
  status r = Left ->
  st = Entered \/ st = Present ->
  let this' := markAttendance this now freshId st adminId dev loc in
  exists r',
    attendanceHistory this' = <[i := r']> (attendanceHistory this)
    /\ todayRecordOf now (attendanceHistory this') = Some r'
    /\ status r' = Left
    /\ _id r' = _id r /\ date r' = date r /\ leaveTime r' = leaveTime r
    /\ entryTime r' = (if isSet (entryTime r) then entryTime r else Some now)
    /\ verifiedBy r' = orElse adminId (verifiedBy r)
    /\ scanLocation r' = orDefault loc (scanLocation r)
    /\ deviceInfo r' = orElse dev (deviceInfo r)
    /\ (forall j x, attendanceHistory this !! j = Some x -> status x = Left ->
          exists x', attendanceHistory this' !! j = Some x' /\ status x' = Left).
Proof.
  intros Hi Hr Hl Hst this'. subst this'.
  rewrite (markAttendance_update _ _ _ _ _ _ _ _ _ Hi Hr). cbn.
  rewrite (applyStatus_sticky now st r Hl Hst).
  set (r1 := if isSet (entryTime r) then r else set_entryTime (Some now) r).
  assert (H1 : _id r1 = _id r /\ date r1 = date r /\ status r1 = status r
               /\ leaveTime r1 = leaveTime r
               /\ entryTime r1 = (if isSet (entryTime r) then entryTime r else Some now)
               /\ verifiedBy r1 = verifiedBy r /\ scanLocation r1 = scanLocation r
               /\ deviceInfo r1 = deviceInfo r).
  { subst r1. destruct (isSet (entryTime r)); cbn; repeat split; reflexivity. }
  destruct H1 as (Hid & Hd & Hs & Hlv & Hen & Hv & Hsl & Hdi).
  destruct (applyProvenance_core adminId dev loc r1) as (Pid & Pd & Ps & Pe & Pl).
  destruct (applyProvenance_fields adminId dev loc r1) as (Pv & Psl & Pdi).
  set (r' := applyProvenance adminId dev loc r1) in *.
  assert (Hlt : (i < length (attendanceHistory this))%nat)
    by (eapply lookup_lt_Some; eauto).
  exists r'. repeat split; try congruence.
  - unfold todayRecordOf.
    rewrite (todayIndex_insert now _ i r r' Hr) by congruence.
    rewrite Hi. now apply list_lookup_insert_eq.
  - intros j x Hx Hxl. destruct (decide (i = j)) as [<-|Hne].
    + exists r'. split; [now apply list_lookup_insert_eq|congruence].
    + exists x. split; [now rewrite list_lookup_insert_ne|exact Hxl].
Qed.

(** ** Percentage and counting lemmas *)

Lemma recomputePercentage_nil : recomputePercentage [] = 0%Q.
Proof. reflexivity. Qed.

(** *** The rounding of the doubles

    The exponent that [roundPositive] chooses puts the scaled quotient at
    or above [2^52]; the significand is within 1/2 of it; so one rounding
    is off by a relative error of at most [2^-53], and the two roundings of
    the percentage by at most [2^-51]. *)

Lemma exponent_below (a b : positive) :
  let e := Z.log2 (Zpos a) - Z.log2 (Zpos b) - 1 in
  Zpos b * 2 ^ Z.max 0 e <= Zpos a * 2 ^ Z.max 0 (- e).
Proof.
  cbn zeta.
  pose proof (Z.log2_spec (Zpos a) ltac:(lia)) as [Ha _].
  pose proof (Z.log2_spec (Zpos b) ltac:(lia)) as [_ Hb].
  pose proof (Z.log2_nonneg (Zpos a)) as Hla.
  pose proof (Z.log2_nonneg (Zpos b)) as Hlb.
  set (la := Z.log2 (Zpos a)) in *. set (lb := Z.log2 (Zpos b)) in *.
  destruct (Z.le_gt_cases 0 (la - lb - 1)) as [He|He].
  - rewrite (Z.max_r 0 (la - lb - 1)), (Z.max_l 0 (- (la - lb - 1))) by lia.
    rewrite Z.pow_0_r, Z.mul_1_r.
    apply Z.le_trans with (2 ^ la); [|exact Ha].
    replace la with (Z.succ lb + (la - lb - 1)) at 2 by lia.
    rewrite Z.pow_add_r by lia.
    apply Z.mul_le_mono_nonneg_r; [apply Z.pow_nonneg; lia|lia].
  - rewrite (Z.max_l 0 (la - lb - 1)), (Z.max_r 0 (- (la - lb - 1))) by lia.
    rewrite Z.pow_0_r, Z.mul_1_r.
    apply Z.le_trans with (2 ^ Z.succ lb); [lia|].
    replace (Z.succ lb) with (la + - (la - lb - 1)) by lia.
    rewrite Z.pow_add_r by lia.
    apply Z.mul_le_mono_nonneg_r; [apply Z.pow_nonneg; lia|lia].
Qed.

Lemma scaled_normal (a b e : Z) :
  0 < a -> 0 < b ->
  b * 2 ^ Z.max 0 e <= a * 2 ^ Z.max 0 (- e) ->
  2 ^ 52 * (b * 2 ^ Z.max 0 (- (52 - e))) <= a * 2 ^ Z.max 0 (52 - e).
Proof.
  intros Ha Hb He.
  destruct (Z.le_gt_cases 52 e) as [H52|H52].
  - rewrite (Z.max_r 0 (- (52 - e))), (Z.max_l 0 (52 - e)) by lia.
    rewrite (Z.max_r 0 e), (Z.max_l 0 (- e)) in He by lia.
    rewrite Z.pow_0_r, Z.mul_1_r in *.
    replace (2 ^ 52 * (b * 2 ^ (- (52 - e)))) with (b * (2 ^ 52 * 2 ^ (- (52 - e)))) by ring.
    rewrite <- Z.pow_add_r by lia. replace (52 + - (52 - e)) with e by lia. exact He.
  - rewrite (Z.max_l 0 (- (52 - e))), (Z.max_r 0 (52 - e)) by lia.
    rewrite Z.pow_0_r, Z.mul_1_r.
    destruct (Z.le_gt_cases 0 e) as [H0|H0].
    + rewrite (Z.max_r 0 e), (Z.max_l 0 (- e)) in He by lia.
      rewrite Z.pow_0_r, Z.mul_1_r in He.
      replace 52 with (e + (52 - e)) at 1 by lia. rewrite Z.pow_add_r by lia.
      replace (2 ^ e * 2 ^ (52 - e) * b) with (b * 2 ^ e * 2 ^ (52 - e)) by ring.
      apply Z.mul_le_mono_nonneg_r; [apply Z.pow_nonneg; lia|exact He].
    + rewrite (Z.max_l 0 e), (Z.max_r 0 (- e)) in He by lia.
      rewrite Z.pow_0_r, Z.mul_1_r in He.
      replace (52 - e) with (- e + 52) by lia. rewrite Z.pow_add_r by lia.
      replace (a * (2 ^ (- e) * 2 ^ 52)) with (2 ^ 52 * (a * 2 ^ (- e))) by ring.
      apply Z.mul_le_mono_nonneg_l; [apply Z.pow_nonneg; lia|exact He].
Qed.

Lemma nearest_integer (num den : Z) :
  0 < den ->
  let m := num / den in
  let r := num mod den in
  let s := if 2 * r <? den then m
           else if den <? 2 * r then m + 1
           else if Z.even m then m else m + 1 in
  2 * Z.abs (s * den - num) <= den.
Proof.
  intros Hden. cbn zeta.
  pose proof (Z.div_mod num den ltac:(lia)) as Hdm.
  pose proof (Z.mod_pos_bound num den Hden) as Hr.
  set (m := num / den) in *. set (r := num mod den) in *.
  destruct (2 * r <? den) eqn:H1; [apply Z.ltb_lt in H1; nia|].
  apply Z.ltb_ge in H1.
  destruct (den <? 2 * r) eqn:H2; [apply Z.ltb_lt in H2; nia|].
  apply Z.ltb_ge in H2.
  destruct (Z.even m); nia.
Qed.

Lemma Qdiv_error (S T a : Z) (b c : positive) :
  0 < T ->
  Z.abs (S * Zpos b - a * T) * Zpos c <= a * T ->
  (Qabs (inject_Z S / inject_Z T - (a # b)) <= (a # b) * (1 # c))%Q.
Proof.
  intros HT H. destruct T as [|t|t]; try lia.
  unfold Qle, Qabs, Qminus, Qplus, Qopp, Qdiv, Qmult, Qinv.
  cbn [Qnum Qden inject_Z]. rewrite !Pos2Z.inj_mul. 
  replace (S * 1 * Z.pos b + - a * (1 * Z.pos t)) with (S * Zpos b - a * Zpos t) by ring.
  nia.
Qed.

Lemma roundPositive_error (a b : positive) :
  (Qabs (roundPositive a b - (Zpos a # b)) <= (Zpos a # b) * (1 # 9007199254740992))%Q.
Proof.
  unfold roundPositive.
  set (e0 := Z.log2 (Zpos a) - Z.log2 (Zpos b)).
  set (e := if _ <? _ then e0 - 1 else e0).
  assert (He : Zpos b * 2 ^ Z.max 0 e <= Zpos a * 2 ^ Z.max 0 (- e)).
  { subst e. destruct (_ <? _) eqn:Ht.
    - apply exponent_below.
    - now apply Z.ltb_ge in Ht. }
  clearbody e. clear e0.
  pose proof (scaled_normal (Zpos a) (Zpos b) e ltac:(lia) ltac:(lia) He) as Hn.
  set (k := 52 - e) in *.
  assert (HT : 0 < 2 ^ Z.max 0 k) by (apply Z.pow_pos_nonneg; lia).
  assert (HP : 0 < 2 ^ Z.max 0 (- k)) by (apply Z.pow_pos_nonneg; lia).
  set (T := 2 ^ Z.max 0 k) in *. set (P := 2 ^ Z.max 0 (- k)) in *.
  pose proof (nearest_integer (Zpos a * T) (Zpos b * P) ltac:(lia)) as Hs.
  cbn zeta in Hs.
  set (s := if _ <? _ then _ else _) in *.
  apply Qdiv_error; [exact HT|].
  replace (s * P * Zpos b - Zpos a * T) with (s * (Zpos b * P) - Zpos a * T) by ring.
  change (Zpos 9007199254740992) with (2 * 2 ^ 52). lia.
Qed.

Lemma roundBinary64_error (q : Q) :
  (Qabs (roundBinary64 q - q) <= Qabs q * (1 # 9007199254740992))%Q.
Proof.
  destruct q as [[|a|a] d]; unfold roundBinary64; cbn [Qnum Qden].
  - unfold Qle; cbn. lia.
  - change (Qabs (Zpos a # d)) with (Zpos a # d). apply roundPositive_error.
  - change (Qabs (Zneg a # d)) with (Zpos a # d).
    assert (Heq : (- roundPositive a d - (Zneg a # d)
                   == - (roundPositive a d - (Zpos a # d)))%Q)
      by (change (Zneg a # d) with (- (Zpos a # d))%Q; ring).
    rewrite Heq, Qabs_opp. apply roundPositive_error.
Qed.

Lemma percentageOfDouble_error (p n : Z) :
  0 <= p ->
  (Qabs (percentageOfDouble p n - percentageOf p n)
   <= percentageOf p n * (1 # 2251799813685248))%Q.
Proof.
  intros Hp. unfold percentageOfDouble, percentageOf.
  destruct (0 <? n) eqn:Hn; [|unfold Qle; cbn; lia].
  apply Z.ltb_lt in Hn.
  set (x := (inject_Z p / inject_Z n)%Q).
  assert (Hx : (0 <= x)%Q).
  { subst x. apply Qle_shift_div_l.
    - change 0%Q with (inject_Z 0). rewrite <- Zlt_Qlt. exact Hn.
    - rewrite Qmult_0_l. change 0%Q with (inject_Z 0). rewrite <- Zle_Qle. exact Hp. }
  pose proof (roundBinary64_error x) as H1.
  rewrite (Qabs_pos x Hx) in H1.
  set (d1 := roundBinary64 x) in *.
  apply Qabs_Qle_condition in H1 as [H1a H1b].
  pose proof (roundBinary64_error (d1 * 100)) as H2.
  assert (Hy : (0 <= d1 * 100)%Q) by lra.
  rewrite (Qabs_pos _ Hy) in H2.
  set (d2 := roundBinary64 (d1 * 100)) in *.
  apply Qabs_Qle_condition in H2 as [H2a H2b].
  apply Qabs_Qle_condition. split; lra.
Qed.

Lemma countIf_nonneg (p : AttendanceRecord -> bool) (h : list AttendanceRecord) :
  0 <= countIf p h.
Proof. unfold countIf. lia. Qed.

Lemma percentageOfDouble_withinRounding (p n : Z) :
  0 <= p -> 0 < n ->
  withinRounding (percentageOfDouble p n) (100 * inject_Z p / inject_Z n).
Proof.
  intros Hp Hn. pose proof (percentageOfDouble_error p n Hp) as H.
  unfold withinRounding.
  assert (He : (percentageOf p n == 100 * inject_Z p / inject_Z n)%Q).
  { unfold percentageOf. apply Z.ltb_lt in Hn as ->.
    unfold Qdiv. ring. }
  now rewrite He in H.
Qed.

Lemma recomputePercentageDouble_withinRounding (h : list AttendanceRecord) :
  h <> [] ->
  withinRounding (recomputePercentageDouble h)
    (100 * inject_Z (countIf isPresentOrEntered h) / inject_Z (Z.of_nat (length h))).
Proof.
  intros Hh. apply percentageOfDouble_withinRounding; [apply countIf_nonneg|].
  destruct h; [congruence|cbn [length]; lia].
Qed.

Lemma countIf_insert (p : AttendanceRecord -> bool) h i r r' :
  h !! i = Some r -> p r' = p r -> countIf p (<[i := r']> h) = countIf p h.
Proof.
  intros Hr Hp. unfold countIf. f_equal.
  apply filter_length_fmap. now apply fmap_insert_same with (x := r).
Qed.

Lemma recomputePercentage_insert h i r r' :
  h !! i = Some r -> isPresentOrEntered r' = isPresentOrEntered r ->
  recomputePercentage (<[i := r']> h) = recomputePercentage h.
Proof.
  intros Hr Hp. unfold recomputePercentage.
  now rewrite (countIf_insert _ _ _ _ _ Hr Hp), length_insert.
Qed.

Lemma dayCount_insert d h i r r' :
  h !! i = Some r -> date r' = date r -> dayCount d (<[i := r']> h) = dayCount d h.
Proof.
  intros Hr Hd. unfold dayCount. apply filter_length_fmap.
  apply fmap_insert_same with (x := r); [exact Hr|]. now rewrite Hd.
Qed.

Lemma dayCount_snoc d h r :
  dayCount d (h ++ [r]) =
  (dayCount d h + (if (localDay (date r) =? d)%Z then 1 else 0))%nat.
Proof.
  unfold dayCount. rewrite List.filter_app, length_app. cbn.
  now destruct (localDay (date r) =? d).
Qed.

(** The history after one call: today's record is updated in place, its
    date kept, or, when today has none, one record dated [now] is pushed. *)
Lemma markAttendance_history this now freshId st adminId dev loc :
  let this' := markAttendance this now freshId st adminId dev loc in
  match todayRecordOf now (attendanceHistory this) with
  | Some _ =>
      date <$> attendanceHistory this' = date <$> attendanceHistory this
  | None =>
      exists r, attendanceHistory this' = attendanceHistory this ++ [r]
                /\ date r = now
  end.
Proof.
  cbn zeta. unfold todayRecordOf.
  destruct (todayIndex now (attendanceHistory this)) as [i|] eqn:Hi.
  - destruct (todayIndex_Some _ _ _ Hi) as (r & Hr & _). rewrite Hr.
    rewrite (markAttendance_update _ _ _ _ _ _ _ _ _ Hi Hr). student_simpl.
    apply fmap_insert_same with (x := r); [exact Hr|].
    destruct (applyProvenance_core adminId dev loc (applyStatus now st r))
      as (_ & -> & _).
    apply applyStatus_date.
  - rewrite (markAttendance_create _ _ _ _ _ _ _ Hi). student_simpl. eauto.
Qed.

Lemma markAttendance_dayCount this now freshId st adminId dev loc :
  let this' := markAttendance this now freshId st adminId dev loc in
  dayCount (localDay now) (attendanceHistory this') =
  Nat.max 1 (dayCount (localDay now) (attendanceHistory this)).
Proof.
  cbn zeta.
  destruct (todayIndex now (attendanceHistory this)) as [i|] eqn:Hi.
  - destruct (todayIndex_Some _ _ _ Hi) as (r & Hr & Hday).
    rewrite (markAttendance_update _ _ _ _ _ _ _ _ _ Hi Hr). student_simpl.
    rewrite (dayCount_insert _ _ _ r).
    + assert ((1 <= dayCount (localDay now) (attendanceHistory this))%nat); [|lia].
      apply list_elem_of_lookup_2, list_elem_of_In in Hr.
      unfold dayCount.
      assert (Hin : In r (List.filter (fun r0 => localDay (date r0) =? localDay now)
                            (attendanceHistory this))).
      { apply List.filter_In. split; [exact Hr|]. apply Z.eqb_eq, Hday. }
      destruct (List.filter _ _); [destruct Hin|cbn; lia].
    + exact Hr.
    + destruct (applyProvenance_core adminId dev loc (applyStatus now st r))
        as (_ & -> & _).
      apply applyStatus_date.
  - rewrite (markAttendance_create _ _ _ _ _ _ _ Hi). student_simpl.
    rewrite dayCount_snoc, (todayIndex_None _ _ Hi). cbn [newRecord date].
    now rewrite Z.eqb_refl.
Qed.

Lemma markAll_snoc this calls c :
  markAll this (calls ++ [c]) = markCall (markAll this calls) c.
Proof. unfold markAll. now rewrite foldl_app. Qed.

(** ** Per-day deduplication *)

(** C3 (invariant I1).  Start from a history with at most one record on
    local calendar day [d] and apply any sequence of [markAttendance] calls
    whose instants all fall on day [d].  After every prefix of the sequence
    the history holds at most one record on day [d] (exactly one once a call
    was made), and each call either updates today's record in place, dates
    untouched, or, when today has no record, appends exactly one record,
    dated [now]. *)
Theorem markAttendance_one_record_per_day
    (this : Student) (d : Z) (calls : list MarkCall) :
  (dayCount d (attendanceHistory this) <= 1)%nat ->
  Forall (fun c => localDay (callNow c) = d) calls ->
  (forall k, (dayCount d (attendanceHistory (markAll this (take k calls))) <= 1)%nat)
  /\ (forall k, (0 < k)%nat -> calls <> [] ->
        dayCount d (attendanceHistory (markAll this (take k calls))) = 1%nat)
  /\ (forall k c, calls !! k = Some c ->
        let before := markAll this (take k calls) in
        let after := markCall before c in
        match todayRecordOf (callNow c) (attendanceHistory before) with
        | Some _ =>
            date <$> attendanceHistory after = date <$> attendanceHistory before
        | None =>
            exists r, attendanceHistory after = attendanceHistory before ++ [r]
                      /\ date r = callNow c
        end).
Proof.
  intros H0 Hday.
  assert (Hinv : forall l, Forall (fun c => localDay (callNow c) = d) l ->
            (dayCount d (attendanceHistory (markAll this l)) <= 1)%nat
            /\ (l <> [] -> dayCount d (attendanceHistory (markAll this l)) = 1%nat)).
  { induction l as [|c l IH] using rev_ind; intros Hl.
    - split; [exact H0|congruence].
    - apply Forall_app in Hl as [Hl Hc].
      rewrite Forall_singleton in Hc. destruct (IH Hl) as [IH1 _].
      rewrite markAll_snoc. unfold markCall.
      pose proof (markAttendance_dayCount (markAll this l) (callNow c)
                    (callFreshId c) (callStatus c) (callAdminId c)
                    (callDeviceInfo c) (callScanLocation c)) as Hc'.
      cbn zeta in Hc'. rewrite Hc in Hc'. split; [lia|intros _; lia]. }
  split; [|split].
  - intros k. apply Hinv. now apply Forall_take.
  - intros k Hk Hne. apply Hinv; [now apply Forall_take|].
    destruct calls; [congruence|]. destruct k; [lia|discriminate].
  - intros k c _. apply markAttendance_history.
Qed.

(** ** Frame of an 'absent' update *)

(** C9.  When today already has a record, [markAttendance] with status
    'absent' leaves that record's status, entryTime and leaveTime (and its
    id and date) unchanged and does not change [attendanceCount]; it
    overwrites verifiedBy, scanLocation and deviceInfo only by new values
    that are provided (truthy), sets [lastAttendance] to [now], and
    recomputes [attendancePercentage] over the history, which gives what
    the same expression gives on the history before the call. *)
Theorem markAttendance_absent_frame
    (this : Student) (now : Z) (freshId : ObjectId)
    (adminId : option ObjectId) (dev loc : option string)
    (i : nat) (r : AttendanceRecord) :
  todayIndex now (attendanceHistory this) = Some i ->
  attendanceHistory this !! i = Some r ->
  let this' := markAttendance this now freshId Absent adminId dev loc in
  exists r',
    attendanceHistory this' = <[i := r']> (attendanceHistory this)
    /\ status r' = status r /\ entryTime r' = entryTime r
    /\ leaveTime r' = leaveTime r /\ _id r' = _id r /\ date r' = date r
    /\ verifiedBy r' = (if truthy adminId then adminId else verifiedBy r)
    /\ scanLocation r' = orDefault loc (scanLocation r)
    /\ deviceInfo r' = (if truthy dev then dev else deviceInfo r)
    /\ attendanceCount this' = attendanceCount this
    /\ lastAttendance this' = Some now
    /\ attendancePercentage this' = recomputePercentage (attendanceHistory this')
    /\ attendancePercentage this' = recomputePercentage (attendanceHistory this).
Proof.
  intros Hi Hr this'. subst this'.
  rewrite (markAttendance_update _ _ _ _ _ _ _ _ _ Hi Hr). student_simpl.
  change (applyStatus now Absent r) with r.
  destruct (applyProvenance_core adminId dev loc r) as (Pid & Pd & Ps & Pe & Pl).
  destruct (applyProvenance_fields adminId dev loc r) as (Pv & Psl & Pdi).
  set (r' := applyProvenance adminId dev loc r) in *.
  exists r'. repeat split; try assumption; try reflexivity.
  apply (recomputePercentage_insert _ _ r); [exact Hr|].
  unfold isPresentOrEntered. now rewrite Ps.
Qed.

(** ** Range statistics *)

Lemma foldl_tally (recs : list AttendanceRecord) (a b : Z) :
  foldl tally (a, b) recs = (a + countIf isPresent recs, b + countIf isAbsent recs).
Proof.
  revert a b. induction recs as [|r recs IH]; intros a b.
  - unfold countIf. cbn [foldl List.filter length]. f_equal; lia.
  - cbn [foldl]. unfold tally at 2. cbn [fst snd].
    unfold countIf, isPresent, isAbsent in *. cbn [List.filter].
    destruct (status r); rewrite IH; cbn [Status_eqb length]; f_equal; lia.
Qed.

Lemma countIf_partition (recs : list AttendanceRecord) :
  Z.of_nat (length recs) =
  countIf isPresent recs + countIf isAbsent recs + countIf isEnteredOrLeft recs.
Proof.
  unfold countIf, isPresent, isAbsent, isEnteredOrLeft.
  induction recs as [|r recs IH]; [reflexivity|].
  cbn [List.filter]. change (length (r :: recs)) with (S (length recs)).
  destruct (status r); cbn [Status_eqb length]; lia.
Qed.

(** C10.  [getAttendanceStats] counts, over the records dated within
    [startDate .. endDate] (both inclusive), a record as present only when
    its status is exactly 'present' and as absent only when it is exactly
    'absent'; records with status 'entered' or 'left' count in the total and
    in neither bucket.  The percentage is the value of the expression
    [(present / total) * 100] on these two counts, hence of the 'present'
    records alone and not of 'present or entered' as [attendancePercentage]
    is, and 0 when no record falls in the range; the double that the
    expression stores is 100 x present / total up to rounding, a relative
    error of at most [2^-51]. *)
Theorem getAttendanceStats_buckets (this : Student) (startDate endDate : Z) :
  let inR := List.filter (inRange startDate endDate) (attendanceHistory this) in
  let st := getAttendanceStats this startDate endDate in
  (forall r, inRange startDate endDate r = true <->
             startDate <= date r /\ date r <= endDate)
  /\ AttendanceStats.total st = Z.of_nat (length inR)
  /\ AttendanceStats.present st = countIf isPresent inR
  /\ AttendanceStats.absent st = countIf isAbsent inR
  /\ AttendanceStats.total st =
     AttendanceStats.present st + AttendanceStats.absent st
     + countIf isEnteredOrLeft inR
  /\ AttendanceStats.percentage st =
     percentageOf (AttendanceStats.present st) (AttendanceStats.total st)
  /\ (inR = [] ->
      AttendanceStats.percentage st = 0%Q
      /\ percentageOfDouble (AttendanceStats.present st) (AttendanceStats.total st)
         = 0%Q)
  /\ (inR <> [] ->
      withinRounding
        (percentageOfDouble (AttendanceStats.present st) (AttendanceStats.total st))
        (100 * inject_Z (AttendanceStats.present st)
         / inject_Z (AttendanceStats.total st))).
Proof.
  intros inR st. subst st. unfold getAttendanceStats. fold inR.
  cbn [AttendanceStats.total AttendanceStats.present AttendanceStats.absent
       AttendanceStats.percentage].
  rewrite foldl_tally. cbn [fst snd]. rewrite !Z.add_0_l.
  split; [|do 5 (split; [auto using countIf_partition|]); split].
  - intros r. unfold inRange. rewrite andb_true_iff, !Z.leb_le. tauto.
  - intros ->. split; reflexivity.
  - intros Hne. apply percentageOfDouble_withinRounding; [apply countIf_nonneg|].
    destruct inR; [congruence|cbn [length]; lia].
Qed.

(** ** Sorting *)

Lemma insertBy_Permutation {A : Type} (cmp : A -> A -> Z) (x : A) (l : list A) :
  insertBy cmp x l ≡ₚ x :: l.
Proof.
  induction l as [|y l IH]; cbn [insertBy]; [reflexivity|].
  destruct (cmp x y <=? 0); [reflexivity|].
  rewrite IH. apply Permutation_swap.
Qed.

Lemma sortWith_Permutation {A : Type} (cmp : A -> A -> Z) (l : list A) :
  sortWith cmp l ≡ₚ l.
Proof.
  induction l as [|x l IH]; [reflexivity|].
  unfold sortWith in *. cbn [foldr]. now rewrite insertBy_Permutation, IH.
Qed.

Lemma sortWith_length {A : Type} (cmp : A -> A -> Z) (l : list A) :
  length (sortWith cmp l) = length l.
Proof. apply Permutation_length, sortWith_Permutation. Qed.

Lemma insertBy_HeadLatest x l :
  HeadLatest l -> HeadLatest (insertBy byDateDesc x l).
Proof.
  destruct l as [|y l]; cbn [insertBy HeadLatest]; [constructor|].
  intros Hy. unfold byDateDesc.
  destruct (date y - date x <=? 0) eqn:Hc; cbn [HeadLatest].
  - apply Z.leb_le in Hc. constructor; [lia|].
    eapply Forall_impl; [exact Hy|]. cbn. intros; lia.
  - apply Z.leb_gt in Hc.
    rewrite (insertBy_Permutation byDateDesc x l).
    constructor; [lia|exact Hy].
Qed.

Lemma sortWith_HeadLatest l : HeadLatest (sortWith byDateDesc l).
Proof.
  induction l as [|x l IH]; [exact I|].
  unfold sortWith in *. cbn [foldr]. now apply insertBy_HeadLatest.
Qed.

Lemma latestBySort_IsLatestDate (h : list AttendanceRecord) :
  IsLatestDate h (latestBySort h).
Proof.
  unfold latestBySort.
  pose proof (sortWith_Permutation byDateDesc h) as Hperm.
  pose proof (sortWith_HeadLatest h) as Hhead.
  destruct (sortWith byDateDesc h) as [|r s]; cbn [head fmap option_fmap option_map IsLatestDate].
  - now apply Permutation_nil_l in Hperm.
  - split.
    + exists r. split; [|reflexivity]. rewrite <- Hperm. constructor.
    + intros x Hx. rewrite <- Hperm in Hx. cbn [HeadLatest] in Hhead.
      apply elem_of_cons in Hx as [->|Hx]; [lia|].
      rewrite Forall_forall in Hhead. now apply Hhead.
Qed.

Lemma IsLatestDate_unique h d d' :
  IsLatestDate h d -> IsLatestDate h d' -> d = d'.
Proof.
  destruct d as [t|], d' as [t'|]; cbn.
  - intros ((r & Hr & <-) & Hmax) ((r' & Hr' & <-) & Hmax').
    f_equal. apply Z.le_antisymm; auto.
  - intros ((r & Hr & _) & _) ->. now apply elem_of_nil in Hr.
  - intros -> ((r & Hr & _) & _). now apply elem_of_nil in Hr.
  - reflexivity.
Qed.

(** ** Deleting a record *)

Lemma deleteAttendanceRecord_found this recordId i r :
  findIndex (fun record => String.eqb (_id record) recordId)
            (attendanceHistory this) = Some i ->
  attendanceHistory this !! i = Some r ->
  deleteAttendanceRecord this recordId =
  (let h' := delete i (attendanceHistory this) in
   {| attendanceHistory := h';
      attendanceCount :=
        if isPresentOrEntered r then Z.max 0 (attendanceCount this - 1)
        else attendanceCount this;
      attendancePercentage := recomputePercentage h';
      lastAttendance := latestBySort h' |},
   Returned r).
Proof. intros Hi Hr. unfold deleteAttendanceRecord. now rewrite Hi, Hr. Qed.

Lemma deleteAttendanceRecord_missing this recordId :
  findIndex (fun record => String.eqb (_id record) recordId)
            (attendanceHistory this) = None ->
  deleteAttendanceRecord this recordId =
  (this, Thrown "Attendance record not found").
Proof. intros Hi. unfold deleteAttendanceRecord. now rewrite Hi. Qed.

Lemma deleteAttendanceRecord_Returned this recordId r :
  snd (deleteAttendanceRecord this recordId) = Returned r ->
  exists i,
    findIndex (fun record => String.eqb (_id record) recordId)
              (attendanceHistory this) = Some i
    /\ attendanceHistory this !! i = Some r.
Proof.
  destruct (findIndex (fun record => String.eqb (_id record) recordId)
              (attendanceHistory this)) as [i|] eqn:Hi.
  - destruct (findIndex_Some _ _ _ Hi) as (x & Hx & _).
    rewrite (deleteAttendanceRecord_found _ _ _ _ Hi Hx). cbn [snd].
    intros H. injection H as <-. eauto.
  - rewrite (deleteAttendanceRecord_missing _ _ Hi). discriminate.
Qed.

(** C5.  [deleteAttendanceRecord] throws 'Attendance record not found' if
    and only if no record of the history has id [recordId], and then leaves
    the student unchanged.  Otherwise it returns the first record with that
    id, removes exactly that record, decrements [attendanceCount] by one,
    floored at 0, exactly when the deleted record's status was 'present' or
    'entered', recomputes [attendancePercentage] over the remaining history
    (0 when it is empty), and sets [lastAttendance] to the date of the
    chronologically latest remaining record, or null when none remains. *)
Theorem deleteAttendanceRecord_contract (this : Student) (recordId : string) :
  let res := deleteAttendanceRecord this recordId in
  ((exists msg, snd res = Thrown msg) <->
   (forall r, r ∈ attendanceHistory this -> _id r <> recordId))
  /\ (forall msg, snd res = Thrown msg ->
        fst res = this /\ msg = "Attendance record not found"%string)
  /\ (forall deleted, snd res = Returned deleted ->
        exists i,
          attendanceHistory this !! i = Some deleted
          /\ _id deleted = recordId
          /\ (forall j y, (j < i)%nat -> attendanceHistory this !! j = Some y ->
                _id y <> recordId)
          /\ attendanceHistory (fst res) = delete i (attendanceHistory this)
          /\ attendanceCount (fst res) =
             match status deleted with
             | Present | Entered => Z.max 0 (attendanceCount this - 1)
             | Absent | Left => attendanceCount this
             end
          /\ attendancePercentage (fst res) =
             recomputePercentage (attendanceHistory (fst res))
          /\ (attendanceHistory (fst res) = [] ->
              attendancePercentage (fst res) = 0%Q)
          /\ IsLatestDate (attendanceHistory (fst res)) (lastAttendance (fst res))).
Proof.
  cbn zeta.
  destruct (findIndex (fun record => String.eqb (_id record) recordId)
              (attendanceHistory this)) as [i|] eqn:Hi.
  - destruct (findIndex_Some _ _ _ Hi) as (r & Hr & Hp & Hfirst).
    apply String.eqb_eq in Hp.
    rewrite (deleteAttendanceRecord_found _ _ _ _ Hi Hr). cbn [fst snd].
    split; [|split].
    + split; [intros [msg Hmsg]; discriminate|].
      intros Hno. exfalso. apply (Hno r); [|exact Hp].
      eapply list_elem_of_lookup_2; eauto.
    + intros msg Hmsg; discriminate.
    + intros deleted Hd. injection Hd as <-. exists i. student_simpl.
      repeat split; auto.
      * intros j y Hj Hy Heq. apply String.eqb_eq in Heq.
        rewrite (Hfirst j y Hj Hy) in Heq. discriminate.
      * unfold isPresentOrEntered. now destruct (status r).
      * intros ->. reflexivity.
      * apply latestBySort_IsLatestDate.
  - rewrite (deleteAttendanceRecord_missing _ _ Hi). cbn [fst snd].
    split; [|split].
    + split; [|eauto]. intros _ r Hr Heq.
      apply findIndex_None in Hi.
      assert (Hin : In r (List.filter (fun record => String.eqb (_id record) recordId)
                            (attendanceHistory this))).
      { apply List.filter_In. split; [now apply list_elem_of_In|].
        now apply String.eqb_eq. }
      rewrite Hi in Hin. destruct Hin.
    + intros msg Hmsg. injection Hmsg as <-. auto.
    + intros deleted Hd; discriminate.
Qed.

(** ** Derived counters after a mutating operation *)

Lemma todayRecordOf_None now h :
  todayRecordOf now h = None -> todayIndex now h = None.
Proof.
  unfold todayRecordOf. destruct (todayIndex now h) as [i|] eqn:Hi; [|reflexivity].
  destruct (todayIndex_Some _ _ _ Hi) as (r & -> & _). discriminate.
Qed.

Lemma markAttendance_percentage this now freshId st adminId dev loc :
  attendancePercentage (markAttendance this now freshId st adminId dev loc) =
  recomputePercentage
    (attendanceHistory (markAttendance this now freshId st adminId dev loc)).
Proof.
  unfold markAttendance.
  destruct (todayIndex now (attendanceHistory this)) as [i|];
    [destruct (attendanceHistory this !! i)|]; reflexivity.
Qed.

Lemma markAttendance_lastAttendance this now freshId st adminId dev loc :
  lastAttendance (markAttendance this now freshId st adminId dev loc) = Some now.
Proof.
  unfold markAttendance.
  destruct (todayIndex now (attendanceHistory this)) as [i|];
    [destruct (attendanceHistory this !! i)|]; reflexivity.
Qed.

Lemma markAttendance_count this now freshId st adminId dev loc :
  attendanceCount (markAttendance this now freshId st adminId dev loc) =
  match st, todayRecordOf now (attendanceHistory this) with
  | Present, None => attendanceCount this + 1
  | Present, Some r =>
      if isSet (leaveTime r) then attendanceCount this
      else attendanceCount this + 1
  | _, _ => attendanceCount this
  end.
Proof.
  unfold todayRecordOf.
  destruct (todayIndex now (attendanceHistory this)) as [i|] eqn:Hi.
  - destruct (todayIndex_Some _ _ _ Hi) as (r & Hr & _). rewrite Hr.
    rewrite (markAttendance_update _ _ _ _ _ _ _ _ _ Hi Hr). student_simpl.
    destruct st; cbn [Status_eqb andb]; try reflexivity.
    unfold applyStatus.
    destruct (isSet (entryTime r)), (Status_eqb (status _) Left);
      cbn [set_status set_entryTime leaveTime];
      now destruct (isSet (leaveTime r)).
  - rewrite (markAttendance_create _ _ _ _ _ _ _ Hi). student_simpl.
    now destruct st.
Qed.

(** C2, as the code has it (invariant I2 for the percentage; the count is
    an event counter).  After [markAttendance], a [deleteAttendanceRecord]
    that finds its record, or [clearAttendanceHistory],
    [attendancePercentage] is the value of the expression
    [(presentRecords / totalRecords) * 100] on the history as it is after
    the operation, [presentRecords] counting the records with status
    'present' or 'entered', and 0 when that history is empty; the double
    that the expression stores is 100 x presentRecords / totalRecords up
    to rounding, a relative error of at most [2^-51].  [attendanceCount],
    non-negative before, is non-negative after.  The
    count is maintained by increments, not recomputed from the history:
    [markAttendance] adds one exactly when the status is 'present' and
    today's record is new or has no leaveTime; a deletion subtracts one,
    floored at 0, exactly when the deleted record was 'present' or
    'entered'; clearing resets it to 0. *)
Theorem counters_after_mutation (this : Student) (m : Mutation) :
  0 <= attendanceCount this ->
  completes this m ->
  let this' := mutate this m in
  attendancePercentage this' = recomputePercentage (attendanceHistory this')
  /\ (attendanceHistory this' = [] -> attendancePercentage this' = 0%Q)
  /\ (attendanceHistory this' = [] ->
      recomputePercentageDouble (attendanceHistory this') = 0%Q)
  /\ (attendanceHistory this' <> [] ->
      withinRounding (recomputePercentageDouble (attendanceHistory this'))
        (100 * inject_Z (countIf isPresentOrEntered (attendanceHistory this'))
         / inject_Z (Z.of_nat (length (attendanceHistory this')))))
  /\ 0 <= attendanceCount this'
  /\ attendanceCount this' =
     match m with
     | MarkAttendance c =>
         match callStatus c, todayRecordOf (callNow c) (attendanceHistory this) with
         | Present, None => attendanceCount this + 1
         | Present, Some r =>
             if isSet (leaveTime r) then attendanceCount this
             else attendanceCount this + 1
         | _, _ => attendanceCount this
         end
     | DeleteAttendanceRecord recordId =>
         match snd (deleteAttendanceRecord this recordId) with
         | Returned deleted =>
             match status deleted with
             | Present | Entered => Z.max 0 (attendanceCount this - 1)
             | Absent | Left => attendanceCount this
             end
         | Thrown _ => attendanceCount this
         end
     | ClearAttendanceHistory => 0
     end.
Proof.
  intros Hc Hm. cbn zeta.
  split; [|split; [|split; [intros ->; reflexivity|
                            split; [apply recomputePercentageDouble_withinRounding|]]]];
    revert Hm; destruct m as [c|recordId|]; cbn [mutate]; intros Hm.
  - apply markAttendance_percentage.
  - destruct Hm as [r Hr].
    destruct (deleteAttendanceRecord_Returned _ _ _ Hr) as (i & Hi & Hl).
    now rewrite (deleteAttendanceRecord_found _ _ _ _ Hi Hl).
  - reflexivity.
  - unfold markCall. rewrite markAttendance_percentage. now intros ->.
  - destruct Hm as [r Hr].
    destruct (deleteAttendanceRecord_Returned _ _ _ Hr) as (i & Hi & Hl).
    rewrite (deleteAttendanceRecord_found _ _ _ _ Hi Hl). cbn [fst]. student_simpl.
    now intros ->.
  - reflexivity.
  - unfold markCall. rewrite markAttendance_count.
    split; [|reflexivity].
    destruct (callStatus c),
      (todayRecordOf (callNow c) (attendanceHistory this)) as [r|];
      try destruct (isSet (leaveTime r)); lia.
  - destruct Hm as [r Hr]. rewrite Hr.
    destruct (deleteAttendanceRecord_Returned _ _ _ Hr) as (i & Hi & Hl).
    rewrite (deleteAttendanceRecord_found _ _ _ _ Hi Hl). cbn [fst]. student_simpl.
    unfold isPresentOrEntered. destruct (status r); split; auto; lia.
  - cbn. split; [lia|reflexivity].
Qed.

(** ** lastAttendance after a mutating operation *)

Lemma markAttendance_today_exists this now freshId st adminId dev loc :
  exists r,
    todayRecordOf now
      (attendanceHistory (markAttendance this now freshId st adminId dev loc))
    = Some r
    /\ localDay (date r) = localDay now.
Proof.
  pose proof (markAttendance_dayCount this now freshId st adminId dev loc) as Hn.
  cbn zeta in Hn. unfold todayRecordOf.
  destruct (todayIndex now _) as [i|] eqn:Hi.
  - destruct (todayIndex_Some _ _ _ Hi) as (r & Hr & Hd). eauto.
  - apply todayIndex_None in Hi. lia.
Qed.

Lemma todayRecordOf_elem now h r : todayRecordOf now h = Some r -> r ∈ h.
Proof.
  unfold todayRecordOf. destruct (todayIndex now h) as [i|]; [|discriminate].
  apply list_elem_of_lookup_2.
Qed.

Lemma localDay_mono (a b : Z) : a <= b -> localDay a <= localDay b.
Proof. intros H. unfold localDay, msPerDay. apply Z.div_le_mono; lia. Qed.

Lemma IsLatestDate_IsLatestDay h d : IsLatestDate h d -> IsLatestDay h d.
Proof.
  destruct d as [t|]; cbn [IsLatestDate IsLatestDay]; [|auto].
  intros ((r & Hr & <-) & Hmax). eauto.
Qed.

(** No call dates a record after its own instant. *)
Lemma markAttendance_dates_bounded this now freshId st adminId dev loc t :
  (forall r, r ∈ attendanceHistory this -> date r <= t) -> now <= t ->
  forall r, r ∈ attendanceHistory (markAttendance this now freshId st adminId dev loc) ->
            date r <= t.
Proof.
  intros Hle Hnow r Hr.
  pose proof (markAttendance_history this now freshId st adminId dev loc) as Hh.
  cbn zeta in Hh.
  destruct (todayRecordOf now (attendanceHistory this)).
  - apply (list_elem_of_fmap_2 date) in Hr. rewrite Hh in Hr.
    apply list_elem_of_fmap in Hr as (y & -> & Hy). now apply Hle.
  - destruct Hh as (x & Hh & Hx). rewrite Hh in Hr.
    apply elem_of_app in Hr as [Hr|Hr]; [now apply Hle|].
    apply list_elem_of_singleton in Hr as ->. lia.
Qed.

(** When no record is dated after [now], the instant of the call falls on
    the calendar day of the latest record that the call leaves. *)
Lemma markAttendance_IsLatestDay this now freshId st adminId dev loc :
  (forall r, r ∈ attendanceHistory this -> date r <= now) ->
  let this' := markAttendance this now freshId st adminId dev loc in
  IsLatestDay (attendanceHistory this') (lastAttendance this').
Proof.
  intros Hle this'. subst this'. rewrite markAttendance_lastAttendance.
  pose proof (markAttendance_dates_bounded this now freshId st adminId dev loc now
                Hle (Z.le_refl now)) as Hbound.
  destruct (markAttendance_today_exists this now freshId st adminId dev loc)
    as (r0 & Hr0 & Hday).
  apply todayRecordOf_elem in Hr0.
  pose proof (latestBySort_IsLatestDate
                (attendanceHistory (markAttendance this now freshId st adminId dev loc)))
    as Hlatest.
  destruct (latestBySort _) as [tmax|]; cbn [IsLatestDate] in Hlatest.
  - destruct Hlatest as ((r & Hr & Hd) & Hmax). cbn [IsLatestDay].
    exists r. split; [exact Hr|]. split; [intros x Hx; rewrite Hd; now apply Hmax|].
    apply Z.le_antisymm.
    + apply localDay_mono. now apply Hbound.
    + rewrite <- Hday. apply localDay_mono. rewrite Hd. now apply Hmax.
  - rewrite Hlatest in Hr0. now apply elem_of_nil in Hr0.
Qed.

Lemma mutate_IsLatestDay (this : Student) (m : Mutation) (t : Z) :
  completes this m ->
  (forall r, r ∈ attendanceHistory this -> date r <= t) ->
  (forall c, m = MarkAttendance c -> callNow c = t) ->
  IsLatestDay (attendanceHistory (mutate this m)) (lastAttendance (mutate this m))
  /\ (forall r, r ∈ attendanceHistory (mutate this m) -> date r <= t).
Proof.
  intros Hm Hle Hnow. destruct m as [c|recordId|]; cbn [mutate].
  - specialize (Hnow c eq_refl). subst t. unfold markCall. split.
    + now apply markAttendance_IsLatestDay.
    + apply markAttendance_dates_bounded; [exact Hle|lia].
  - destruct Hm as [r Hr].
    destruct (deleteAttendanceRecord_Returned _ _ _ Hr) as (i & Hi & Hl).
    rewrite (deleteAttendanceRecord_found _ _ _ _ Hi Hl). cbn [fst]. student_simpl.
    split; [apply IsLatestDate_IsLatestDay, latestBySort_IsLatestDate|].
    intros x Hx. apply Hle. now apply list_elem_of_delete_inv in Hx.
  - split; [reflexivity|]. intros r Hr. now apply elem_of_nil in Hr.
Qed.

(** C6 (invariant I3), the date of a record being a calendar-day marker.
    Let no record be dated after the instant [t] of the operation, as is
    the case when records are dated by a clock that does not run backwards.
    Immediately after [markAttendance] at [t], after a
    [deleteAttendanceRecord] that finds its record and after
    [clearAttendanceHistory], [lastAttendance] falls on the calendar day of
    the chronologically latest record of the history, and is null if the
    history is empty; and still no record is dated after [t].  After a
    deletion or a clearing [lastAttendance] is the date of that record to
    the millisecond; after [markAttendance] it is the instant [t] of the
    call, a later instant of the same day when the call updates a record. *)
Theorem lastAttendance_after_mutation (this : Student) (m : Mutation) (t : Z) :
  completes this m ->
  (forall r, r ∈ attendanceHistory this -> date r <= t) ->
  (forall c, m = MarkAttendance c -> callNow c = t) ->
  let this' := mutate this m in
  IsLatestDay (attendanceHistory this') (lastAttendance this')
  /\ (forall r, r ∈ attendanceHistory this' -> date r <= t)
  /\ match m with
     | MarkAttendance _ => lastAttendance this' = Some t
     | DeleteAttendanceRecord _ | ClearAttendanceHistory =>
         IsLatestDate (attendanceHistory this') (lastAttendance this')
     end.
Proof.
  intros Hm Hle Hnow this'. subst this'.
  destruct (mutate_IsLatestDay this m t Hm Hle Hnow) as [Hday Hbound].
  split; [exact Hday|]. split; [exact Hbound|].
  destruct m as [c|recordId|]; cbn [mutate].
  - unfold markCall. rewrite markAttendance_lastAttendance.
    now rewrite (Hnow c eq_refl).
  - destruct Hm as [r Hr].
    destruct (deleteAttendanceRecord_Returned _ _ _ Hr) as (i & Hi & Hl).
    rewrite (deleteAttendanceRecord_found _ _ _ _ Hi Hl). cbn [fst]. student_simpl.
    apply latestBySort_IsLatestDate.
  - reflexivity.
Qed.

(** ** History queries *)

Lemma filter_filter_andb {A : Type} (p q : A -> bool) (l : list A) :
  List.filter q (List.filter p l) = List.filter (fun x => p x && q x) l.
Proof.
  induction l as [|x l IH]; [reflexivity|]. cbn [List.filter].
  destruct (p x); cbn [List.filter andb]; [destruct (q x)|]; now rewrite IH.
Qed.

Lemma filter_true {A : Type} (l : list A) : List.filter (fun _ => true) l = l.
Proof. induction l as [|x l IH]; [reflexivity|]. cbn. now rewrite IH. Qed.

Lemma applyBounds_filter options h :
  applyEnd (endDate options) (applyStart (startDate options) h) =
  List.filter (withinBounds options) h.
Proof.
  unfold applyEnd, applyStart, withinBounds.
  destruct (startDate options) as [s|], (endDate options) as [e|].
  - apply filter_filter_andb.
  - apply List.filter_ext. intros r. now rewrite andb_true_r.
  - reflexivity.
  - symmetry. apply filter_true.
Qed.

Lemma endOfLocalDay_bound (e t : Z) :
  t <= endOfLocalDay e <-> localDay t <= localDay e.
Proof.
  unfold endOfLocalDay, startOfLocalDay, localDay, msPerDay.
  pose proof (Z.div_mod (e + tzOffset) 86400000 ltac:(lia)) as He.
  pose proof (Z.mod_pos_bound (e + tzOffset) 86400000 ltac:(lia)) as Hb.
  pose proof (Z.div_mod (t + tzOffset) 86400000 ltac:(lia)) as Ht.
  pose proof (Z.mod_pos_bound (t + tzOffset) 86400000 ltac:(lia)) as Hc.
  split; intros H; nia.
Qed.

(** C7.  The stats returned by [getFilteredAttendanceHistory], and the
    count of filtered records returned with them, are the same for all
    values of [limit] and [offset] under fixed other options: the total,
    present ('present' or 'entered') and absent counts and the cached
    percentage are taken from the whole history, the filtered count from the
    history filtered by the date range, before pagination.  [limit] and
    [offset] only select which of the filtered, sorted records are
    returned. *)
Theorem stats_independent_of_pagination
    (this : Student) (options : HistoryOptions)
    (lim lim' : option ParsedInt) (off off' : ParsedInt) :
  let page := getFilteredAttendanceHistory this (withPage lim off options) in
  let page' := getFilteredAttendanceHistory this (withPage lim' off' options) in
  let whole := getFilteredAttendanceHistory this (withPage None off options) in
  stats page = stats page'
  /\ totalRecords page = totalRecords page'
  /\ HistoryStats.totalCount (stats page) = Z.of_nat (length (attendanceHistory this))
  /\ HistoryStats.presentCount (stats page) =
     countIf isPresentOrEntered (attendanceHistory this)
  /\ HistoryStats.absentCount (stats page) = countIf isAbsent (attendanceHistory this)
  /\ HistoryStats.attendancePercentage (stats page) = attendancePercentage this
  /\ HistoryStats.filteredCount (stats page) =
     Z.of_nat (length (List.filter (withinBounds options) (attendanceHistory this)))
  /\ HistoryStats.filteredCount (stats page) = Z.of_nat (length (records whole))
  /\ records page = paginate lim off (records whole).
Proof.
  cbn zeta. unfold getFilteredAttendanceHistory.
  cbn [records totalRecords stats withPage startDate endDate limit offset
       sortBy sortOrder HistoryStats.totalCount HistoryStats.presentCount
       HistoryStats.absentCount HistoryStats.attendancePercentage
       HistoryStats.filteredCount paginate].
  repeat split; try reflexivity.
  rewrite sortWith_length, applyBounds_filter.
  unfold withinBounds. reflexivity.
Qed.

(** The date bounds as the code applies them.  Without pagination, the
    records returned by [getFilteredAttendanceHistory] are exactly the
    records of the history that pass both bounds, each bound being optional
    and applied independently: with a (valid) [startDate], the records
    dated at or after the instant [new Date(startDate)] itself, which is
    not moved to the start of its day; with a (valid) [endDate], the
    records dated at or before 23:59:59.999 local time of [endDate]'s day,
    that is the records whose local calendar day is not after [endDate]'s. *)
Lemma date_range_filter (this : Student) (options : HistoryOptions) :
  limit options = None ->
  records (getFilteredAttendanceHistory this options)
    ≡ₚ List.filter (withinBounds options) (attendanceHistory this)
  /\ (forall r, withinBounds options r = true <->
        match startDate options with
        | Some (ValidDate s) => s <= date r
        | Some InvalidDate => False
        | None => True
        end
        /\ match endDate options with
           | Some (ValidDate e) =>
               date r <= startOfLocalDay e + 86399999
               /\ localDay (date r) <= localDay e
           | Some InvalidDate => False
           | None => True
           end).
Proof.
  intros Hlim. split.
  - unfold getFilteredAttendanceHistory. cbn [records]. rewrite Hlim.
    cbn [paginate]. rewrite sortWith_Permutation. now rewrite applyBounds_filter.
  - intros r. unfold withinBounds. rewrite andb_true_iff.
    assert (Hs : (match startDate options with
                  | Some s => notBefore s r | None => true end) = true <->
                 match startDate options with
                 | Some (ValidDate s) => s <= date r
                 | Some InvalidDate => False
                 | None => True
                 end).
    { destruct (startDate options) as [[s|]|]; cbn [notBefore];
        rewrite ?Z.leb_le; intuition discriminate. }
    assert (He : (match endDate options with
                  | Some e => notAfter e r | None => true end) = true <->
                 match endDate options with
                 | Some (ValidDate e) =>
                     date r <= startOfLocalDay e + 86399999
                     /\ localDay (date r) <= localDay e
                 | Some InvalidDate => False
                 | None => True
                 end).
    { destruct (endDate options) as [[e|]|]; cbn [notAfter];
        rewrite ?Z.leb_le; try (intuition discriminate).
      pose proof (endOfLocalDay_bound e (date r)) as Hb.
      unfold endOfLocalDay, msPerDay in *. change (86400000 - 1) with 86399999 in *.
      tauto. }
    tauto.
Qed.

(** ** Further properties of markAttendance *)

Lemma findIndex_snoc {A : Type} (p : A -> bool) (l : list A) (x : A) :
  findIndex p l = None ->
  findIndex p (l ++ [x]) = if p x then Some (length l) else None.
Proof.
  induction l as [|a l IH]; cbn [findIndex app length].
  - intros _. now destruct (p x).
  - destruct (p a); [discriminate|].
    destruct (findIndex p l) as [k|]; [discriminate|]. intros _.
    rewrite (IH eq_refl). now destruct (p x).
Qed.

Lemma findIndex_ext {A : Type} (p q : A -> bool) (l : list A) :
  (forall x, p x = q x) -> findIndex p l = findIndex q l.
Proof.
  intros Hpq. induction l as [|a l IH]; [reflexivity|].
  cbn [findIndex]. now rewrite Hpq, IH.
Qed.

Lemma todayIndex_same_day now now' h :
  localDay now = localDay now' -> todayIndex now h = todayIndex now' h.
Proof.
  intros Hd. unfold todayIndex. apply findIndex_ext.
  intros r. now rewrite !sameDateString_today, Hd.
Qed.

Lemma todayRecordOf_same_day now now' h :
  localDay now = localDay now' -> todayRecordOf now h = todayRecordOf now' h.
Proof. intros Hd. unfold todayRecordOf. now rewrite (todayIndex_same_day _ _ _ Hd). Qed.

(** Today's record after one call. *)
Lemma todayRecordOf_markAttendance this now freshId st adminId dev loc :
  todayRecordOf now
    (attendanceHistory (markAttendance this now freshId st adminId dev loc)) =
  Some match todayRecordOf now (attendanceHistory this) with
       | Some r => applyProvenance adminId dev loc (applyStatus now st r)
       | None => newRecord now freshId st adminId dev loc
       end.
Proof.
  unfold todayRecordOf at 2.
  destruct (todayIndex now (attendanceHistory this)) as [i|] eqn:Hi.
  - destruct (todayIndex_Some _ _ _ Hi) as (r & Hr & _). rewrite Hr.
    rewrite (markAttendance_update _ _ _ _ _ _ _ _ _ Hi Hr). student_simpl.
    unfold todayRecordOf. rewrite (todayIndex_insert now _ i r _ Hr).
    + rewrite Hi. apply list_lookup_insert_eq. eapply lookup_lt_Some; eauto.
    + destruct (applyProvenance_core adminId dev loc (applyStatus now st r))
        as (_ & -> & _).
      apply applyStatus_date.
  - rewrite (markAttendance_create _ _ _ _ _ _ _ Hi). student_simpl.
    unfold todayRecordOf, todayIndex in *.
    rewrite (findIndex_snoc _ _ _ Hi). cbn [newRecord date].
    rewrite sameDateString_today, Z.eqb_refl.
    now rewrite lookup_app_r, Nat.sub_diag by lia.
Qed.

(** X1.  A call with status 'left' always closes today's record: whatever
    the day's record was (or if there was none), after the call today's
    record has status 'left' and leaveTime [now]; its entryTime is the one it
    had (null for a record created by the call) and [attendanceCount] is
    unchanged. *)
Theorem markAttendance_left_overwrites
    (this : Student) (now : Z) (freshId : ObjectId)
    (adminId : option ObjectId) (dev loc : option string) :
  let this' := markAttendance this now freshId Left adminId dev loc in
  exists r',
    todayRecordOf now (attendanceHistory this') = Some r'
    /\ status r' = Left
    /\ leaveTime r' = Some now
    /\ entryTime r' = match todayRecordOf now (attendanceHistory this) with
                      | Some r => entryTime r
                      | None => None
                      end
    /\ attendanceCount this' = attendanceCount this.
Proof.
  cbn zeta. rewrite todayRecordOf_markAttendance, markAttendance_count.
  eexists. split; [reflexivity|].
  destruct (todayRecordOf now (attendanceHistory this)) as [r|].
  - destruct (applyProvenance_core adminId dev loc (applyStatus now Left r))
      as (_ & _ & -> & -> & ->).
    repeat split; reflexivity.
  - repeat split; reflexivity.
Qed.

(** X2.  A call never removes or reorders records and touches at most
    today's record: the history keeps its length or grows by one, and every
    record at a position other than today's index is unchanged. *)
Theorem markAttendance_frame
    (this : Student) (now : Z) (freshId : ObjectId) (st : Status)
    (adminId : option ObjectId) (dev loc : option string) :
  let h := attendanceHistory this in
  let h' := attendanceHistory (markAttendance this now freshId st adminId dev loc) in
  (length h <= length h' <= length h + 1)%nat
  /\ _id <$> h `prefix_of` _id <$> h'
  /\ (forall j r, h !! j = Some r -> todayIndex now h <> Some j -> h' !! j = Some r).
Proof.
  cbn zeta.
  destruct (todayIndex now (attendanceHistory this)) as [i|] eqn:Hi.
  - destruct (todayIndex_Some _ _ _ Hi) as (r & Hr & _).
    rewrite (markAttendance_update _ _ _ _ _ _ _ _ _ Hi Hr). student_simpl.
    rewrite length_insert. split; [lia|]. split.
    + rewrite (fmap_insert_same _id _ i r) by
        (try exact Hr;
         destruct (applyProvenance_core adminId dev loc (applyStatus now st r))
           as (-> & _); apply applyStatus_id).
      reflexivity.
    + intros j x Hx Hne. rewrite list_lookup_insert_ne; [exact Hx|congruence].
  - rewrite (markAttendance_create _ _ _ _ _ _ _ Hi). student_simpl.
    rewrite length_app. cbn [length]. split; [lia|]. split.
    + rewrite fmap_app. now apply prefix_app_r.
    + intros j x Hx _. now apply lookup_app_l_Some.
Qed.

(** What one call does to today's record, whatever its status. *)
Lemma applyStatus_monotone now st r :
  (status r = Left -> status (applyStatus now st r) = Left)
  /\ (forall t, entryTime r = Some t -> entryTime (applyStatus now st r) = Some t)
  /\ (st <> Left -> leaveTime (applyStatus now st r) = leaveTime r).
Proof.
  unfold applyStatus.
  destruct st, r as [? ? s [e|] ? ? ? ?]; cbn; repeat split;
    try congruence; try (intros ->; reflexivity);
    destruct s; cbn; congruence.
Qed.

(** The invariants of today's record along a sequence of same-day calls. *)
Lemma markAll_today (this : Student) (now0 : Z) (calls : list MarkCall) (r : AttendanceRecord) :
  todayRecordOf now0 (attendanceHistory this) = Some r ->
  Forall (fun c => localDay (callNow c) = localDay now0) calls ->
  exists r',
    todayRecordOf now0 (attendanceHistory (markAll this calls)) = Some r'
    /\ _id r' = _id r /\ date r' = date r
    /\ (status r = Left -> status r' = Left)
    /\ (forall t, entryTime r = Some t -> entryTime r' = Some t)
    /\ (Forall (fun c => callStatus c <> Left) calls -> leaveTime r' = leaveTime r).
Proof.
  intros Hr. induction calls as [|c calls IH] using rev_ind; intros Hday.
  - exists r. repeat split; auto.
  - apply Forall_app in Hday as [Hday Hc]. rewrite Forall_singleton in Hc.
    destruct (IH Hday) as (r1 & H1 & Hid & Hd & Hs & He & Hl).
    rewrite markAll_snoc. unfold markCall.
    rewrite <- (todayRecordOf_same_day _ _ _ Hc), todayRecordOf_markAttendance.
    rewrite (todayRecordOf_same_day _ _ _ Hc), H1.
    eexists. split; [reflexivity|].
    destruct (applyProvenance_core (callAdminId c) (callDeviceInfo c)
                (callScanLocation c) (applyStatus (callNow c) (callStatus c) r1))
      as (-> & -> & -> & -> & ->).
    destruct (applyStatus_monotone (callNow c) (callStatus c) r1) as (Ms & Me & Ml).
    rewrite applyStatus_id, applyStatus_date.
    repeat split; auto.
    intros Hnl. apply Forall_app in Hnl as [Hnl Hcl].
    rewrite Forall_singleton in Hcl. rewrite (Ml Hcl). auto.
Qed.

(** X3.  Within a day 'left' is absorbing: once today's record has status
    'left', no sequence of [markAttendance] calls of that day, with any
    statuses, changes its status, its id or its date. *)
Theorem markAll_left_absorbing
    (this : Student) (now0 : Z) (calls : list MarkCall) (r : AttendanceRecord) :
  todayRecordOf now0 (attendanceHistory this) = Some r ->
  status r = Left ->
  Forall (fun c => localDay (callNow c) = localDay now0) calls ->
  exists r',
    todayRecordOf now0 (attendanceHistory (markAll this calls)) = Some r'
    /\ status r' = Left /\ _id r' = _id r /\ date r' = date r.
Proof.
  intros Hr Hl Hday.
  destruct (markAll_today this now0 calls r Hr Hday) as (r' & H' & Hid & Hd & Hs & _).
  exists r'. auto.
Qed.

(** X4.  The first entry of the day wins: once today's record has an
    entryTime, no sequence of same-day calls changes it; and its leaveTime
    is only changed by calls with status 'left'. *)
Theorem markAll_first_entry_wins
    (this : Student) (now0 : Z) (calls : list MarkCall)
    (r : AttendanceRecord) (t : Z) :
  todayRecordOf now0 (attendanceHistory this) = Some r ->
  entryTime r = Some t ->
  Forall (fun c => localDay (callNow c) = localDay now0) calls ->
  exists r',
    todayRecordOf now0 (attendanceHistory (markAll this calls)) = Some r'
    /\ entryTime r' = Some t
    /\ (Forall (fun c => callStatus c <> Left) calls -> leaveTime r' = leaveTime r).
Proof.
  intros Hr He Hday.
  destruct (markAll_today this now0 calls r Hr Hday) as (r' & H' & _ & _ & _ & He' & Hl).
  exists r'. auto.
Qed.

(** ** Marking and deleting *)

Lemma delete_snoc {A : Type} (l : list A) (x : A) : delete (length l) (l ++ [x]) = l.
Proof. rewrite (delete_middle l [] x). apply app_nil_r. Qed.

Lemma findIndex_id_None (recordId : string) (h : list AttendanceRecord) :
  (forall r, r ∈ h -> _id r <> recordId) ->
  findIndex (fun record => String.eqb (_id record) recordId) h = None.
Proof.
  induction h as [|a l IH]; intros Hfresh; [reflexivity|].
  cbn [findIndex].
  destruct (String.eqb (_id a) recordId) eqn:Ha.
  - apply String.eqb_eq in Ha. exfalso. apply (Hfresh a); [constructor|exact Ha].
  - rewrite IH; [reflexivity|]. intros r Hr. apply Hfresh. now constructor.
Qed.

(** X5.  Deleting the record that a call has just pushed undoes the push:
    when today has no record and [freshId] is the id of no record,
    [deleteAttendanceRecord] of [freshId] after [markAttendance] returns the
    pushed record and restores the history and the percentage computed from
    it.  [attendanceCount] is unchanged for 'absent' and 'left', comes
    back to its value (floored at 0) for 'present', and is one lower
    (floored at 0) for 'entered', which the push does not count and the
    deletion does. *)
Theorem markAttendance_then_delete
    (this : Student) (now : Z) (freshId : ObjectId) (st : Status)
    (adminId : option ObjectId) (dev loc : option string) :
  todayIndex now (attendanceHistory this) = None ->
  (forall r, r ∈ attendanceHistory this -> _id r <> freshId) ->
  let res := deleteAttendanceRecord
               (markAttendance this now freshId st adminId dev loc) freshId in
  snd res = Returned (newRecord now freshId st adminId dev loc)
  /\ attendanceHistory (fst res) = attendanceHistory this
  /\ attendancePercentage (fst res) = recomputePercentage (attendanceHistory this)
  /\ lastAttendance (fst res) = latestBySort (attendanceHistory this)
  /\ attendanceCount (fst res) =
     match st with
     | Present => Z.max 0 (attendanceCount this)
     | Entered => Z.max 0 (attendanceCount this - 1)
     | Absent | Left => attendanceCount this
     end.
Proof.
  intros Hnone Hfresh. cbn zeta.
  rewrite (markAttendance_create _ _ _ _ _ _ _ Hnone). cbn zeta.
  set (new := newRecord now freshId st adminId dev loc).
  assert (Hidx : findIndex (fun record => String.eqb (_id record) freshId)
                   (attendanceHistory this ++ [new])
                 = Some (length (attendanceHistory this))).
  { rewrite findIndex_snoc.
    - subst new. cbn [newRecord _id]. now rewrite String.eqb_refl.
    - now apply findIndex_id_None. }
  assert (Hl : (attendanceHistory this ++ [new]) !! length (attendanceHistory this)
               = Some new)
    by now rewrite lookup_app_r, Nat.sub_diag by lia.
  erewrite deleteAttendanceRecord_found; [|exact Hidx|exact Hl].
  cbn [fst snd]. student_simpl. rewrite delete_snoc.
  repeat split; try reflexivity.
  subst new. unfold isPresentOrEntered. cbn [newRecord status].
  destruct st; cbn [Status_eqb]; try reflexivity. f_equal. lia.
Qed.

Lemma findIndex_delete_None (recordId : string) (h : list AttendanceRecord) i :
  NoDup (_id <$> h) ->
  findIndex (fun record => String.eqb (_id record) recordId) h = Some i ->
  findIndex (fun record => String.eqb (_id record) recordId) (delete i h) = None.
Proof.
  revert i. induction h as [|a h IH]; intros i Hnd Hi; [discriminate|].
  cbn [findIndex] in Hi. rewrite fmap_cons in Hnd. apply NoDup_cons in Hnd as [Ha Hnd].
  destruct (String.eqb (_id a) recordId) eqn:Hid.
  - injection Hi as <-. change (delete 0%nat (a :: h)) with h.
    apply String.eqb_eq in Hid. apply findIndex_id_None.
    intros r Hr Heq. apply Ha. rewrite Hid, <- Heq.
    apply list_elem_of_fmap. eauto.
  - destruct (findIndex _ h) as [k|] eqn:Hk; [|discriminate].
    injection Hi as <-. change (delete (S k) (a :: h)) with (a :: delete k h).
    cbn [findIndex]. rewrite Hid. now rewrite (IH k Hnd eq_refl).
Qed.

(** X6.  A successful deletion removes one record and keeps the others in
    their order; when the ids of the history are pairwise distinct, the id
    is gone afterwards, so deleting it again throws and changes nothing. *)
Theorem deleteAttendanceRecord_once
    (this : Student) (recordId : string) (deleted : AttendanceRecord) :
  snd (deleteAttendanceRecord this recordId) = Returned deleted ->
  let this' := fst (deleteAttendanceRecord this recordId) in
  S (length (attendanceHistory this')) = length (attendanceHistory this)
  /\ attendanceHistory this' `sublist_of` attendanceHistory this
  /\ (NoDup (_id <$> attendanceHistory this) ->
      (forall r, r ∈ attendanceHistory this' -> _id r <> recordId)
      /\ deleteAttendanceRecord this' recordId =
         (this', Thrown "Attendance record not found")).
Proof.
  intros Hret.
  destruct (deleteAttendanceRecord_Returned _ _ _ Hret) as (i & Hi & Hl).
  rewrite (deleteAttendanceRecord_found _ _ _ _ Hi Hl). cbn zeta. cbn [fst].
  student_simpl. split; [|split].
  - rewrite length_delete by eauto.
    apply lookup_lt_Some in Hl. lia.
  - apply sublist_delete.
  - intros Hnd. pose proof (findIndex_delete_None _ _ _ Hnd Hi) as Hgone.
    split.
    + intros r Hr Heq. apply findIndex_None in Hgone.
      assert (Hin : In r (List.filter (fun record => String.eqb (_id record) recordId)
                            (delete i (attendanceHistory this)))).
      { apply List.filter_In. split; [now apply list_elem_of_In|].
        now apply String.eqb_eq. }
      rewrite Hgone in Hin. destruct Hin.
    + now apply deleteAttendanceRecord_missing.
Qed.

(** ** Bounds of the percentage *)

Lemma countIf_bounds (p : AttendanceRecord -> bool) (h : list AttendanceRecord) :
  0 <= countIf p h <= Z.of_nat (length h).
Proof.
  unfold countIf. pose proof (List.filter_length_le p h). lia.
Qed.

Lemma percentageOf_bounds (a n : Z) :
  0 <= a <= n -> (0 <= percentageOf a n)%Q /\ (percentageOf a n <= 100)%Q.
Proof.
  intros Ha. unfold percentageOf.
  destruct n as [|p|p]; cbn [Z.ltb Z.compare]; try (split; discriminate).
  unfold Qle, Qdiv, Qmult, Qinv. cbn. split; nia.
Qed.

Lemma percentageOf_le (a b n : Z) :
  a <= b -> (percentageOf a n <= percentageOf b n)%Q.
Proof.
  intros Hab. unfold percentageOf.
  destruct n as [|p|p]; cbn [Z.ltb Z.compare]; try discriminate.
  unfold Qle, Qdiv, Qmult, Qinv. cbn. nia.
Qed.

Lemma percentageOf_eq (a b n : Z) :
  0 < n -> (percentageOf a n == percentageOf b n)%Q <-> a = b.
Proof.
  intros Hn. unfold percentageOf.
  destruct n as [|p|p]; cbn [Z.ltb Z.compare]; try lia.
  unfold Qeq, Qdiv, Qmult, Qinv. cbn. split; [nia|intros ->; reflexivity].
Qed.

Lemma mutate_percentage (this : Student) (m : Mutation) :
  completes this m ->
  attendancePercentage (mutate this m) =
  recomputePercentage (attendanceHistory (mutate this m)).
Proof.
  intros Hm. destruct m as [c|recordId|]; cbn [mutate].
  - apply markAttendance_percentage.
  - destruct Hm as [r Hr].
    destruct (deleteAttendanceRecord_Returned _ _ _ Hr) as (i & Hi & Hl).
    now rewrite (deleteAttendanceRecord_found _ _ _ _ Hi Hl).
  - reflexivity.
Qed.

(** X7.  After every completed mutating operation the cached percentage
    lies between 0 and 100, so the schema's [min] and [max] validators of
    [attendancePercentage] never reject what the methods save. *)
Theorem attendancePercentage_in_range (this : Student) (m : Mutation) :
  completes this m ->
  (0 <= attendancePercentage (mutate this m))%Q
  /\ (attendancePercentage (mutate this m) <= 100)%Q.
Proof.
  intros Hm. rewrite (mutate_percentage _ _ Hm).
  apply percentageOf_bounds, countIf_bounds.
Qed.

Lemma countIf_present_entered (h : list AttendanceRecord) :
  countIf isPresentOrEntered h = countIf isPresent h + countIf isEntered h.
Proof.
  unfold countIf, isPresentOrEntered, isPresent, isEntered.
  induction h as [|r h IH]; [reflexivity|]. cbn [List.filter].
  destruct (status r); cbn [Status_eqb length]; lia.
Qed.

Lemma calculateAttendancePercentage_eq (this : Student) :
  calculateAttendancePercentage this =
  percentageOf (countIf isPresent (attendanceHistory this))
               (Z.of_nat (length (attendanceHistory this))).
Proof.
  unfold calculateAttendancePercentage, percentageOf.
  destruct (attendanceHistory this) as [|r h]; [reflexivity|].
  change (length (r :: h)) with (S (length h)).
  now destruct (Z.of_nat (S (length h))) eqn:E; try lia.
Qed.

(** X8.  The [calculateAttendancePercentage] virtual, which counts status
    'present' only, never exceeds the cached [attendancePercentage] that a
    completed mutating operation leaves, which counts 'entered' too; the two
    agree exactly when no record has status 'entered'. *)
Theorem calculateAttendancePercentage_le_cache (this : Student) (m : Mutation) :
  completes this m ->
  let this' := mutate this m in
  (0 <= calculateAttendancePercentage this')%Q
  /\ (calculateAttendancePercentage this' <= attendancePercentage this')%Q
  /\ ((calculateAttendancePercentage this' == attendancePercentage this')%Q <->
      countIf isEntered (attendanceHistory this') = 0).
Proof.
  intros Hm. cbn zeta. rewrite (mutate_percentage _ _ Hm).
  rewrite calculateAttendancePercentage_eq. unfold recomputePercentage.
  set (h := attendanceHistory (mutate this m)).
  pose proof (countIf_bounds isPresent h) as Hp.
  pose proof (countIf_bounds isEntered h) as He.
  pose proof (countIf_present_entered h) as Hpe.
  split; [apply percentageOf_bounds; lia|].
  split; [apply percentageOf_le; lia|].
  destruct h as [|r h'] eqn:Eh.
  - cbn. split; reflexivity.
  - rewrite percentageOf_eq by (change (length (r :: h')) with (S (length h')); lia).
    lia.
Qed.

(** ** Repair of lastAttendance *)

Lemma repairLastAttendance_set (studentObj : Student) :
  lastAttendance studentObj <> None -> repairLastAttendance studentObj = studentObj.
Proof.
  intros Hl. unfold repairLastAttendance.
  destruct (lastAttendance studentObj); [|congruence].
  cbn [isSet negb]. now rewrite andb_false_r.
Qed.

Lemma repairLastAttendance_empty (studentObj : Student) :
  attendanceHistory studentObj = [] -> repairLastAttendance studentObj = studentObj.
Proof. intros Hh. unfold repairLastAttendance. now rewrite Hh. Qed.

Lemma repairLastAttendance_null (studentObj : Student) :
  lastAttendance studentObj = None ->
  attendanceHistory studentObj <> [] ->
  exists t,
    latestBySort (attendanceHistory studentObj) = Some t
    /\ repairLastAttendance studentObj =
       {| attendanceHistory := attendanceHistory studentObj;
          attendanceCount := attendanceCount studentObj;
          attendancePercentage := attendancePercentage studentObj;
          lastAttendance := Some t |}.
Proof.
  intros Hl Hh. unfold repairLastAttendance, latestBySort. rewrite Hl.
  pose proof (sortWith_length byDateDesc (attendanceHistory studentObj)) as Hlen.
  destruct (attendanceHistory studentObj) as [|r h] eqn:Eh; [congruence|].
  change (0 <? Z.of_nat (length (r :: h))) with true.
  destruct (sortWith byDateDesc (r :: h)) as [|x s']; [discriminate|].
  exists (date x). split; reflexivity.
Qed.

(** X9.  The repair of [getAllStudents] changes nothing but
    [lastAttendance], and that only when it is null and the history is not
    empty: it then becomes the date of the chronologically latest record.
    So after the repair a student with records has a [lastAttendance], and
    repairing twice is repairing once. *)
Theorem repairLastAttendance_spec (studentObj : Student) :
  let repaired := repairLastAttendance studentObj in
  attendanceHistory repaired = attendanceHistory studentObj
  /\ attendanceCount repaired = attendanceCount studentObj
  /\ attendancePercentage repaired = attendancePercentage studentObj
  /\ (lastAttendance studentObj <> None -> repaired = studentObj)
  /\ (lastAttendance studentObj = None ->
      IsLatestDate (attendanceHistory studentObj) (lastAttendance repaired))
  /\ (attendanceHistory studentObj <> [] -> lastAttendance repaired <> None)
  /\ repairLastAttendance repaired = repaired.
Proof.
  cbn zeta.
  destruct (lastAttendance studentObj) as [t|] eqn:Hlast.
  - rewrite (repairLastAttendance_set studentObj) by congruence.
    rewrite (repairLastAttendance_set studentObj) by congruence.
    repeat split; congruence.
  - destruct (attendanceHistory studentObj) as [|r h] eqn:Hh.
    + rewrite (repairLastAttendance_empty studentObj Hh).
      rewrite (repairLastAttendance_empty studentObj Hh).
      rewrite Hh, Hlast. repeat split; congruence.
    + destruct (repairLastAttendance_null studentObj Hlast) as (t & Ht & ->);
        [congruence|].
      rewrite repairLastAttendance_set by (student_simpl; discriminate).
      student_simpl.
      pose proof (latestBySort_IsLatestDate (attendanceHistory studentObj)) as Hlatest.
      rewrite Ht, Hh in Hlatest.
      do 4 (split; [congruence|]).
      split; [intros _; exact Hlatest|]. split; [discriminate|reflexivity].
Qed.

(** X10.  On a student as a completed mutating operation of the model
    leaves it the repair has nothing to do: the methods never leave a
    history with records and a null [lastAttendance]. *)
Theorem repairLastAttendance_after_mutation (this : Student) (m : Mutation) :
  completes this m ->
  repairLastAttendance (mutate this m) = mutate this m.
Proof.
  intros Hm. unfold repairLastAttendance.
  destruct m as [c|recordId|]; cbn [mutate].
  - unfold markCall. rewrite markAttendance_lastAttendance.
    cbn [isSet negb]. now rewrite andb_false_r.
  - destruct Hm as [r Hr].
    destruct (deleteAttendanceRecord_Returned _ _ _ Hr) as (i & Hi & Hl).
    rewrite (deleteAttendanceRecord_found _ _ _ _ Hi Hl). cbn [fst]. student_simpl.
    unfold latestBySort.
    pose proof (sortWith_length byDateDesc (delete i (attendanceHistory this))) as Hlen.
    destruct (delete i (attendanceHistory this)) as [|x h'] eqn:Hd.
    + reflexivity.
    + destruct (sortWith byDateDesc (x :: h')) as [|y s]; [discriminate|].
      cbn [head fmap option_fmap option_map isSet negb]. now rewrite andb_false_r.
  - reflexivity.
Qed.

(** ** Sorting and pagination of the history query *)

Lemma insertBy_StronglySorted {A : Type} (cmp : A -> A -> Z) (R : A -> A -> Prop)
    (x : A) (l : list A) :
  (forall a b, cmp a b <= 0 -> R a b) ->
  (forall a b, 0 < cmp a b -> R b a) ->
  (forall a b c, R a b -> R b c -> R a c) ->
  StronglySorted R l -> StronglySorted R (insertBy cmp x l).
Proof.
  intros Hle Hgt Htrans. induction 1 as [|y l Hs IH Hy]; cbn [insertBy].
  - repeat constructor.
  - destruct (cmp x y <=? 0) eqn:Hc.
    + apply Z.leb_le in Hc. constructor; [now constructor|].
      constructor; [now apply Hle|].
      eapply Forall_impl; [exact Hy|]. intros z Hz. cbn in *. eauto.
    + apply Z.leb_gt in Hc. constructor; [exact IH|].
      rewrite (insertBy_Permutation cmp x l). constructor; [now apply Hgt|exact Hy].
Qed.

Lemma sortWith_StronglySorted {A : Type} (cmp : A -> A -> Z) (R : A -> A -> Prop)
    (l : list A) :
  (forall a b, cmp a b <= 0 -> R a b) ->
  (forall a b, 0 < cmp a b -> R b a) ->
  (forall a b c, R a b -> R b c -> R a c) ->
  StronglySorted R (sortWith cmp l).
Proof.
  intros Hle Hgt Htrans. induction l as [|x l IH]; [constructor|].
  unfold sortWith in *. cbn [foldr]. now apply insertBy_StronglySorted.
Qed.

Lemma StronglySorted_sublist {A : Type} (R : A -> A -> Prop) (l1 l2 : list A) :
  l1 `sublist_of` l2 -> StronglySorted R l2 -> StronglySorted R l1.
Proof.
  induction 1 as [|x l1 l2 Hsub IH|x l1 l2 Hsub IH]; intros Hs.
  - constructor.
  - apply StronglySorted_inv in Hs as [Hs Hx]. constructor; [now apply IH|].
    rewrite Forall_forall in *. intros y Hy. apply Hx.
    eapply elem_of_sublist; eauto.
  - apply StronglySorted_inv in Hs as [Hs _]. now apply IH.
Qed.

Lemma slice_sublist {A : Type} (l : list A) (a b : Z) : slice l a b `sublist_of` l.
Proof.
  unfold slice. etransitivity; [apply sublist_take|apply sublist_drop].
Qed.

Lemma paginate_sublist lim off (l : list AttendanceRecord) :
  paginate lim off l `sublist_of` l.
Proof.
  unfold paginate. destruct lim as [[|n]|]; try apply slice_sublist. reflexivity.
Qed.

(** [slice] on indices that are not negative. *)
Lemma slice_nonneg {A : Type} (l : list A) (a b : Z) :
  0 <= a -> 0 <= b ->
  slice l a b = take (Z.to_nat b - Z.to_nat a) (drop (Z.to_nat a) l).
Proof.
  intros Ha Hb. unfold slice, clampIndex.
  replace (a <? 0) with false by (symmetry; apply Z.ltb_ge; lia).
  replace (b <? 0) with false by (symmetry; apply Z.ltb_ge; lia).
  set (len := Z.of_nat (length l)).
  destruct (Z_le_gt_dec len a) as [Hge|Hlt].
  - rewrite !drop_ge by lia. now rewrite !take_nil.
  - replace (Z.min a len) with a by lia.
    destruct (Z_le_gt_dec b len) as [Hb1|Hb1].
    + replace (Z.min b len) with b by lia. f_equal. lia.
    + replace (Z.min b len) with len by lia.
      rewrite !take_ge; [reflexivity| |]; rewrite length_drop; lia.
Qed.

Lemma slice_end_0 {A : Type} (l : list A) (a : Z) : slice l a 0 = [].
Proof.
  unfold slice.
  assert (Hk : 0 <= clampIndex (Z.of_nat (length l)) a)
    by (unfold clampIndex; destruct (a <? 0) eqn:E;
        [|apply Z.ltb_ge in E]; lia).
  assert (H0 : clampIndex (Z.of_nat (length l)) 0 = 0)
    by (unfold clampIndex; cbn [Z.ltb Z.compare]; lia).
  rewrite H0.
  replace (Z.to_nat (0 - clampIndex (Z.of_nat (length l)) a)) with 0%nat by lia.
  reflexivity.
Qed.

(** X11.  Sorted by date, the returned records are in chronological order:
    ascending when [sortOrder] is 'asc', descending for every other value of
    [sortOrder], also under pagination. *)
Theorem getFilteredAttendanceHistory_sorted (this : Student) (options : HistoryOptions) :
  sortBy options = "date"%string ->
  StronglySorted
    (fun a b => if String.eqb (sortOrder options) "asc"
                then date a <= date b else date b <= date a)
    (records (getFilteredAttendanceHistory this options)).
Proof.
  intros Hkey. unfold getFilteredAttendanceHistory. cbn [records].
  eapply StronglySorted_sublist; [apply paginate_sublist|].
  rewrite Hkey. unfold historyCmp. cbn [String.eqb Ascii.eqb Bool.eqb andb].
  destruct (String.eqb (sortOrder options) "asc");
    apply sortWith_StronglySorted; intros; lia.
Qed.

(** X12.  With a limit [n] and an offset [off] that are not negative, the
    page holds min(n, max(0, total - off)) records, [total] being the number
    of filtered records: at most [n], none past the end; and a page followed
    by the next one is the page of both sizes together, so consecutive pages
    neither skip nor repeat a record. *)
Theorem getFilteredAttendanceHistory_pages
    (this : Student) (options : HistoryOptions) (off n m : Z) :
  0 <= off -> 0 <= n -> 0 <= m ->
  let page k size :=
    getFilteredAttendanceHistory this (withPage (Some (Int size)) (Int k) options) in
  Z.of_nat (length (records (page off n))) =
    Z.min n (Z.max 0 (totalRecords (page off n) - off))
  /\ records (page off n) ++ records (page (off + n) m) = records (page off (n + m)).
Proof.
  intros Hoff Hn Hm. cbn zeta. unfold getFilteredAttendanceHistory.
  cbn [records totalRecords withPage startDate endDate limit offset sortBy
       sortOrder paginate].
  set (sorted := sortWith _ _).
  rewrite !slice_nonneg by lia. split.
  - rewrite length_take, length_drop. lia.
  - replace (Z.to_nat (off + n) - Z.to_nat off)%nat with (Z.to_nat n) by lia.
    replace (Z.to_nat (off + n + m) - Z.to_nat (off + n))%nat
      with (Z.to_nat m) by lia.
    replace (Z.to_nat (off + (n + m)) - Z.to_nat off)%nat
      with (Z.to_nat n + Z.to_nat m)%nat by lia.
    replace (Z.to_nat (off + n)) with (Z.to_nat off + Z.to_nat n)%nat by lia.
    rewrite <- (drop_drop sorted (Z.to_nat n) (Z.to_nat off)).
    apply take_take_drop.
Qed.

Lemma withinBounds_filter_In options h r :
  In r (List.filter (withinBounds options) h) <-> In r h /\ withinBounds options r = true.
Proof. apply List.filter_In. Qed.

(** X13.  Whatever the limit and the offset, every returned record is a
    record of the history that passes the date bounds, the page is never
    longer than [totalRecords], and [totalRecords] never exceeds the size of
    the history; a limit that is not a number returns no record. *)
Theorem getFilteredAttendanceHistory_sound (this : Student) (options : HistoryOptions) :
  let page := getFilteredAttendanceHistory this options in
  (forall r, r ∈ records page ->
     r ∈ attendanceHistory this /\ withinBounds options r = true)
  /\ Z.of_nat (length (records page)) <= totalRecords page
  /\ totalRecords page = HistoryStats.filteredCount (stats page)
  /\ totalRecords page <= HistoryStats.totalCount (stats page)
  /\ (limit options = Some NaN -> records page = []).
Proof.
  cbn zeta. unfold getFilteredAttendanceHistory.
  cbn [records totalRecords stats HistoryStats.filteredCount HistoryStats.totalCount].
  rewrite applyBounds_filter.
  set (sorted := sortWith _ _).
  assert (Hperm : sorted ≡ₚ List.filter (withinBounds options) (attendanceHistory this))
    by apply sortWith_Permutation.
  pose proof (paginate_sublist (limit options) (offset options) sorted) as Hsub.
  split; [|split; [|split; [|split]]].
  - intros r Hr. apply (elem_of_sublist _ _ _ Hr) in Hsub as Hr'. clear Hr.
    rename Hr' into Hr.
    rewrite Hperm in Hr. apply list_elem_of_In, withinBounds_filter_In in Hr as [Hin Hb].
    split; [now apply list_elem_of_In|exact Hb].
  - apply sublist_length in Hsub. lia.
  - reflexivity.
  - rewrite Hperm. pose proof (List.filter_length_le (withinBounds options)
                                 (attendanceHistory this)). lia.
  - intros ->. cbn [paginate]. apply slice_end_0.
Qed.

(** ** Range statistics against the overall statistics *)

Lemma countIf_filter_le (p q : AttendanceRecord -> bool) (h : list AttendanceRecord) :
  countIf p (List.filter q h) <= countIf p h.
Proof.
  unfold countIf. induction h as [|r h IH]; [reflexivity|].
  cbn [List.filter]. destruct (q r), (p r) eqn:Hp; cbn [List.filter length];
    rewrite ?Hp; cbn [length]; lia.
Qed.

Lemma filter_inRange_empty (startDate endDate : Z) (h : list AttendanceRecord) :
  endDate < startDate -> List.filter (inRange startDate endDate) h = [].
Proof.
  intros Hempty. induction h as [|r h IH]; [reflexivity|]. cbn [List.filter].
  replace (inRange startDate endDate r) with false; [exact IH|].
  unfold inRange.
  destruct (startDate <=? date r) eqn:H1, (date r <=? endDate) eqn:H2;
    try reflexivity.
  apply Z.leb_le in H1, H2. lia.
Qed.

(** X14.  The numbers of [getAttendanceStats] for any range never exceed
    the overall numbers in the stats of [getFilteredAttendanceHistory]: the
    range total is at most [totalCount], the 'present' bucket at most
    [presentCount] (which also counts 'entered'), the 'absent' bucket at
    most [absentCount].  The range percentage lies between 0 and 100, and a
    range whose end is before its start gives all zeros. *)
Theorem getAttendanceStats_within_overall
    (this : Student) (startDate endDate : Z) (options : HistoryOptions) :
  let st := getAttendanceStats this startDate endDate in
  let overall := stats (getFilteredAttendanceHistory this options) in
  AttendanceStats.total st <= HistoryStats.totalCount overall
  /\ AttendanceStats.present st <= HistoryStats.presentCount overall
  /\ AttendanceStats.absent st <= HistoryStats.absentCount overall
  /\ (0 <= AttendanceStats.percentage st)%Q
  /\ (AttendanceStats.percentage st <= 100)%Q
  /\ (endDate < startDate ->
      AttendanceStats.total st = 0 /\ AttendanceStats.present st = 0
      /\ AttendanceStats.absent st = 0 /\ AttendanceStats.percentage st = 0%Q).
Proof.
  cbn zeta. unfold getAttendanceStats, getFilteredAttendanceHistory.
  cbn [stats AttendanceStats.total AttendanceStats.present AttendanceStats.absent
       AttendanceStats.percentage HistoryStats.totalCount HistoryStats.presentCount
       HistoryStats.absentCount].
  rewrite foldl_tally. cbn [fst snd]. rewrite !Z.add_0_l.
  set (h := attendanceHistory this).
  set (inR := List.filter (inRange startDate endDate) h).
  pose proof (List.filter_length_le (inRange startDate endDate) h) as Hlen.
  pose proof (countIf_filter_le isPresent (inRange startDate endDate) h) as Hp.
  pose proof (countIf_filter_le isAbsent (inRange startDate endDate) h) as Ha.
  pose proof (countIf_present_entered h) as Hpe.
  pose proof (countIf_bounds isEntered h) as He.
  pose proof (countIf_bounds isPresent inR) as Hb.
  fold inR in Hlen, Hp, Ha.
  split; [lia|]. split; [lia|]. split; [lia|].
  split; [now apply percentageOf_bounds|]. split; [now apply percentageOf_bounds|].
  intros Hempty.
  assert (HinR : inR = []) by (subst inR; now apply filter_inRange_empty).
  rewrite HinR. repeat split; reflexivity.
Qed.

(** ** The QR scan path *)

Lemma orDefault_nonempty (a : option string) (d : string) :
  d <> ""%string -> orDefault a d <> ""%string.
Proof.
  intros Hd. unfold orDefault. destruct a as [s|]; [|exact Hd].
  cbn [truthy]. destruct (String.eqb s "") eqn:E; cbn [negb]; [exact Hd|].
  now apply String.eqb_neq.
Qed.

Lemma truthy_Some (s : string) : s <> ""%string -> truthy (Some s) = true.
Proof. intros Hs. cbn. apply String.eqb_neq in Hs. now rewrite Hs. Qed.

Lemma orDefault_Some (s d : string) : s <> ""%string -> orDefault (Some s) d = s.
Proof. intros Hs. unfold orDefault. now rewrite truthy_Some. Qed.

Lemma statusToSave_cases (h : list AttendanceRecord) (t : Z) :
  statusToSave h t = Entered \/ statusToSave h t = Left.
Proof.
  unfold statusToSave, intentOf.
  destruct (scanTodayIndex t h) as [i|]; [|now left].
  destruct (h !! i) as [r|]; [|now left].
  destruct (isSet (leaveTime r)); [now left|].
  destruct (isSet (entryTime r)); [now right|now left].
Qed.

(** The provenance of today's record after a call whose device and
    location arguments are non-empty strings. *)
Lemma markAttendance_stamps this now freshId st adminId dev loc :
  dev <> ""%string -> loc <> ""%string ->
  exists r',
    todayRecordOf now
      (attendanceHistory (markAttendance this now freshId st adminId (Some dev) (Some loc)))
    = Some r'
    /\ deviceInfo r' = Some dev /\ scanLocation r' = loc
    /\ verifiedBy r' = match todayRecordOf now (attendanceHistory this) with
                       | Some r => orElse adminId (verifiedBy r)
                       | None => adminId
                       end.
Proof.
  intros Hdev Hloc. rewrite todayRecordOf_markAttendance. eexists.
  split; [reflexivity|].
  destruct (todayRecordOf now (attendanceHistory this)) as [r|].
  - destruct (applyProvenance_fields adminId (Some dev) (Some loc) (applyStatus now st r))
      as (-> & -> & ->).
    rewrite (orDefault_Some loc _ Hloc).
    split; [unfold orElse; now rewrite (truthy_Some dev Hdev)|].
    split; [reflexivity|]. f_equal. unfold applyStatus.
    destruct st, (isSet (entryTime r)), r as [? ? [] ? ? ? ? ?]; reflexivity.
  - cbn [newRecord deviceInfo scanLocation verifiedBy].
    rewrite (orDefault_Some loc _ Hloc). repeat split.
Qed.

(** X15.  A QR scan never changes [attendanceCount]: the status it writes
    is 'entered' or 'left', never 'present'.  It sets [lastAttendance] to
    the instant of the write and always stamps today's record with a
    non-empty device (the request's, else the user agent, else 'Unknown
    Device') and a non-empty location (the request's, else 'Main
    Entrance'), and it never changes who verified the record. *)
Theorem scanMarkAttendance_stamps
    (student : Student) (currentScanTime now : Z) (freshId : ObjectId)
    (deviceInfoBody userAgentHeader scanLocationBody : option string) :
  let student' := scanMarkAttendance student currentScanTime now freshId
                    deviceInfoBody userAgentHeader scanLocationBody in
  attendanceCount student' = attendanceCount student
  /\ lastAttendance student' = Some now
  /\ exists r',
       todayRecordOf now (attendanceHistory student') = Some r'
       /\ deviceInfo r' =
          Some (orDefault (orElse deviceInfoBody userAgentHeader) "Unknown Device")
       /\ deviceInfo r' <> Some ""%string
       /\ scanLocation r' = orDefault scanLocationBody "Main Entrance"
       /\ scanLocation r' <> ""%string
       /\ verifiedBy r' = match todayRecordOf now (attendanceHistory student) with
                          | Some r => verifiedBy r
                          | None => None
                          end.
Proof.
  cbn zeta. unfold scanMarkAttendance.
  assert (Hloc : orElse scanLocationBody scanLocationBody = scanLocationBody)
    by (unfold orElse; now destruct (truthy scanLocationBody)).
  rewrite Hloc.
  set (dev := orDefault (orElse deviceInfoBody userAgentHeader) "Unknown Device").
  set (loc := orDefault scanLocationBody "Main Entrance").
  assert (Hd : dev <> ""%string) by (apply orDefault_nonempty; discriminate).
  assert (Hl : loc <> ""%string) by (apply orDefault_nonempty; discriminate).
  split; [|split].
  - rewrite markAttendance_count.
    destruct (statusToSave_cases (attendanceHistory student) currentScanTime) as [-> | ->];
      reflexivity.
  - apply markAttendance_lastAttendance.
  - destruct (markAttendance_stamps student now freshId
                (statusToSave (attendanceHistory student) currentScanTime)
                None dev loc Hd Hl) as (r' & Hr' & Hdev & Hsl & Hv).
    exists r'. rewrite Hdev, Hsl. repeat split; auto. congruence.
Qed.

Lemma statusToSave_agree (h : list AttendanceRecord) (t now : Z) :
  scanTodayIndex t h = todayIndex now h ->
  statusToSave h t = match todayRecordOf now h with
                     | Some r => intentOf r
                     | None => Entered
                     end.
Proof.
  intros Hag. unfold statusToSave, todayRecordOf. rewrite Hag.
  destruct (todayIndex now h) as [i|] eqn:Hi; [|reflexivity].
  destruct (todayIndex_Some _ _ _ Hi) as (r & -> & _). reflexivity.
Qed.

(** X16.  When the controller's lookup of today's record (by UTC day) and
    the model's (by local day) find the same record, a scan toggles as
    follows.  No record: one is created, 'entered', with entryTime [now].
    An open record (entryTime set, no leaveTime): it becomes 'left' with
    leaveTime [now], its entryTime kept.  A record with neither time: its
    entryTime becomes [now], it gets no leaveTime.  A record with a
    leaveTime: its leaveTime stays, and its entryTime stays when set and
    becomes [now] when it was null (a record created by a 'left' call).
    In the last two cases the status becomes 'entered' unless it is 'left',
    so a re-entry after a departure keeps the status 'left'. *)
Theorem scanMarkAttendance_toggle
    (student : Student) (currentScanTime now : Z) (freshId : ObjectId)
    (deviceInfoBody userAgentHeader scanLocationBody : option string) :
  scanTodayIndex currentScanTime (attendanceHistory student)
    = todayIndex now (attendanceHistory student) ->
  let student' := scanMarkAttendance student currentScanTime now freshId
                    deviceInfoBody userAgentHeader scanLocationBody in
  exists r',
    todayRecordOf now (attendanceHistory student') = Some r'
    /\ match todayRecordOf now (attendanceHistory student) with
       | None =>
           status r' = Entered /\ entryTime r' = Some now /\ leaveTime r' = None
       | Some r =>
           match leaveTime r, entryTime r with
           | None, Some e =>
               status r' = Left /\ entryTime r' = Some e /\ leaveTime r' = Some now
           | None, None =>
               status r' = (if Status_eqb (status r) Left then Left else Entered)
               /\ entryTime r' = Some now /\ leaveTime r' = None
           | Some l, e =>
               status r' = (if Status_eqb (status r) Left then Left else Entered)
               /\ entryTime r' = Some (default now e) /\ leaveTime r' = Some l
           end
       end.
Proof.
  intros Hag. cbn zeta. unfold scanMarkAttendance.
  rewrite todayRecordOf_markAttendance, (statusToSave_agree _ _ _ Hag).
  eexists. split; [reflexivity|].
  destruct (todayRecordOf now (attendanceHistory student)) as [r|];
    [|repeat split; reflexivity].
  match goal with
  | |- context [applyProvenance ?a ?d ?l ?x] =>
      destruct (applyProvenance_core a d l x) as (_ & _ & -> & -> & ->)
  end.
  unfold intentOf, applyStatus.
  destruct r as [i d s [e|] [l|] v sl di]; cbn; destruct s; cbn; repeat split; reflexivity.
Qed.

Lemma scanTodayIndex_insert t h i r r' :
  h !! i = Some r -> date r' = date r ->
  scanTodayIndex t (<[i := r']> h) = scanTodayIndex t h.
Proof.
  intros Hr Hd. unfold scanTodayIndex. apply findIndex_fmap.
  apply fmap_insert_same with (x := r); [exact Hr|]. now rewrite Hd.
Qed.

(** X17.  On a server whose local time is UTC the two lookups agree: for a
    scan and a write on the same UTC day the controller and the model
    resolve the same index for today's record. *)
Theorem scanTodayIndex_utc (h : list AttendanceRecord) (currentScanTime now : Z) :
  tzOffset = 0 ->
  utcDay currentScanTime = utcDay now ->
  scanTodayIndex currentScanTime h = todayIndex now h.
Proof.
  intros Htz Hday. unfold scanTodayIndex, todayIndex. apply findIndex_ext.
  intros r. rewrite sameDateString_today. unfold localDay, utcDay in *.
  now rewrite Htz, !Z.add_0_r, Hday.
Qed.

Lemma todayIndex_dates now h h' :
  date <$> h = date <$> h' -> todayIndex now h = todayIndex now h'.
Proof.
  intros Hd. unfold todayIndex.
  revert h' Hd. induction h as [|a h IH]; intros [|a' h'] Hd; try discriminate;
    [reflexivity|].
  rewrite !fmap_cons in Hd. injection Hd as Ha Hd.
  cbn [findIndex]. now rewrite Ha, (IH h' Hd).
Qed.

Lemma scanTodayIndex_dates t h h' :
  date <$> h = date <$> h' -> scanTodayIndex t h = scanTodayIndex t h'.
Proof.
  intros Hd. unfold scanTodayIndex.
  revert h' Hd. induction h as [|a h IH]; intros [|a' h'] Hd; try discriminate;
    [reflexivity|].
  rewrite !fmap_cons in Hd. injection Hd as Ha Hd.
  cbn [findIndex]. now rewrite Ha, (IH h' Hd).
Qed.

Lemma scanTodayIndex_same_day t t' h :
  utcDay t = utcDay t' -> scanTodayIndex t h = scanTodayIndex t' h.
Proof.
  intros Hd. unfold scanTodayIndex. apply findIndex_ext. intros r. now rewrite Hd.
Qed.

(** Both lookups find a record pushed on a day that had none. *)
Lemma lookups_agree_snoc t now h x :
  scanTodayIndex t h = None -> todayIndex now h = None ->
  utcDay (date x) = utcDay t -> localDay (date x) = localDay now ->
  scanTodayIndex t (h ++ [x]) = todayIndex now (h ++ [x]).
Proof.
  intros Hs Ht Hu Hl. unfold scanTodayIndex, todayIndex in *.
  rewrite (findIndex_snoc _ _ _ Hs), (findIndex_snoc _ _ _ Ht).
  rewrite sameDateString_today, Hu, Hl, !Z.eqb_refl. reflexivity.
Qed.

Lemma scanMarkAttendance_count student t now freshId d u sl :
  attendanceCount (scanMarkAttendance student t now freshId d u sl)
  = attendanceCount student.
Proof.
  unfold scanMarkAttendance. rewrite markAttendance_count.
  destruct (statusToSave_cases (attendanceHistory student) t) as [-> | ->];
    reflexivity.
Qed.

(** X18.  Three scans of one student on a day without a record, all on one
    UTC day and one local day: the first creates the record ('entered',
    entryTime at the first write), the second closes it ('left', leaveTime at
    the second write), and the third, which the controller resolves as a
    re-entry, leaves the record 'left' with the same entryTime and
    leaveTime.  One record is added in all, and [attendanceCount] does not
    move. *)
Theorem three_scans_of_a_day
    (student : Student) (t1 now1 t2 now2 t3 now3 : Z) (id1 id2 id3 : ObjectId)
    (deviceInfoBody userAgentHeader scanLocationBody : option string) :
  scanTodayIndex t1 (attendanceHistory student) = None ->
  todayIndex now1 (attendanceHistory student) = None ->
  utcDay t1 = utcDay now1 -> utcDay t2 = utcDay now1 -> utcDay t3 = utcDay now1 ->
  localDay now2 = localDay now1 -> localDay now3 = localDay now1 ->
  let scan s t now freshId :=
    scanMarkAttendance s t now freshId deviceInfoBody userAgentHeader scanLocationBody in
  let s1 := scan student t1 now1 id1 in
  let s2 := scan s1 t2 now2 id2 in
  let s3 := scan s2 t3 now3 id3 in
  statusToSave (attendanceHistory student) t1 = Entered
  /\ statusToSave (attendanceHistory s1) t2 = Left
  /\ statusToSave (attendanceHistory s2) t3 = Entered
  /\ (exists r, todayRecordOf now1 (attendanceHistory s3) = Some r
                /\ status r = Left /\ entryTime r = Some now1
                /\ leaveTime r = Some now2)
  /\ length (attendanceHistory s3) = S (length (attendanceHistory student))
  /\ attendanceCount s3 = attendanceCount student.
Proof.
  intros Hs1 Ht1 Hu1 Hu2 Hu3 Hl2 Hl3. cbn zeta.
  set (h := attendanceHistory student) in *.
  assert (E1 : statusToSave h t1 = Entered)
    by (unfold statusToSave; now rewrite Hs1).
  assert (Hnone : todayRecordOf now1 h = None)
    by (unfold todayRecordOf; now rewrite Ht1).
  (* first scan *)
  set (s1 := scanMarkAttendance student t1 now1 id1 deviceInfoBody userAgentHeader
              scanLocationBody).
  assert (H1 : exists x, attendanceHistory s1 = h ++ [x] /\ date x = now1
                 /\ status x = Entered /\ entryTime x = Some now1 /\ leaveTime x = None).
  { subst s1. unfold scanMarkAttendance. fold h. rewrite E1.
    rewrite (markAttendance_create _ _ _ _ _ _ _ Ht1). student_simpl.
    eexists. split; [reflexivity|]. repeat split. }
  destruct H1 as (x & Hh1 & Hdx & Hsx & Hex & Hlx).
  assert (T1 : todayRecordOf now1 (attendanceHistory s1) = Some x).
  { rewrite Hh1. unfold todayRecordOf, todayIndex in *.
    rewrite (findIndex_snoc _ _ _ Ht1), sameDateString_today, Hdx, Z.eqb_refl.
    now rewrite lookup_app_r, Nat.sub_diag by lia. }
  assert (A2 : scanTodayIndex t2 (attendanceHistory s1)
               = todayIndex now2 (attendanceHistory s1)).
  { rewrite Hh1. apply lookups_agree_snoc.
    - now rewrite (scanTodayIndex_same_day t2 t1) by congruence.
    - now rewrite (todayIndex_same_day now2 now1) by congruence.
    - congruence.
    - congruence. }
  assert (E2 : statusToSave (attendanceHistory s1) t2 = Left).
  { rewrite (statusToSave_agree _ _ _ A2), (todayRecordOf_same_day now2 now1), T1
      by congruence.
    unfold intentOf. now rewrite Hlx, Hex. }
  (* second scan *)
  set (s2 := scanMarkAttendance s1 t2 now2 id2 deviceInfoBody userAgentHeader
              scanLocationBody).
  assert (T2 : exists y, todayRecordOf now1 (attendanceHistory s2) = Some y
                 /\ status y = Left /\ entryTime y = Some now1
                 /\ leaveTime y = Some now2).
  { subst s2. unfold scanMarkAttendance at 1. rewrite E2.
    rewrite (todayRecordOf_same_day now1 now2) by congruence.
    rewrite todayRecordOf_markAttendance.
    rewrite (todayRecordOf_same_day now2 now1), T1 by congruence.
    eexists. split; [reflexivity|].
    match goal with
    | |- context [applyProvenance ?a ?d ?l ?z] =>
        destruct (applyProvenance_core a d l z) as (_ & _ & -> & -> & ->)
    end.
    cbn. auto. }
  destruct T2 as (y & T2 & Hsy & Hey & Hly).
  assert (D2 : date <$> attendanceHistory s2 = date <$> attendanceHistory s1).
  { subst s2. unfold scanMarkAttendance at 1.
    pose proof (markAttendance_history s1 now2 id2
                  (statusToSave (attendanceHistory s1) t2) None
                  (Some (orDefault (orElse deviceInfoBody userAgentHeader) "Unknown Device"))
                  (Some (orDefault (orElse scanLocationBody scanLocationBody) "Main Entrance")))
      as Hh.
    cbn zeta in Hh.
    now rewrite (todayRecordOf_same_day now2 now1), T1 in Hh by congruence. }
  assert (A3 : scanTodayIndex t3 (attendanceHistory s2)
               = todayIndex now3 (attendanceHistory s2)).
  { rewrite (scanTodayIndex_dates _ _ _ D2), (todayIndex_dates _ _ _ D2), Hh1.
    apply lookups_agree_snoc.
    - now rewrite (scanTodayIndex_same_day t3 t1) by congruence.
    - now rewrite (todayIndex_same_day now3 now1) by congruence.
    - congruence.
    - congruence. }
  assert (E3 : statusToSave (attendanceHistory s2) t3 = Entered).
  { rewrite (statusToSave_agree _ _ _ A3), (todayRecordOf_same_day now3 now1), T2
      by congruence.
    unfold intentOf. now rewrite Hly. }
  (* third scan *)
  set (s3 := scanMarkAttendance s2 t3 now3 id3 deviceInfoBody userAgentHeader
              scanLocationBody).
  assert (D3 : date <$> attendanceHistory s3 = date <$> attendanceHistory s2).
  { subst s3. unfold scanMarkAttendance at 1.
    pose proof (markAttendance_history s2 now3 id3
                  (statusToSave (attendanceHistory s2) t3) None
                  (Some (orDefault (orElse deviceInfoBody userAgentHeader) "Unknown Device"))
                  (Some (orDefault (orElse scanLocationBody scanLocationBody) "Main Entrance")))
      as Hh.
    cbn zeta in Hh.
    now rewrite (todayRecordOf_same_day now3 now1), T2 in Hh by congruence. }
  split; [exact E1|]. split; [exact E2|]. split; [exact E3|]. split; [|split].
  - subst s3. unfold scanMarkAttendance at 1. rewrite E3.
    rewrite (todayRecordOf_same_day now1 now3) by congruence.
    rewrite todayRecordOf_markAttendance.
    rewrite (todayRecordOf_same_day now3 now1), T2 by congruence.
    eexists. split; [reflexivity|].
    match goal with
    | |- context [applyProvenance ?a ?d ?l ?z] =>
        destruct (applyProvenance_core a d l z) as (_ & _ & -> & -> & ->)
    end.
    unfold applyStatus. rewrite Hey. cbn [isSet]. rewrite Hsy. cbn. auto.
  - apply (f_equal length) in D3, D2. rewrite !length_fmap in D3, D2.
    rewrite D3, D2, Hh1, length_app. cbn [length]. lia.
  - subst s3 s2 s1. now rewrite !scanMarkAttendance_count.
Qed.

(** ** The scheduled automatic leave *)

Lemma countIf_insert_change (p : AttendanceRecord -> bool) h i r r' :
  h !! i = Some r ->
  countIf p (<[i := r']> h) =
  countIf p h - (if p r then 1 else 0) + (if p r' then 1 else 0).
Proof.
  unfold countIf. revert i. induction h as [|a h IH]; intros [|i] Hr;
    try discriminate.
  - injection Hr as ->. cbn [List.filter]. change (<[0%nat := r']> (r :: h)) with (r' :: h).
    cbn [List.filter]. destruct (p r), (p r'); cbn [length]; lia.
  - change (<[S i := r']> (a :: h)) with (a :: <[i := r']> h).
    cbn [List.filter]. change ((a :: h) !! S i) with (h !! i) in Hr.
    specialize (IH i Hr). destruct (p a); cbn [length]; lia.
Qed.

Lemma openCount_le_dayCount today h :
  openCount today h <= Z.of_nat (dayCount (localDay today) h).
Proof.
  unfold openCount, countIf, dayCount, needsAutoLeave, sameDateString.
  induction h as [|r h IH]; [reflexivity|]. cbn [List.filter].
  destruct (localDay (date r) =? localDay today); cbn [andb];
    [destruct (_ && _)|]; cbn [length]; lia.
Qed.

Lemma autoMarkLeave_Some student today lt s' :
  autoMarkLeave student today lt = Some s' ->
  exists i r,
    findIndex (needsAutoLeave today) (attendanceHistory student) = Some i
    /\ attendanceHistory student !! i = Some r
    /\ needsAutoLeave today r = true
    /\ s' = {| attendanceHistory :=
                 <[i := set_status Left (set_leaveTime (Some lt) r)]>
                   (attendanceHistory student);
               attendanceCount := attendanceCount student;
               attendancePercentage :=
                 recomputePercentage
                   (<[i := set_status Left (set_leaveTime (Some lt) r)]>
                      (attendanceHistory student));
               lastAttendance := Some lt |}.
Proof.
  unfold autoMarkLeave.
  destruct (findIndex (needsAutoLeave today) (attendanceHistory student)) as [i|] eqn:Hi;
    [|discriminate].
  destruct (findIndex_Some _ _ _ Hi) as (r & Hr & Hp & _). rewrite Hr.
  intros H. injection H as <-. exists i, r. auto.
Qed.

(** X19.  The scheduled job, for one student: it skips the student exactly
    when no record of today is open (status 'entered' or 'present', no
    leaveTime).  Otherwise it closes the first such record, no record
    before it in the history being open: status 'left', leaveTime 18:30
    local time, id, date and entryTime kept, every other record untouched.
    It leaves [attendanceCount] alone, sets [lastAttendance] to that 18:30,
    recomputes the percentage over the history it leaves, which gives at
    most what the expression gives on the history before, and leaves one
    open record fewer. *)
Theorem autoMarkLeaveAttendanceFor_spec (student : Student) (jobClock leaveClock : Z) :
  let today := startOfLocalDay jobClock in
  let h := attendanceHistory student in
  (autoMarkLeaveAttendanceFor student jobClock leaveClock = None <->
   openCount today h = 0)
  /\ (forall student',
        autoMarkLeaveAttendanceFor student jobClock leaveClock = Some student' ->
        exists i r r',
          h !! i = Some r
          /\ localDay (date r) = localDay jobClock
          /\ isPresentOrEntered r = true /\ leaveTime r = None
          /\ (forall j y, (j < i)%nat -> h !! j = Some y ->
                needsAutoLeave today y = false)
          /\ attendanceHistory student' = <[i := r']> h
          /\ status r' = Left
          /\ leaveTime r' = Some (startOfLocalDay leaveClock + 66600000)
          /\ entryTime r' = entryTime r /\ _id r' = _id r /\ date r' = date r
          /\ attendanceCount student' = attendanceCount student
          /\ lastAttendance student' = Some (startOfLocalDay leaveClock + 66600000)
          /\ attendancePercentage student' =
             recomputePercentage (attendanceHistory student')
          /\ (attendancePercentage student' <= recomputePercentage h)%Q
          /\ openCount today (attendanceHistory student') = openCount today h - 1).
Proof.
  cbn zeta. unfold autoMarkLeaveAttendanceFor, eveningLeaveTime. split.
  - unfold autoMarkLeave, openCount, countIf.
    destruct (findIndex (needsAutoLeave (startOfLocalDay jobClock))
                (attendanceHistory student)) as [i|] eqn:Hi.
    + destruct (findIndex_Some _ _ _ Hi) as (r & Hr & Hp & _). rewrite Hr.
      split; [discriminate|]. intros H0.
      assert (Hnil : List.filter (needsAutoLeave (startOfLocalDay jobClock))
                       (attendanceHistory student) = [])
        by (destruct (List.filter _ _); [reflexivity|cbn [length] in H0; lia]).
      apply findIndex_None in Hnil. congruence.
    + apply findIndex_None in Hi. rewrite Hi. split; reflexivity.
  - intros s' Hs'.
    destruct (autoMarkLeave_Some _ _ _ _ Hs') as (i & r & Hi & Hr & Hp & ->).
    destruct (findIndex_Some _ _ _ Hi) as (_ & _ & _ & Hfirst).
    unfold needsAutoLeave in Hp.
    apply andb_true_iff in Hp as [Hp Hlv]. apply andb_true_iff in Hp as [Hday Hpe].
    rewrite sameDateString_today in Hday. apply Z.eqb_eq in Hday.
    assert (Hl : leaveTime r = None) by (destruct (leaveTime r); [discriminate|reflexivity]).
    exists i, r, (set_status Left (set_leaveTime (Some (startOfLocalDay leaveClock + 66600000)) r)).
    student_simpl.
    split; [exact Hr|]. split; [exact Hday|]. split; [exact Hpe|]. split; [exact Hl|].
    split; [exact Hfirst|].
    do 9 (split; [reflexivity|]). split.
    + unfold recomputePercentage. rewrite length_insert.
      apply percentageOf_le.
      rewrite (countIf_insert_change _ _ _ r _ Hr), Hpe. cbn. lia.
    + unfold openCount. rewrite (countIf_insert_change _ _ _ r _ Hr).
      unfold needsAutoLeave at 2 3. rewrite sameDateString_today.
      apply Z.eqb_eq in Hday. rewrite Hday, Hpe, Hl.
      cbn [set_status set_leaveTime leaveTime isSet negb andb].
      rewrite andb_false_r. lia.
Qed.

(** X20.  When the history holds at most one record of the day, the job is
    idempotent for the day: a student it has processed is skipped by every
    later run of that day. *)
Theorem autoMarkLeaveAttendanceFor_once
    (student student' : Student) (jobClock leaveClock jobClock' leaveClock' : Z) :
  (dayCount (localDay jobClock) (attendanceHistory student) <= 1)%nat ->
  localDay jobClock' = localDay jobClock ->
  autoMarkLeaveAttendanceFor student jobClock leaveClock = Some student' ->
  autoMarkLeaveAttendanceFor student' jobClock' leaveClock' = None.
Proof.
  intros Hone Hsame Hs'. unfold autoMarkLeaveAttendanceFor in *.
  destruct (autoMarkLeave_Some _ _ _ _ Hs') as (i & r & Hi & Hr & Hp & ->).
  unfold autoMarkLeave. student_simpl.
  replace (findIndex (needsAutoLeave (startOfLocalDay jobClock')) _) with (@None nat);
    [reflexivity|].
  symmetry. apply findIndex_None.
  set (h' := <[i := _]> (attendanceHistory student)).
  assert (Hc : countIf (needsAutoLeave (startOfLocalDay jobClock')) h' = 0).
  { assert (Hext : forall x, needsAutoLeave (startOfLocalDay jobClock') x
                             = needsAutoLeave (startOfLocalDay jobClock) x).
    { intros x. unfold needsAutoLeave. now rewrite !sameDateString_today, Hsame. }
    unfold countIf. rewrite (List.filter_ext _ _ Hext).
    fold (countIf (needsAutoLeave (startOfLocalDay jobClock)) h').
    subst h'. rewrite (countIf_insert_change _ _ _ r _ Hr), Hp.
    pose proof (openCount_le_dayCount (startOfLocalDay jobClock)
                  (attendanceHistory student)) as Hle.
    rewrite localDay_startOfLocalDay in Hle. unfold openCount in Hle.
    pose proof (countIf_bounds (needsAutoLeave (startOfLocalDay jobClock))
                  (attendanceHistory student)) as Hb.
    assert (Hpos : 1 <= countIf (needsAutoLeave (startOfLocalDay jobClock))
                          (attendanceHistory student)).
    { unfold countIf.
      assert (Hin : In r (List.filter (needsAutoLeave (startOfLocalDay jobClock))
                            (attendanceHistory student))).
      { apply List.filter_In. split; [|exact Hp].
        apply list_elem_of_In. eapply list_elem_of_lookup_2; eauto. }
      destruct (List.filter _ _); [destruct Hin|cbn [length]; lia]. }
    unfold needsAutoLeave at 2. cbn [set_status set_leaveTime leaveTime isSet negb].
    rewrite andb_false_r. lia. }
  unfold countIf in Hc. destruct (List.filter _ h'); [reflexivity|cbn [length] in Hc; lia].
Qed.

(** ** The admin's automatic checkout and manual marking *)

Lemma startOfLocalDay_eq (a b : Z) :
  startOfLocalDay a = startOfLocalDay b <-> localDay a = localDay b.
Proof.
  unfold startOfLocalDay, localDay, msPerDay.
  pose proof (Z.div_mod (a + tzOffset) 86400000 ltac:(lia)) as Ha.
  pose proof (Z.div_mod (b + tzOffset) 86400000 ltac:(lia)) as Hb.
  split; intros H; lia.
Qed.

Lemma dayCount_pos d h r :
  r ∈ h -> localDay (date r) = d -> (1 <= dayCount d h)%nat.
Proof.
  intros Hr Hd. unfold dayCount.
  assert (Hin : In r (List.filter (fun r0 => localDay (date r0) =? d) h)).
  { apply List.filter_In. split; [now apply list_elem_of_In|]. now apply Z.eqb_eq. }
  destruct (List.filter _ _); [destruct Hin|cbn [length]; lia].
Qed.

Lemma dayCount_two d h i j a b :
  h !! i = Some a -> h !! j = Some b -> i <> j ->
  localDay (date a) = d -> localDay (date b) = d ->
  (dayCount d h <= 1)%nat -> False.
Proof.
  unfold dayCount. revert i j. induction h as [|x h IH]; intros i j Hi Hj Hne Ha Hb;
    [discriminate|].
  cbn [List.filter].
  destruct i as [|i], j as [|j]; try congruence.
  - injection Hi as ->. change ((a :: h) !! S j) with (h !! j) in Hj.
    apply Z.eqb_eq in Ha. rewrite Ha. cbn [length].
    pose proof (dayCount_pos d h b ltac:(eapply list_elem_of_lookup_2; eauto) Hb) as Hp.
    unfold dayCount in Hp. lia.
  - injection Hj as ->. change ((b :: h) !! S i) with (h !! i) in Hi.
    apply Z.eqb_eq in Hb. rewrite Hb. cbn [length].
    pose proof (dayCount_pos d h a ltac:(eapply list_elem_of_lookup_2; eauto) Ha) as Hp.
    unfold dayCount in Hp. lia.
  - change ((x :: h) !! S i) with (h !! i) in Hi.
    change ((x :: h) !! S j) with (h !! j) in Hj.
    intros Hc. apply (IH i j Hi Hj ltac:(congruence) Ha Hb).
    destruct (localDay (date x) =? d); cbn [length] in Hc; lia.
Qed.

Lemma dayCount_dates d h h' :
  date <$> h = date <$> h' -> dayCount d h = dayCount d h'.
Proof.
  unfold dayCount. revert h'.
  induction h as [|a h IH]; intros [|a' h'] Hd; try discriminate; [reflexivity|].
  rewrite !fmap_cons in Hd. injection Hd as Ha Hd.
  cbn [List.filter]. rewrite Ha.
  destruct (localDay (date a') =? d); cbn [length]; now rewrite (IH h' Hd).
Qed.

Lemma todayRecordOf_exists now h r :
  r ∈ h -> localDay (date r) = localDay now ->
  exists r0, todayRecordOf now h = Some r0.
Proof.
  intros Hr Hd. unfold todayRecordOf.
  destruct (todayIndex now h) as [i|] eqn:Hi.
  - destruct (todayIndex_Some _ _ _ Hi) as (r0 & -> & _). eauto.
  - apply todayIndex_None in Hi. pose proof (dayCount_pos _ _ _ Hr Hd). lia.
Qed.

Lemma find_openToday today h r :
  List.find (openToday today) h = Some r ->
  r ∈ h /\ startOfLocalDay (date r) = today
  /\ status r = Entered /\ leaveTime r = None.
Proof.
  intros Hf. apply List.find_some in Hf as [Hin Hp].
  unfold openToday in Hp.
  apply andb_true_iff in Hp as [Hp Hl]. apply andb_true_iff in Hp as [Hd Hs].
  split; [now apply list_elem_of_In|]. split; [now apply Z.eqb_eq|].
  split; [now destruct (status r)|]. now destruct (leaveTime r).
Qed.

(** X21.  The admin's automatic checkout, for one student: a student with
    no open record of today ('entered', no leaveTime) is not processed.  A
    processed student, the write falling on the job's day, gets no new
    record: today's record becomes 'left' with leaveTime [now], stamped
    'Auto checkout system' / 'Auto Checkout'; [attendanceCount] is
    unchanged.  When the day has at most one record, the student is then no
    longer open, so a second run does not process it again. *)
Theorem runAutoCheckoutFor_spec
    (student : Student) (jobClock now : Z) (freshId : ObjectId)
    (userId : option ObjectId) :
  localDay now = localDay jobClock ->
  let h := attendanceHistory student in
  (runAutoCheckoutFor student jobClock now freshId userId = None <->
   forall r, r ∈ h -> openToday (startOfLocalDay jobClock) r = false)
  /\ (forall student',
        runAutoCheckoutFor student jobClock now freshId userId = Some student' ->
        length (attendanceHistory student') = length h
        /\ attendanceCount student' = attendanceCount student
        /\ lastAttendance student' = Some now
        /\ (exists r',
              todayRecordOf now (attendanceHistory student') = Some r'
              /\ status r' = Left /\ leaveTime r' = Some now
              /\ deviceInfo r' = Some "Auto checkout system"%string
              /\ scanLocation r' = "Auto Checkout"%string)
        /\ ((dayCount (localDay jobClock) h <= 1)%nat ->
            forall now' freshId' userId',
              runAutoCheckoutFor student' jobClock now' freshId' userId' = None)).
Proof.
  intros Hday. cbn zeta. unfold runAutoCheckoutFor. split.
  - destruct (List.find _ _) as [r|] eqn:Hf.
    + split; [discriminate|]. intros Hno.
      apply List.find_some in Hf as [Hin Hp]. apply list_elem_of_In in Hin.
      rewrite (Hno r Hin) in Hp. discriminate.
    + split; [|reflexivity]. intros _ r Hr.
      apply (List.find_none _ _ Hf). now apply list_elem_of_In.
  - intros s' Hs'.
    destruct (List.find _ _) as [r|] eqn:Hf; [|discriminate].
    injection Hs' as <-.
    destruct (find_openToday _ _ _ Hf) as (Hin & Hd & Hst & Hlv).
    apply startOfLocalDay_eq in Hd.
    destruct (todayRecordOf_exists now _ r Hin ltac:(congruence)) as (r0 & Hr0).
    pose proof (markAttendance_history student now freshId Left (orElse userId None)
                  (Some "Auto checkout system"%string) (Some "Auto Checkout"%string))
      as Hh.
    cbn zeta in Hh. rewrite Hr0 in Hh.
    split; [apply (f_equal length) in Hh; now rewrite !length_fmap in Hh|].
    split; [now rewrite markAttendance_count|].
    split; [apply markAttendance_lastAttendance|]. split.
    + exists (applyProvenance (orElse userId None)
                (Some "Auto checkout system"%string) (Some "Auto Checkout"%string)
                (applyStatus now Left r0)).
      split; [now rewrite todayRecordOf_markAttendance, Hr0|].
      repeat split; reflexivity.
    + intros Hone now' freshId' userId'.
      (* today's record after the call is closed, and it is the only one *)
      pose proof (todayRecordOf_markAttendance student now freshId Left
                    (orElse userId None) (Some "Auto checkout system"%string)
                    (Some "Auto Checkout"%string)) as Ht.
      rewrite Hr0 in Ht.
      set (h' := attendanceHistory
                   (markAttendance student now freshId Left (orElse userId None)
                      (Some "Auto checkout system"%string)
                      (Some "Auto Checkout"%string))) in *.
      destruct (List.find (openToday (startOfLocalDay jobClock)) h') as [x|] eqn:Hx;
        [exfalso|reflexivity].
      destruct (find_openToday _ _ _ Hx) as (Hxin & Hxd & Hxs & Hxl).
      apply startOfLocalDay_eq in Hxd.
      unfold todayRecordOf in Ht.
      destruct (todayIndex now h') as [i|] eqn:Hi; [|discriminate].
      apply list_elem_of_lookup_1 in Hxin as [j Hj].
      assert (Hij : i = j).
      { assert (Hc : (dayCount (localDay jobClock) h' <= 1)%nat)
          by now rewrite (dayCount_dates _ _ _ Hh).
        destruct (todayIndex_Some _ _ _ Hi) as (ri & Hri & Hdi).
        destruct (decide (i = j)) as [|Hne]; [assumption|exfalso].
        apply (dayCount_two (localDay jobClock) h' i j ri x); auto; congruence. }
      subst j. rewrite Ht in Hj.
      destruct (applyProvenance_core (orElse userId None)
                  (Some "Auto checkout system"%string) (Some "Auto Checkout"%string)
                  (applyStatus now Left r0)) as (_ & _ & Hs & _ & Hl).
      injection Hj as Hj. rewrite <- Hj in Hxl.
      change (set_status Left (set_leaveTime (Some now) r0))
        with (applyStatus now Left r0) in Hxl.
      rewrite Hl in Hxl. discriminate.
Qed.

Lemma parseStatus_statusName (st : Status) : parseStatus (statusName st) = Some st.
Proof. now destruct st. Qed.

Lemma parseStatus_Some (s : string) (st : Status) :
  parseStatus s = Some st -> s = statusName st.
Proof.
  unfold parseStatus.
  destruct (String.eqb s "entered") eqn:E1;
    [apply String.eqb_eq in E1; intros H; injection H as <-; exact E1|].
  destruct (String.eqb s "left") eqn:E2;
    [apply String.eqb_eq in E2; intros H; injection H as <-; exact E2|].
  destruct (String.eqb s "present") eqn:E3;
    [apply String.eqb_eq in E3; intros H; injection H as <-; exact E3|].
  destruct (String.eqb s "absent") eqn:E4;
    [apply String.eqb_eq in E4; intros H; injection H as <-; exact E4|].
  discriminate.
Qed.

Lemma truthy_Some_iff (s : string) : truthy (Some s) = true <-> s <> ""%string.
Proof.
  cbn [truthy]. rewrite negb_true_iff. split.
  - intros H ->. discriminate.
  - intros H. destruct (String.eqb_spec s ""); congruence.
Qed.

Lemma parseStatus_bind (statusArg : option string) :
  match statusArg ≫= parseStatus with
  | Some st => statusArg = Some (statusName st)
  | None => forall st, statusArg <> Some (statusName st)
  end.
Proof.
  destruct statusArg as [s|]; cbn [mbind option_bind]; [|discriminate].
  destruct (parseStatus s) as [st|] eqn:Hp.
  - f_equal. now apply parseStatus_Some.
  - intros st H. injection H as ->. rewrite parseStatus_statusName in Hp. discriminate.
Qed.

(** X22.  The admin's manual marking answers, in this order: 400 'Student
    ID is required' when the request carries no studentId (null or empty),
    without looking the student up; the 500 of its [catch] when the lookup
    rejects; 404 'Student not found' when the lookup finds no student; 400
    'Invalid status...' when the status is not one of the four strings of
    the schema's enum (compared exactly, so case matters, and a missing
    status is invalid); the model is called in none of these cases.
    Otherwise it answers 200: it writes that status through the model at
    the instant [now] on the student found, and today's record is stamped
    with a non-empty device (the request's, else 'Manual entry by admin')
    and location (the request's, else 'Admin Portal'), whatever provenance
    the record had.  So the answer is a 400 exactly when the studentId is
    missing, or the student is found and the status is invalid, and a 404
    exactly when a studentId is given and the lookup finds nobody. *)
Theorem markStudentAttendance_spec
    (findById : string -> Outcome (option Student))
    (studentId statusArg : option string) (userId : option ObjectId)
    (deviceInfoBody scanLocationBody : option string) (now : Z) (freshId : ObjectId) :
  let answer := markStudentAttendance findById studentId statusArg userId
                  deviceInfoBody scanLocationBody now freshId in
  (truthy studentId = false -> answer = BadRequest "Student ID is required")
  /\ (forall id, studentId = Some id -> id <> ""%string ->
        match findById id with
        | Thrown _ => answer = ServerError "Failed to mark attendance"
        | Returned None => answer = NotFound "Student not found"
        | Returned (Some student) =>
            ((forall st, statusArg <> Some (statusName st)) ->
             answer = BadRequest
                        "Invalid status. Must be one of: entered, left, present, absent")
            /\ (forall st, statusArg = Some (statusName st) ->
                  exists student' r',
                    answer = Saved student' (successMessage st)
                    /\ student' =
                       markAttendance student now freshId st (orElse userId None)
                         (Some (orDefault deviceInfoBody "Manual entry by admin"))
                         (Some (orDefault scanLocationBody "Admin Portal"))
                    /\ lastAttendance student' = Some now
                    /\ todayRecordOf now (attendanceHistory student') = Some r'
                    /\ deviceInfo r' =
                       Some (orDefault deviceInfoBody "Manual entry by admin")
                    /\ deviceInfo r' <> Some ""%string
                    /\ scanLocation r' = orDefault scanLocationBody "Admin Portal"
                    /\ scanLocation r' <> ""%string)
        end)
  /\ ((exists message, answer = BadRequest message) <->
      truthy studentId = false
      \/ exists id student,
           studentId = Some id /\ findById id = Returned (Some student)
           /\ forall st, statusArg <> Some (statusName st))
  /\ ((exists message, answer = NotFound message) <->
      exists id, studentId = Some id /\ id <> ""%string
                 /\ findById id = Returned None).
Proof.
  cbn zeta. unfold markStudentAttendance.
  pose proof (parseStatus_bind statusArg) as Hst.
  destruct studentId as [id|]; [destruct (truthy (Some id)) eqn:Hid|].
  - apply truthy_Some_iff in Hid.
    split; [discriminate|]. split; [|split].
    + intros id' Hid' _. injection Hid' as <-.
      destruct (findById id) as [[student|]|msg]; try reflexivity.
      destruct (statusArg ≫= parseStatus) as [st|].
      * split; [intros Hno; now destruct (Hno st)|].
        intros st' Hst'. rewrite Hst in Hst'. injection Hst' as Hst'.
        assert (st = st') as <- by (destruct st, st'; cbn in Hst'; congruence).
        set (dev := orDefault deviceInfoBody "Manual entry by admin").
        set (loc := orDefault scanLocationBody "Admin Portal").
        assert (Hd : dev <> ""%string) by (apply orDefault_nonempty; discriminate).
        assert (Hl : loc <> ""%string) by (apply orDefault_nonempty; discriminate).
        destruct (markAttendance_stamps student now freshId st (orElse userId None)
                    dev loc Hd Hl) as (r' & Hr' & Hdev & Hloc & _).
        eexists _, r'. split; [reflexivity|]. split; [reflexivity|].
        split; [apply markAttendance_lastAttendance|]. split; [exact Hr'|].
        rewrite Hdev, Hloc. repeat split; auto. congruence.
      * split; [reflexivity|]. intros st' Hst'. now destruct (Hst st').
    + split.
      * intros [m Hm]. right.
        destruct (findById id) as [[student|]|msg] eqn:Hfind; try discriminate.
        exists id, student. split; [reflexivity|]. split; [exact Hfind|].
        destruct (statusArg ≫= parseStatus) as [st|]; [discriminate|exact Hst].
      * intros [Hf|(id' & student & Hid' & Hfind & Hno)]; [discriminate|].
        injection Hid' as <-. rewrite Hfind.
        destruct (statusArg ≫= parseStatus) as [st|]; [now destruct (Hno st)|eauto].
    + split.
      * intros [m Hm]. exists id. split; [reflexivity|]. split; [exact Hid|].
        destruct (findById id) as [[student|]|msg] eqn:Hfind;
          try discriminate; [|reflexivity].
        destruct (statusArg ≫= parseStatus); discriminate.
      * intros (id' & Hid' & _ & Hfind). injection Hid' as <-. rewrite Hfind. eauto.
  - split; [reflexivity|]. split; [|split].
    + intros id' Hid' Hne. injection Hid' as <-.
      apply truthy_Some_iff in Hne. congruence.
    + split; [auto|eauto].
    + split; [intros [m Hm]; discriminate|].
      intros (id' & Hid' & Hne & _). injection Hid' as <-.
      apply truthy_Some_iff in Hne. congruence.
  - split; [reflexivity|]. split; [|split].
    + intros id' Hid'. discriminate.
    + split; [auto|eauto].
    + split; [intros [m Hm]; discriminate|].
      intros (id' & Hid' & _). discriminate.
Qed.

(** ** Phone numbers *)

Lemma digit_not_space (c : N) : isDigitUnit c = true -> isSpaceUnit c = false.
Proof.
  unfold isDigitUnit, isSpaceUnit. intros H.
  apply andb_true_iff in H as [H1 H2]. apply N.leb_le in H1, H2.
  cbn [existsb].
  repeat match goal with
         | |- context [N.eqb c ?k] =>
             replace (N.eqb c k) with false by (symmetry; apply N.eqb_neq; lia)
         end.
  replace (8192 <=? c)%N with false by (symmetry; apply N.leb_gt; lia).
  reflexivity.
Qed.

Lemma digit_kept (c : N) :
  isDigitUnit c = true -> negb (isSpaceUnit c || N.eqb c hyphen) = true.
Proof.
  intros H. rewrite (digit_not_space c H). unfold isDigitUnit, hyphen in *.
  apply andb_true_iff in H as [H1 H2]. apply N.leb_le in H1, H2.
  replace (N.eqb c 45) with false by (symmetry; apply N.eqb_neq; lia). reflexivity.
Qed.

Lemma filter_id_forallb {A : Type} (p : A -> bool) (l : list A) :
  forallb p l = true -> List.filter p l = l.
Proof.
  induction l as [|a l IH]; [reflexivity|]. cbn [forallb List.filter].
  intros H. apply andb_true_iff in H as [Ha Hl]. now rewrite Ha, IH.
Qed.

Lemma forallb_filter_self {A : Type} (p : A -> bool) (l : list A) :
  forallb p (List.filter p l) = true.
Proof.
  induction l as [|a l IH]; [reflexivity|]. cbn [List.filter].
  destruct (p a) eqn:Ha; [cbn [forallb]; now rewrite Ha|exact IH].
Qed.

Lemma stripSpacesAndHyphens_idem (v : list N) :
  stripSpacesAndHyphens (stripSpacesAndHyphens v) = stripSpacesAndHyphens v.
Proof. apply filter_id_forallb, forallb_filter_self. Qed.

Lemma forallb_impl {A : Type} (p q : A -> bool) (l : list A) :
  (forall x, p x = true -> q x = true) -> forallb p l = true -> forallb q l = true.
Proof.
  intros Hpq. induction l as [|a l IH]; [reflexivity|]. cbn [forallb].
  intros H. apply andb_true_iff in H as [Ha Hl]. now rewrite (Hpq a Ha), IH.
Qed.

(** The shape of a string the pattern accepts. *)
Lemma phonePattern_shape (s : list N) :
  phonePattern s = true ->
  exists ds, (s = ds \/ s = plusSign :: ds)
             /\ forallb isDigitUnit ds = true
             /\ (10 <= length ds <= 15)%nat.
Proof.
  unfold phonePattern. intros H.
  apply andb_true_iff in H as [H H15]. apply andb_true_iff in H as [Hd H10].
  apply Nat.leb_le in H10, H15.
  destruct s as [|c rest]; [cbn in H10; lia|].
  destruct (N.eqb c plusSign) eqn:Hc.
  - apply N.eqb_eq in Hc. subst c. exists rest. auto.
  - exists (c :: rest). auto.
Qed.

Lemma trimStart_nonspace (c : N) (s : list N) :
  isSpaceUnit c = false -> trimStart (c :: s) = c :: s.
Proof. intros H. cbn. now rewrite H. Qed.

Lemma trim_id (s : list N) :
  isSpaceUnit (hd 0%N s) = false -> isSpaceUnit (List.last s 0%N) = false ->
  s <> [] -> trim s = s.
Proof.
  intros Hfirst Hlast Hne. unfold trim.
  destruct s as [|c s']; [congruence|]. cbn [hd] in Hfirst.
  rewrite (trimStart_nonspace c s' Hfirst).
  destruct (rev (c :: s')) as [|z zs] eqn:Hrev.
  - apply (f_equal (@rev N)) in Hrev. rewrite rev_involutive in Hrev. discriminate.
  - assert (Hz : z = List.last (c :: s') 0%N).
    { apply (f_equal (@rev N)) in Hrev. rewrite rev_involutive in Hrev.
      rewrite Hrev. cbn [rev]. now rewrite List.last_last. }
    rewrite trimStart_nonspace by (now rewrite Hz).
    rewrite <- Hrev. apply rev_involutive.
Qed.

Lemma last_forallb (p : N -> bool) (l : list N) (d : N) :
  l <> [] -> forallb p l = true -> p (List.last l d) = true.
Proof.
  intros Hne Hall.
  assert (Hin : In (List.last l d) l).
  { destruct (List.exists_last Hne) as (l' & a & ->). rewrite List.last_last.
    apply in_or_app. right. now left. }
  rewrite forallb_forall in Hall. now apply Hall.
Qed.

(** The formatter on a string of the accepted shape. *)
Lemma formatPhoneNumber_shape (s ds : list N) :
  (s = ds \/ s = plusSign :: ds) ->
  forallb isDigitUnit ds = true -> ds <> [] ->
  formatPhoneNumber s = ds.
Proof.
  intros Hs Hd Hne. unfold formatPhoneNumber.
  assert (Hlast : isSpaceUnit (List.last ds 0%N) = false)
    by (apply digit_not_space, last_forallb; assumption).
  destruct ds as [|c ds']; [congruence|].
  assert (Hc : isDigitUnit c = true)
    by (cbn [forallb] in Hd; now apply andb_true_iff in Hd as [? _]).
  assert (Hcp : N.eqb c plusSign = false).
  { unfold isDigitUnit, plusSign in *. apply andb_true_iff in Hc as [H1 _].
    apply N.leb_le in H1. apply N.eqb_neq. lia. }
  destruct Hs as [-> | ->].
  - rewrite trim_id; [|cbn [hd]; now apply digit_not_space|exact Hlast|discriminate].
    rewrite Hcp. now apply filter_id_forallb.
  - rewrite trim_id; [| reflexivity | exact Hlast | discriminate].
    change (N.eqb plusSign plusSign) with true. cbn iota.
    now apply filter_id_forallb.
Qed.

(** X23.  A phone number that the validator accepts is stored by the
    pre-save hook as an optional '+' followed by 10 to 15 digits, nothing
    else; storing is idempotent, and the stored value passes the validator
    again, so later saves of the document do not fail on it. *)
Theorem preSavePhone_valid (v : list N) :
  v <> [] ->
  phoneValidator v = true ->
  let stored := preSavePhone v in
  (exists ds, (stored = ds \/ stored = plusSign :: ds)
              /\ forallb isDigitUnit ds = true
              /\ (10 <= length ds <= 15)%nat)
  /\ preSavePhone stored = stored
  /\ phoneValidator stored = true.
Proof.
  intros Hne Hv. cbn zeta. unfold preSavePhone.
  assert (Hp : phonePattern (stripSpacesAndHyphens v) = true)
    by (destruct v; [congruence|exact Hv]).
  split; [now apply phonePattern_shape|].
  split; [apply stripSpacesAndHyphens_idem|].
  unfold phoneValidator. rewrite stripSpacesAndHyphens_idem.
  now destruct (stripSpacesAndHyphens v).
Qed.

Lemma filter_digit_strip (v : list N) :
  List.filter isDigitUnit (stripSpacesAndHyphens v) = List.filter isDigitUnit v.
Proof.
  unfold stripSpacesAndHyphens. rewrite filter_filter_andb.
  apply List.filter_ext. intros c.
  destruct (isDigitUnit c) eqn:Hc; [|now rewrite andb_false_r].
  now rewrite (digit_kept c Hc).
Qed.

(** X24.  For a phone number that the validator accepts, the number the
    WhatsApp service dials is made of the digits of the number as entered,
    10 to 15 of them, the '+' dropped: both from the stored value directly
    and from the stored value with white space removed, as the QR
    controller passes it.  In particular it is never empty, so such a number
    is never answered with INVALID_PHONE. *)
Theorem formatPhoneNumber_valid (v : list N) :
  v <> [] ->
  phoneValidator v = true ->
  let stored := preSavePhone v in
  formatPhoneNumber stored = List.filter isDigitUnit v
  /\ formatPhoneNumber (stripSpaces stored) = List.filter isDigitUnit v
  /\ forallb isDigitUnit (formatPhoneNumber stored) = true
  /\ (10 <= length (formatPhoneNumber stored) <= 15)%nat.
Proof.
  intros Hne Hv. cbn zeta. unfold preSavePhone.
  assert (Hp : phonePattern (stripSpacesAndHyphens v) = true)
    by (destruct v; [congruence|exact Hv]).
  destruct (phonePattern_shape _ Hp) as (ds & Hs & Hd & Hlen).
  assert (Hds : ds <> []) by (destruct ds; [cbn in Hlen; lia|discriminate]).
  assert (Hdigits : List.filter isDigitUnit v = ds).
  { rewrite <- filter_digit_strip. destruct Hs as [-> | ->].
    - now apply filter_id_forallb.
    - cbn [List.filter]. change (isDigitUnit plusSign) with false. cbn iota.
      now apply filter_id_forallb. }
  assert (Hfmt : formatPhoneNumber (stripSpacesAndHyphens v) = ds)
    by (now apply formatPhoneNumber_shape).
  assert (Hsp : stripSpaces (stripSpacesAndHyphens v) = stripSpacesAndHyphens v).
  { unfold stripSpaces. apply filter_id_forallb.
    eapply forallb_impl; [|apply (forallb_filter_self _ v)].
    intros c Hc. cbn beta in Hc. now destruct (isSpaceUnit c). }
  rewrite Hsp, Hfmt, Hdigits. auto.
Qed.

(** ** Stability of the date sort *)

Lemma insertBy_filter {A : Type} (cmp : A -> A -> Z) (P : A -> bool) (x : A) (l : list A) :
  (forall a b, 0 < cmp a b -> P a = true -> P b = false) ->
  List.filter P (insertBy cmp x l) = List.filter P (x :: l).
Proof.
  intros Hsep. induction l as [|y l IH]; [reflexivity|]. cbn [insertBy].
  destruct (cmp x y <=? 0) eqn:Hc; [reflexivity|]. apply Z.leb_gt in Hc.
  cbn [List.filter] in *. rewrite IH.
  destruct (P x) eqn:Hx; [|reflexivity].
  now rewrite (Hsep x y Hc Hx).
Qed.

Lemma sortWith_filter {A : Type} (cmp : A -> A -> Z) (P : A -> bool) (l : list A) :
  (forall a b, 0 < cmp a b -> P a = true -> P b = false) ->
  List.filter P (sortWith cmp l) = List.filter P l.
Proof.
  intros Hsep. induction l as [|x l IH]; [reflexivity|].
  unfold sortWith in *. cbn [foldr]. rewrite (insertBy_filter _ _ _ _ Hsep).
  cbn [List.filter]. now rewrite IH.
Qed.

(** X25.  The date sort is stable: in the unpaginated result, records with
    one and the same date come in the order they have in the history, for
    either sort order. *)
Theorem getFilteredAttendanceHistory_stable
    (this : Student) (options : HistoryOptions) (d : Z) :
  sortBy options = "date"%string ->
  limit options = None ->
  List.filter (fun r => date r =? d)
    (records (getFilteredAttendanceHistory this options))
  = List.filter (fun r => date r =? d)
      (List.filter (withinBounds options) (attendanceHistory this)).
Proof.
  intros Hkey Hlim. unfold getFilteredAttendanceHistory. cbn [records].
  rewrite Hlim, Hkey, applyBounds_filter. cbn [paginate].
  apply sortWith_filter. intros a b Hc Ha. unfold historyCmp in Hc.
  cbn [String.eqb Ascii.eqb Bool.eqb andb] in Hc.
  apply Z.eqb_eq in Ha. apply Z.eqb_neq.
  destruct (String.eqb (sortOrder options) "asc"); lia.
Qed.

(** ** Invariants of the reachable states *)

Lemma dayCount_sublist d (h1 h2 : list AttendanceRecord) :
  h1 `sublist_of` h2 -> (dayCount d h1 <= dayCount d h2)%nat.
Proof.
  unfold dayCount. induction 1 as [|x l1 l2 _ IH|x l1 l2 _ IH]; cbn [List.filter].
  - lia.
  - destruct (localDay (date x) =? d); cbn [length]; lia.
  - destruct (localDay (date x) =? d); cbn [length]; lia.
Qed.

Lemma markAttendance_dayCount_other this now freshId st adminId dev loc d :
  d <> localDay now ->
  dayCount d (attendanceHistory (markAttendance this now freshId st adminId dev loc))
  = dayCount d (attendanceHistory this).
Proof.
  intros Hd.
  pose proof (markAttendance_history this now freshId st adminId dev loc) as Hh.
  cbn zeta in Hh.
  destruct (todayRecordOf now (attendanceHistory this)).
  - now apply dayCount_dates.
  - destruct Hh as (r & -> & Hr). rewrite dayCount_snoc, Hr.
    replace (localDay now =? d) with false by (symmetry; apply Z.eqb_neq; congruence).
    lia.
Qed.

(** X26.  In every state reached from a new student by the model's
    mutating operations, in any order and at any instants, the history holds
    at most one record per local calendar day, [lastAttendance] is null
    exactly when the history is empty, [attendanceCount] is not negative,
    and the cached percentage is the one computed from the history. *)
Theorem Reachable_invariants (this : Student) :
  Reachable this ->
  (forall d, (dayCount d (attendanceHistory this) <= 1)%nat)
  /\ (lastAttendance this = None <-> attendanceHistory this = [])
  /\ 0 <= attendanceCount this
  /\ attendancePercentage this = recomputePercentage (attendanceHistory this).
Proof.
  induction 1 as [|this m _ (IHday & IHlast & IHcount & IHpct)].
  - repeat split; try reflexivity; intros; cbn; lia.
  - destruct m as [c|recordId|]; cbn [mutate].
    + unfold markCall. split; [|split; [|split]].
      * intros d. destruct (decide (d = localDay (callNow c))) as [->|Hne].
        -- pose proof (markAttendance_dayCount this (callNow c) (callFreshId c)
                         (callStatus c) (callAdminId c) (callDeviceInfo c)
                         (callScanLocation c)) as Hc.
           cbn zeta in Hc. specialize (IHday (localDay (callNow c))). lia.
        -- rewrite markAttendance_dayCount_other by exact Hne. apply IHday.
      * rewrite markAttendance_lastAttendance. split; [discriminate|].
        intros Hnil.
        destruct (markAttendance_today_exists this (callNow c) (callFreshId c)
                    (callStatus c) (callAdminId c) (callDeviceInfo c)
                    (callScanLocation c)) as (r & Hr & _).
        rewrite Hnil in Hr. discriminate.
      * rewrite markAttendance_count.
        destruct (callStatus c), (todayRecordOf (callNow c) (attendanceHistory this))
          as [r|]; try destruct (isSet (leaveTime r)); lia.
      * apply markAttendance_percentage.
    + destruct (findIndex (fun record => String.eqb (_id record) recordId)
                  (attendanceHistory this)) as [i|] eqn:Hi.
      * destruct (findIndex_Some _ _ _ Hi) as (r & Hr & _).
        rewrite (deleteAttendanceRecord_found _ _ _ _ Hi Hr). cbn [fst]. student_simpl.
        split; [|split; [|split]].
        -- intros d. pose proof (dayCount_sublist d _ _
                                   (sublist_delete (attendanceHistory this) i)).
           specialize (IHday d). lia.
        -- pose proof (latestBySort_IsLatestDate (delete i (attendanceHistory this)))
             as Hl.
           destruct (latestBySort (delete i (attendanceHistory this))) as [t|].
           ++ split; [discriminate|]. intros Hnil. rewrite Hnil in Hl.
              destruct Hl as ((x & Hx & _) & _). now apply elem_of_nil in Hx.
           ++ split; [intros _; exact Hl|reflexivity].
        -- destruct (isPresentOrEntered r); lia.
        -- reflexivity.
      * rewrite (deleteAttendanceRecord_missing _ _ Hi). cbn [fst]. auto.
    + cbn. repeat split; try reflexivity; intros; lia.
Qed.

(** X27.  Invariant I3 along a run, by calendar day: in every state
    reached from a new student by the model's mutating operations, in any
    order, under a clock that does not run backwards, no record is dated
    after the clock, and [lastAttendance] falls on the calendar day of the
    chronologically latest record of the history, or is null when the
    history is empty. *)
Theorem lastAttendance_latest_day_invariant (t : Z) (this : Student) :
  TimelyReachable t this ->
  IsLatestDay (attendanceHistory this) (lastAttendance this)
  /\ (forall r, r ∈ attendanceHistory this -> date r <= t).
Proof.
  induction 1 as [t|t t' this _ [IHday IHle] Ht|t this c _ [IHday IHle] Ht
                  |t this recordId _ [IHday IHle]|t this _ [IHday IHle]].
  - split; [reflexivity|]. intros r Hr. now apply elem_of_nil in Hr.
  - split; [exact IHday|]. intros r Hr. specialize (IHle r Hr). lia.
  - assert (Hle : forall r, r ∈ attendanceHistory this -> date r <= callNow c)
      by (intros r Hr; specialize (IHle r Hr); lia).
    unfold markCall. split.
    + now apply markAttendance_IsLatestDay.
    + apply markAttendance_dates_bounded; [exact Hle|lia].
  - destruct (findIndex (fun record => String.eqb (_id record) recordId)
                (attendanceHistory this)) as [i|] eqn:Hi.
    + destruct (findIndex_Some _ _ _ Hi) as (r & Hr & _).
      rewrite (deleteAttendanceRecord_found _ _ _ _ Hi Hr). cbn [fst]. student_simpl.
      split; [apply IsLatestDate_IsLatestDay, latestBySort_IsLatestDate|].
      intros x Hx. apply IHle. now apply list_elem_of_delete_inv in Hx.
    + rewrite (deleteAttendanceRecord_missing _ _ Hi). cbn [fst]. auto.
  - split; [reflexivity|]. intros r Hr. now apply elem_of_nil in Hr.
Qed.

End Ledger.

(** ** The theorems at concrete inputs *)

Lemma markAttendance_sticky_left_witness :
  todayIndex colombo jan15_1700 (attendanceHistory leftStudent) = Some 0%nat
  /\ exists r',
       todayRecordOf colombo jan15_1700
         (attendanceHistory
            (markCall colombo leftStudent (callAt jan15_1700 Entered))) = Some r'
       /\ status r' = Left
       /\ entryTime r' = Some jan15_0800.
Proof.
  split; [reflexivity|].
  destruct (markAttendance_sticky_left colombo leftStudent jan15_1700
              (callFreshId (callAt jan15_1700 Entered)) Entered None None
              (Some defaultScanLocation) 0%nat leftRecord
              eq_refl eq_refl eq_refl (or_introl eq_refl))
    as (r' & _ & Htoday & Hstatus & _ & _ & _ & Hentry & _).
  exists r'. split; [exact Htoday|]. split; [exact Hstatus|exact Hentry].
Defined.

Lemma counters_after_mutation_witness :
  0 <= attendanceCount newStudent
  /\ (let this' := mutate colombo newStudent (MarkAttendance (callAt jan15_0800 Present)) in
      (attendancePercentage this' == 100)%Q /\ attendanceCount this' = 1).
Proof.
  split; [reflexivity|].
  destruct (counters_after_mutation colombo newStudent
              (MarkAttendance (callAt jan15_0800 Present)) (Z.le_refl 0) I)
    as (Hpct & _ & _ & _ & _ & Hcount).
  split; [|exact Hcount]. rewrite Hpct. reflexivity.
Defined.

Lemma markAttendance_one_record_per_day_witness :
  (dayCount colombo (localDay colombo jan15_0800) (attendanceHistory newStudent) <= 1)%nat
  /\ dayCount colombo (localDay colombo jan15_0800)
       (attendanceHistory (markAll colombo newStudent dayCalls)) = 1%nat.
Proof.
  assert (H0 : (dayCount colombo (localDay colombo jan15_0800)
                  (attendanceHistory newStudent) <= 1)%nat) by (cbn; lia).
  split; [exact H0|].
  assert (Hday : Forall (fun c => localDay colombo (callNow c) = localDay colombo jan15_0800)
                   dayCalls)
    by (repeat (constructor; [reflexivity|]); constructor).
  destruct (markAttendance_one_record_per_day colombo newStudent
              (localDay colombo jan15_0800) dayCalls H0 Hday) as (_ & Hone & _).
  apply (Hone 3%nat); [lia|discriminate].
Defined.

Lemma lastAttendance_after_mutation_witness :
  completes leftStudent (MarkAttendance (callAt jan15_1700 Entered))
  /\ (forall r, r ∈ attendanceHistory leftStudent -> date r <= jan15_1700)
  /\ IsLatestDay colombo
       (attendanceHistory
          (mutate colombo leftStudent (MarkAttendance (callAt jan15_1700 Entered))))
       (Some jan15_1700).
Proof.
  assert (Hle : forall r, r ∈ attendanceHistory leftStudent -> date r <= jan15_1700).
  { intros r Hr. apply list_elem_of_singleton in Hr. subst r. vm_compute. discriminate. }
  assert (Hnow : forall c, MarkAttendance (callAt jan15_1700 Entered) = MarkAttendance c ->
                           callNow c = jan15_1700).
  { intros c Hc. injection Hc as <-. reflexivity. }
  split; [exact I|]. split; [exact Hle|].
  exact (proj1 (lastAttendance_after_mutation colombo leftStudent
                  (MarkAttendance (callAt jan15_1700 Entered)) jan15_1700 I Hle Hnow)).
Defined.

Lemma date_range_filter_witness :
  limit noonToDayEnd = None
  /\ records (getFilteredAttendanceHistory colombo noFieldOrder twoRecordStudent noonToDayEnd)
       ≡ₚ [eveningRecord].
Proof.
  split; [reflexivity|].
  exact (proj1 (date_range_filter colombo noFieldOrder twoRecordStudent
                  noonToDayEnd eq_refl)).
Defined.

Lemma markAttendance_absent_frame_witness :
  todayIndex colombo jan15_1700 (attendanceHistory leftStudent) = Some 0%nat
  /\ exists r',
       attendanceHistory (markCall colombo leftStudent (callAt jan15_1700 Absent)) = [r']
       /\ status r' = Left
       /\ entryTime r' = Some jan15_0800
       /\ leaveTime r' = Some jan15_1200.
Proof.
  split; [reflexivity|].
  destruct (markAttendance_absent_frame colombo leftStudent jan15_1700
              (callFreshId (callAt jan15_1700 Absent)) None None
              (Some defaultScanLocation) 0%nat leftRecord eq_refl eq_refl)
    as (r' & Hh & Hs & He & Hl & _).
  exists r'. repeat split; assumption.
Defined.

(** ** Where the code departs from the specification *)

(** Against C2: [attendanceCount] is not determined by the history.  One
    'present' call, and the same call followed by a second 'present' call
    five minutes later, leave the same history, with counts 1 and 2. *)
Lemma attendanceCount_not_determined_by_history :
  let a := mutate colombo newStudent (MarkAttendance (callAt jan15_0800 Present)) in
  let b := mutate colombo a (MarkAttendance (callAt jan15_0805 Present)) in
  Reachable colombo a /\ Reachable colombo b
  /\ attendanceHistory a = attendanceHistory b
  /\ attendanceCount a = 1 /\ attendanceCount b = 2.
Proof.
  cbn zeta. split; [|split].
  - apply Reachable_step, Reachable_new.
  - apply Reachable_step, Reachable_step, Reachable_new.
  - repeat split; reflexivity.
Qed.

(** C4 (a defect of the scan path's lookup of today's record).  On a
    server in Asia/Colombo a first scan at 00:30 creates the day's record,
    dated 00:30, with entryTime set and no leaveTime.  At 08:00 of the same
    day this is today's record, as the model's [markAttendance] resolves
    it, and it is open, so the scan is a departure and 'left' is to be
    written.  The controller compares UTC dates, on which 00:30 in Colombo
    is still the day before: its lookup finds no record, [statusToSave] is
    'entered', and the model, which does find the record, leaves it
    'entered' with no leaveTime. *)
Lemma scan_intent_misses_todays_record :
  scanMarkAttendance colombo newStudent jan15_0030 jan15_0030
    "65a4e2f0c3a1b2d4e5f60004"%string None None None = nightStudent
  /\ localDay colombo jan15_0030 = localDay colombo jan15_0800
  /\ todayRecordOf colombo jan15_0800 (attendanceHistory nightStudent) = Some nightRecord
  /\ entryTime nightRecord = Some jan15_0030
  /\ leaveTime nightRecord = None
  /\ utcDay jan15_0030 = utcDay jan15_0800 - 1
  /\ scanTodayIndex jan15_0800 (attendanceHistory nightStudent) = None
  /\ statusToSave (attendanceHistory nightStudent) jan15_0800 = Entered
  /\ (let after := scanMarkAttendance colombo nightStudent jan15_0800 jan15_0800
                     "65a4e2f0c3a1b2d4e5f60005"%string None None None in
      _id <$> attendanceHistory after = [_id nightRecord]
      /\ status <$> attendanceHistory after = [Entered]
      /\ entryTime <$> attendanceHistory after = [Some jan15_0030]
      /\ leaveTime <$> attendanceHistory after = [None]).
Proof. cbn zeta. repeat split; reflexivity. Qed.

(** C8 (a defect of the start bound).  Asked for the records of 15 January,
    with a [startDate] and an [endDate] that both denote 12:00 of that day,
    the query keeps the record made at 17:00, the end bound being moved to
    23:59:59.999, and drops the record made at 08:00, the start bound not
    being moved to midnight: the record is dated after both the local and
    the UTC midnight that starts [startDate]'s day.  With the [startDate]
    alone the student whose only record it is gets an empty history. *)
Lemma startDate_bound_is_not_midnight :
  startOfLocalDay colombo jan15_1200 <= date leftRecord
  /\ utcDay jan15_1200 * msPerDay <= date leftRecord
  /\ leftRecord ∈ attendanceHistory leftStudent
  /\ records (getFilteredAttendanceHistory colombo noFieldOrder leftStudent fromNoon) = []
  /\ records (getFilteredAttendanceHistory colombo noFieldOrder twoRecordStudent
                noonToDayEnd) = [eveningRecord].
Proof.
  split; [vm_compute; discriminate|]. split; [vm_compute; discriminate|].
  split; [constructor|]. split; reflexivity.
Qed.

(** Against C10: of the 25 records of [monthStudent], all in the range, 7
    are 'present', and 100 x 7 / 25 is 28; the double that
    [(present / total) * 100] evaluates to is 28 + 2^-48, which prints as
    28.000000000000004.  The quotient 7 / 25 is not a double, and the
    double nearest to it, times 100, rounds up. *)
Lemma getAttendanceStats_percentage_is_rounded :
  let st := getAttendanceStats monthStudent jan15_0800 (jan15_0800 + 24 * msPerDay) in
  AttendanceStats.total st = 25
  /\ AttendanceStats.present st = 7
  /\ (100 * inject_Z 7 / inject_Z 25 == 28)%Q
  /\ (percentageOfDouble (AttendanceStats.present st) (AttendanceStats.total st)
      == 28 + 1 / inject_Z (2 ^ 48))%Q
  /\ ~ (percentageOfDouble (AttendanceStats.present st) (AttendanceStats.total st)
        == 100 * inject_Z (AttendanceStats.present st)
           / inject_Z (AttendanceStats.total st))%Q.
Proof.
  cbn zeta. split; [reflexivity|]. split; [reflexivity|].
  split; [reflexivity|]. split; [vm_compute; reflexivity|].
  vm_compute. discriminate.
Qed.

(** The same on the cached percentage: with 1 record of 3 'entered' the
    double is 33.33333333333333 (below 100 / 3, which no double is), with
    11 of 20 it is 55.00000000000001 (11 / 20 is not a double). *)
Lemma percentageOfDouble_is_rounded :
  (percentageOfDouble 1 3 == 4691249611844266 / inject_Z (2 ^ 47))%Q
  /\ (percentageOfDouble 1 3 < 100 * 1 / 3)%Q
  /\ (percentageOfDouble 11 20 == 55 + 1 / inject_Z (2 ^ 47))%Q
  /\ (percentageOfDouble 1 1 == 100)%Q
  /\ (percentageOfDouble 1 2 == 50)%Q
  /\ (percentageOfDouble 0 5 == 0)%Q.
Proof. repeat split; vm_compute; reflexivity. Qed.

(** ** Scenarios of the specification *)

(** An arrival on an empty history creates one record with entryTime set
    and leaveTime null, leaves the count at 0 and makes the percentage 100;
    a departure the same day updates that record; a later 'present' keeps
    the entry time and the status 'left' and does not count. *)
Example scenario_one_day :
  let s1 := markCall colombo newStudent (callAt jan15_0800 Entered) in
  let s2 := markCall colombo s1 (callAt jan15_1200 Left) in
  let s3 := markCall colombo s2 (callAt jan15_1700 Present) in
  (status <$> attendanceHistory s1 = [Entered]
   /\ entryTime <$> attendanceHistory s1 = [Some jan15_0800]
   /\ leaveTime <$> attendanceHistory s1 = [None]
   /\ attendanceCount s1 = 0
   /\ (attendancePercentage s1 == 100)%Q)
  /\ (status <$> attendanceHistory s2 = [Left]
      /\ leaveTime <$> attendanceHistory s2 = [Some jan15_1200])
  /\ (status <$> attendanceHistory s3 = [Left]
      /\ entryTime <$> attendanceHistory s3 = [Some jan15_0800]
      /\ attendanceCount s3 = 0).
Proof. cbn zeta. repeat split; reflexivity. Qed.

(** Deleting the only record resets [lastAttendance] to null and the
    percentage to 0. *)
Example scenario_delete_only_record :
  let res := deleteAttendanceRecord leftStudent "65a4e2f0c3a1b2d4e5f60001" in
  snd res = Returned leftRecord
  /\ attendanceHistory (fst res) = []
  /\ lastAttendance (fst res) = None
  /\ attendancePercentage (fst res) = 0%Q.
Proof. cbn zeta. repeat split; reflexivity. Qed.

(** After an arrival at 08:00 and a departure at 12:00 the only record is
    dated 08:00 and [lastAttendance] is 12:00: an instant of the record's
    day, and the date of no record to the millisecond. *)
Example scenario_lastAttendance_same_day :
  let a := mutate colombo newStudent (MarkAttendance (callAt jan15_0800 Entered)) in
  let b := mutate colombo a (MarkAttendance (callAt jan15_1200 Left)) in
  date <$> attendanceHistory b = [jan15_0800]
  /\ lastAttendance b = Some jan15_1200
  /\ localDay colombo jan15_1200 = localDay colombo jan15_0800
  /\ IsLatestDay colombo (attendanceHistory b) (lastAttendance b)
  /\ ~ IsLatestDate (attendanceHistory b) (lastAttendance b).
Proof.
  cbn zeta. split; [reflexivity|]. split; [reflexivity|]. split; [reflexivity|].
  split.
  - eexists. split; [apply list_elem_of_singleton; reflexivity|].
    split; [|reflexivity].
    intros x Hx. apply list_elem_of_singleton in Hx. subst x. reflexivity.
  - intros ((r & Hr & Hd) & _).
    apply list_elem_of_singleton in Hr. subst r. discriminate Hd.
Qed.

(** ** The further theorems at concrete inputs *)

Lemma markAll_left_absorbing_witness :
  exists r',
    todayRecordOf colombo jan15_1700
      (attendanceHistory (markAll colombo leftStudent dayCalls)) = Some r'
    /\ status r' = Left.
Proof.
  assert (Hday : Forall (fun c => localDay colombo (callNow c) = localDay colombo jan15_1700)
                   dayCalls)
    by (repeat (constructor; [reflexivity|]); constructor).
  destruct (markAll_left_absorbing colombo leftStudent jan15_1700 dayCalls leftRecord
              eq_refl eq_refl Hday) as (r' & Hr' & Hs & _).
  exists r'. split; assumption.
Defined.

Lemma markAll_first_entry_wins_witness :
  exists r',
    todayRecordOf colombo jan15_1700
      (attendanceHistory (markAll colombo leftStudent dayCalls)) = Some r'
    /\ entryTime r' = Some jan15_0800.
Proof.
  assert (Hday : Forall (fun c => localDay colombo (callNow c) = localDay colombo jan15_1700)
                   dayCalls)
    by (repeat (constructor; [reflexivity|]); constructor).
  destruct (markAll_first_entry_wins colombo leftStudent jan15_1700 dayCalls leftRecord
              jan15_0800 eq_refl eq_refl Hday) as (r' & Hr' & He & _).
  exists r'. split; assumption.
Defined.

Lemma markAttendance_then_delete_witness :
  todayIndex colombo jan15_0800 (attendanceHistory newStudent) = None
  /\ attendanceHistory
       (fst (deleteAttendanceRecord
               (markCall colombo newStudent (callAt jan15_0800 Entered))
               (callFreshId (callAt jan15_0800 Entered)))) = [].
Proof.
  split; [reflexivity|].
  assert (Hfresh : forall r, r ∈ attendanceHistory newStudent ->
                             _id r <> callFreshId (callAt jan15_0800 Entered))
    by (intros r Hr; apply elem_of_nil in Hr; destruct Hr).
  exact (proj1 (proj2 (markAttendance_then_delete colombo newStudent jan15_0800
                         (callFreshId (callAt jan15_0800 Entered)) Entered None None
                         (Some defaultScanLocation) eq_refl Hfresh))).
Defined.

Lemma deleteAttendanceRecord_once_witness :
  snd (deleteAttendanceRecord leftStudent (_id leftRecord)) = Returned leftRecord
  /\ S (length (attendanceHistory
                  (fst (deleteAttendanceRecord leftStudent (_id leftRecord)))))
     = length (attendanceHistory leftStudent).
Proof.
  split; [reflexivity|].
  exact (proj1 (deleteAttendanceRecord_once leftStudent (_id leftRecord) leftRecord
                  eq_refl)).
Defined.

Lemma attendancePercentage_in_range_witness :
  (attendancePercentage
     (mutate colombo leftStudent (MarkAttendance (callAt jan15_1700 Present))) <= 100)%Q.
Proof.
  exact (proj2 (attendancePercentage_in_range colombo leftStudent
                  (MarkAttendance (callAt jan15_1700 Present)) I)).
Defined.

Lemma calculateAttendancePercentage_le_cache_witness :
  let this' := mutate colombo newStudent (MarkAttendance (callAt jan15_0800 Entered)) in
  (calculateAttendancePercentage this' <= attendancePercentage this')%Q.
Proof.
  exact (proj1 (proj2 (calculateAttendancePercentage_le_cache colombo newStudent
                         (MarkAttendance (callAt jan15_0800 Entered)) I))).
Defined.

Lemma repairLastAttendance_after_mutation_witness :
  repairLastAttendance (mutate colombo leftStudent (DeleteAttendanceRecord (_id leftRecord)))
  = mutate colombo leftStudent (DeleteAttendanceRecord (_id leftRecord)).
Proof.
  apply (repairLastAttendance_after_mutation colombo leftStudent
           (DeleteAttendanceRecord (_id leftRecord))).
  exists leftRecord. reflexivity.
Defined.

Lemma getFilteredAttendanceHistory_sorted_witness :
  sortBy defaultOptions = "date"%string
  /\ StronglySorted (fun a b => date b <= date a)
       (records (getFilteredAttendanceHistory colombo noFieldOrder twoRecordStudent
                   defaultOptions)).
Proof.
  split; [reflexivity|].
  exact (getFilteredAttendanceHistory_sorted colombo noFieldOrder twoRecordStudent
           defaultOptions eq_refl).
Defined.

Lemma getFilteredAttendanceHistory_pages_witness :
  records (getFilteredAttendanceHistory colombo noFieldOrder twoRecordStudent
             (withPage (Some (Int 1)) (Int 0) defaultOptions))
  ++ records (getFilteredAttendanceHistory colombo noFieldOrder twoRecordStudent
                (withPage (Some (Int 1)) (Int 1) defaultOptions))
  = records (getFilteredAttendanceHistory colombo noFieldOrder twoRecordStudent
               (withPage (Some (Int 2)) (Int 0) defaultOptions)).
Proof.
  exact (proj2 (getFilteredAttendanceHistory_pages colombo noFieldOrder twoRecordStudent
                  defaultOptions 0 1 1 (Z.le_refl 0) ltac:(lia) ltac:(lia))).
Defined.

Lemma scanMarkAttendance_toggle_witness :
  scanTodayIndex jan15_1200 (attendanceHistory enteredStudent)
    = todayIndex colombo jan15_1200 (attendanceHistory enteredStudent)
  /\ exists r',
       todayRecordOf colombo jan15_1200
         (attendanceHistory
            (scanMarkAttendance colombo enteredStudent jan15_1200 jan15_1200
               (_id enteredRecord) None None None)) = Some r'
       /\ status r' = Left /\ leaveTime r' = Some jan15_1200.
Proof.
  split; [reflexivity|].
  destruct (scanMarkAttendance_toggle colombo enteredStudent jan15_1200 jan15_1200
              (_id enteredRecord) None None None eq_refl)
    as (r' & Hr' & Hs & _ & Hl).
  exists r'. repeat split; assumption.
Defined.

Lemma scanTodayIndex_utc_witness :
  scanTodayIndex jan15_0800 (attendanceHistory leftStudent)
  = todayIndex 0 jan15_1200 (attendanceHistory leftStudent).
Proof.
  exact (scanTodayIndex_utc 0 (attendanceHistory leftStudent) jan15_0800 jan15_1200
           eq_refl eq_refl).
Defined.

Lemma three_scans_of_a_day_witness :
  let scan s t := scanMarkAttendance colombo s t t (_id enteredRecord) None None None in
  let s3 := scan (scan (scan newStudent jan15_0800) jan15_1200) jan15_1700 in
  exists r,
    todayRecordOf colombo jan15_0800 (attendanceHistory s3) = Some r
    /\ status r = Left /\ entryTime r = Some jan15_0800
    /\ leaveTime r = Some jan15_1200.
Proof.
  exact (proj1 (proj2 (proj2 (proj2
           (three_scans_of_a_day colombo newStudent
              jan15_0800 jan15_0800 jan15_1200 jan15_1200 jan15_1700 jan15_1700
              (_id enteredRecord) (_id enteredRecord) (_id enteredRecord)
              None None None
              eq_refl eq_refl eq_refl eq_refl eq_refl eq_refl eq_refl))))).
Defined.

Lemma autoMarkLeaveAttendanceFor_once_witness :
  exists student',
    autoMarkLeaveAttendanceFor colombo enteredStudent jan15_1700 jan15_1700
      = Some student'
    /\ autoMarkLeaveAttendanceFor colombo student' jan15_1700 jan15_1700 = None.
Proof.
  eexists. split; [reflexivity|].
  apply (autoMarkLeaveAttendanceFor_once colombo enteredStudent _
           jan15_1700 jan15_1700 jan15_1700 jan15_1700);
    [vm_compute; lia|reflexivity|reflexivity].
Defined.

Lemma runAutoCheckoutFor_spec_witness :
  localDay colombo jan15_1700 = localDay colombo jan15_1200
  /\ forall student',
       runAutoCheckoutFor colombo enteredStudent jan15_1200 jan15_1700
         (_id enteredRecord) None = Some student' ->
       attendanceCount student' = attendanceCount enteredStudent.
Proof.
  split; [reflexivity|]. intros student' Hs'.
  exact (proj1 (proj2 (proj2 (runAutoCheckoutFor_spec colombo enteredStudent
                                jan15_1200 jan15_1700 (_id enteredRecord) None eq_refl)
                         student' Hs'))).
Defined.

Lemma preSavePhone_valid_witness :
  phoneValidator examplePhone = true
  /\ phoneValidator (preSavePhone examplePhone) = true.
Proof.
  split; [reflexivity|].
  exact (proj2 (proj2 (preSavePhone_valid examplePhone ltac:(discriminate) eq_refl))).
Defined.

Lemma formatPhoneNumber_valid_witness :
  phoneValidator examplePhone = true
  /\ formatPhoneNumber (preSavePhone examplePhone)
     = [57; 52; 55; 55; 49; 50; 51; 52; 53; 54; 55]%N.
Proof.
  split; [reflexivity|].
  exact (proj1 (formatPhoneNumber_valid examplePhone ltac:(discriminate) eq_refl)).
Defined.

Lemma getFilteredAttendanceHistory_stable_witness :
  List.filter (fun r => date r =? jan15_1700)
    (records (getFilteredAttendanceHistory colombo noFieldOrder twoRecordStudent
                defaultOptions))
  = [eveningRecord].
Proof.
  exact (getFilteredAttendanceHistory_stable colombo noFieldOrder twoRecordStudent
           defaultOptions jan15_1700 eq_refl eq_refl).
Defined.

Lemma Reachable_invariants_witness :
  (dayCount colombo (localDay colombo jan15_0800)
     (attendanceHistory (markAll colombo newStudent dayCalls)) <= 1)%nat.
Proof.
  assert (Hreach : Reachable colombo (markAll colombo newStudent dayCalls)).
  { apply (Reachable_step colombo _ (MarkAttendance (callAt jan15_1700 Present))).
    apply (Reachable_step colombo _ (MarkAttendance (callAt jan15_1200 Left))).
    apply (Reachable_step colombo _ (MarkAttendance (callAt jan15_0800 Entered))).
    apply Reachable_new. }
  exact (proj1 (Reachable_invariants colombo _ Hreach) (localDay colombo jan15_0800)).
Defined.

Lemma lastAttendance_latest_day_invariant_witness :
  IsLatestDay colombo (attendanceHistory (markAll colombo newStudent dayCalls))
    (Some jan15_1700).
Proof.
  assert (Hreach : TimelyReachable colombo jan15_1700
                     (markAll colombo newStudent dayCalls)).
  { apply (TimelyReachable_mark colombo jan15_1200 _ (callAt jan15_1700 Present));
      [|vm_compute; discriminate].
    apply (TimelyReachable_mark colombo jan15_0800 _ (callAt jan15_1200 Left));
      [|vm_compute; discriminate].
    apply (TimelyReachable_mark colombo jan15_0800 _ (callAt jan15_0800 Entered));
      [|vm_compute; discriminate].
    apply TimelyReachable_new. }
  exact (proj1 (lastAttendance_latest_day_invariant colombo _ _ Hreach)).
Defined.
